(** * Chatbot generator: configuration resolution and template rendering

    A shallow embedding of the pure core of [generate_chatbot.py],
    [templates/update_config.py] and [templates/llm.py], and the
    properties the specification states about it.

    Conventions.  Python [str] values are [string]s (characters with code
    points 0..255).  Dictionaries whose iteration order matters
    ([config.items()], [DEFAULT_LLM_PARAMS.items()]) are association lists
    in iteration order; dictionaries that are only looked up and updated
    are [gmap]s.  The file system is a [gmap] from the paths that exist to
    a directory or a file with its text.  A call that may raise returns a
    [result]; [logger] calls and [print]s are collected as a list of
    [event]s. *)

From Stdlib Require Import String Ascii ZArith NArith Lia Bool DecimalString.
From stdpp Require Import gmap strings list fin_maps.

#[local] Set Warnings "-register-all".

(** ** Python string primitives *)

Module PyStr.

(** [s.startswith(p)] *)
Fixpoint startswith (p s : string) : bool :=
  match p, s with
  | EmptyString, _ => true
  | String _ _, EmptyString => false
  | String a p', String c s' => if Ascii.eqb a c then startswith p' s' else false
  end.

(** [s[n:]] *)
Fixpoint drop (n : nat) (s : string) : string :=
  match n, s with
  | O, _ => s
  | S _, EmptyString => EmptyString
  | S k, String _ s' => drop k s'
  end.

(** [s[:n]] *)
Fixpoint take (n : nat) (s : string) : string :=
  match n, s with
  | O, _ => EmptyString
  | S _, EmptyString => EmptyString
  | S k, String c s' => String c (take k s')
  end.

(** [s.find(sub)]: index of the leftmost occurrence, [None] for [-1]. *)
Fixpoint find (sub s : string) : option nat :=
  if startswith sub s then Some 0
  else match s with
       | EmptyString => None
       | String _ s' => option_map S (find sub s')
       end.

(** [sub in s] *)
Definition contains (sub s : string) : bool :=
  match find sub s with Some _ => true | None => false end.

(** [s.replace(old, new)] for a non-empty [old]: a left-to-right scan over
    [s]; after a match the next [len(old) - 1] characters belong to the
    matched occurrence and are skipped, and the inserted [new] is never
    scanned. *)
Fixpoint replace_from (old new : string) (skip : nat) (s : string) : string :=
  match s with
  | EmptyString => EmptyString
  | String c s' =>
      match skip with
      | S k => replace_from old new k s'
      | O =>
          if startswith old s
          then new +:+ replace_from old new (String.length old - 1) s'
          else String c (replace_from old new 0 s')
      end
  end.

(** [s.replace("", new)] puts [new] before every character and at the end. *)
Fixpoint interleave (new s : string) : string :=
  match s with
  | EmptyString => new
  | String c s' => new +:+ String c (interleave new s')
  end.

Definition replace (old new s : string) : string :=
  match old with
  | EmptyString => interleave new s
  | String _ _ => replace_from old new 0 s
  end.

(** [s.split(sep)] for a non-empty [sep] (Python raises [ValueError] on an
    empty one, see [split]): the pieces between the non-overlapping
    occurrences of [sep] found from left to right.  The list is never
    empty. *)
Fixpoint split_from (sep : string) (skip : nat) (s : string) : list string :=
  match s with
  | EmptyString => [EmptyString]
  | String c s' =>
      match skip with
      | S k => split_from sep k s'
      | O =>
          if startswith sep s
          then EmptyString :: split_from sep (String.length sep - 1) s'
          else match split_from sep 0 s' with
               | piece :: rest => String c piece :: rest
               | [] => [String c EmptyString]
               end
      end
  end.

Definition split (sep s : string) : option (list string) :=
  match sep with
  | EmptyString => None
  | String _ _ => Some (split_from sep 0 s)
  end.

(** [c.isspace()] on code points 0..255: TAB..CR, FS..US, space, NEL and
    the no-break space. *)
Definition isspace (c : ascii) : bool :=
  let n := N_of_ascii c in
  ((9 <=? n) && (n <=? 13) || (28 <=? n) && (n <=? 32)
   || (n =? 133) || (n =? 160))%N.

Fixpoint lstrip (s : string) : string :=
  match s with
  | EmptyString => EmptyString
  | String c s' => if isspace c then lstrip s' else s
  end.

Fixpoint rstrip (s : string) : string :=
  match s with
  | EmptyString => EmptyString
  | String c s' =>
      match rstrip s' with
      | EmptyString => if isspace c then EmptyString else String c EmptyString
      | String _ _ as r => String c r
      end
  end.

(** [s.strip()] *)
Definition strip (s : string) : string := rstrip (lstrip s).

(** [c.lower()] on code points 0..255: A..Z and the accented capitals
    (except the multiplication sign) move up by 32. *)
Definition lower_char (c : ascii) : ascii :=
  let n := N_of_ascii c in
  if ((65 <=? n) && (n <=? 90)
      || (192 <=? n) && (n <=? 222) && negb (n =? 215))%N
  then ascii_of_N (n + 32) else c.

Fixpoint lower (s : string) : string :=
  match s with
  | EmptyString => EmptyString
  | String c s' => String (lower_char c) (lower s')
  end.

(** all characters of [s] satisfy [f] *)
Fixpoint all_chars (f : ascii -> bool) (s : string) : bool :=
  match s with
  | EmptyString => true
  | String c s' => f c && all_chars f s'
  end.

End PyStr.

Import PyStr.

(** ** Exceptions, results and log events *)

Inductive exn : Type :=
  | JSONDecodeError (msg : string)
  | TypeError
  | ValueError
  | IndexError
  | KeyError (key : string)
  | OSError (msg : string)
  | UnicodeDecodeError
  | SystemExit (code : Z).

(** [except Exception] catches everything but [SystemExit], which derives
    from [BaseException]. *)
Definition is_Exception (e : exn) : bool :=
  match e with SystemExit _ => false | _ => true end.

Inductive result (A : Type) : Type :=
  | Ok (a : A)
  | Raise (e : exn).
Arguments Ok {A} a.
Arguments Raise {A} e.

#[global] Instance result_ret : MRet result := fun A a => Ok a.
#[global] Instance result_bind : MBind result :=
  fun A B k r => match r with Ok a => k a | Raise e => Raise e end.

(** [l[i]] *)
Definition item {A} (l : list A) (i : nat) : result A :=
  match l !! i with Some x => Ok x | None => Raise IndexError end.

(** [s.split(sep)] with its [ValueError] *)
Definition py_split (s sep : string) : result (list string) :=
  match split sep s with Some l => Ok l | None => Raise ValueError end.

(** [logger.info/warning/error(msg)] and [print(msg)]; a message built as
    [f"...: {str(e)}"] keeps its prefix and the exception. *)
Inductive event : Type :=
  | LogInfo (msg : string)
  | LogWarning (msg : string)
  | LogError (prefix : string) (e : exn)
  | Print (msg : string)
  | PrintExn (prefix : string) (e : exn).

(** ** JSON values and the dictionary operations used on them *)

(** What [json.loads] / [json.load] return.  A float keeps its decimal
    numeral [m * 10^e]; nothing here depends on float arithmetic. *)
Inductive json : Type :=
  | JNull
  | JBool (b : bool)
  | JInt (z : Z)
  | JFloat (m e : Z)
  | JStr (s : string)
  | JArr (l : list json)
  | JObj (m : gmap string json).

(** [key in v] for a [str] key *)
Definition py_in (key : string) (v : json) : result bool :=
  match v with
  | JObj m => Ok (bool_decide (is_Some (m !! key)))
  | JArr l =>
      Ok (existsb (fun x => match x with JStr s => String.eqb s key | _ => false end) l)
  | JStr s => Ok (contains key s)
  | JNull | JBool _ | JInt _ | JFloat _ _ => Raise TypeError
  end.

(** [v[key]] for a [str] key *)
Definition py_getitem (v : json) (key : string) : result json :=
  match v with
  | JObj m => match m !! key with Some x => Ok x | None => Raise (KeyError key) end
  | _ => Raise TypeError
  end.

(** [v[key] = x] for a [str] key *)
Definition py_setitem (v : json) (key : string) (x : json) : result json :=
  match v with
  | JObj m => Ok (JObj (<[key := x]> m))
  | _ => Raise TypeError
  end.

(** ** Registries *)

Definition DEFAULT_SYSTEM_PROMPT : string :=
  "You are a helpful assistant specialized in {{chatbot_description}}. 
You provide accurate, concise information based on your knowledge and the documents in your knowledge base.
If you don't know something or if the information isn't in your knowledge base, admit it clearly.
Always maintain a helpful and professional tone.".

Definition DEFAULT_LLM_PARAMS : list (string * json) :=
  [ ("temperature", JFloat 7 (-1));
    ("top_k", JInt 40);
    ("top_p", JFloat 9 (-1));
    ("max_tokens", JInt 1024);
    ("presence_penalty", JFloat 0 (-1));
    ("frequency_penalty", JFloat 0 (-1)) ]%string.

(** the dictionary object [DEFAULT_LLM_PARAMS] as a value *)
Definition DEFAULT_LLM_PARAMS_dict : gmap string json :=
  list_to_map DEFAULT_LLM_PARAMS.

Record theme_colors : Type := {
  tc_primary : string;
  tc_bg : string;
  tc_text : string;
  tc_name : option string   (* only read through [.get('name', 'Custom')] *)
}.

Record font_style : Type := {
  fs_name : string;
  fs_font_family : string;
  fs_style : string
}.

Definition THEME_COLORS : list (string * theme_colors) :=
  [ ("sky", {| tc_primary := "#0EA5E9"; tc_bg := "#F0F9FF"; tc_text := "#0C4A6E"; tc_name := None |});
    ("forest", {| tc_primary := "#22C55E"; tc_bg := "#F0FDF4"; tc_text := "#14532D"; tc_name := None |});
    ("lavender", {| tc_primary := "#8B5CF6"; tc_bg := "#F5F3FF"; tc_text := "#4C1D95"; tc_name := None |});
    ("sunset", {| tc_primary := "#F59E0B"; tc_bg := "#FFFBEB"; tc_text := "#78350F"; tc_name := None |});
    ("ocean", {| tc_primary := "#0891B2"; tc_bg := "#ECFEFF"; tc_text := "#155E75"; tc_name := None |}) ]%string.

Definition FONT_STYLES : list font_style :=
  [ {| fs_name := "Modern"; fs_font_family := "Inter, system-ui, sans-serif"; fs_style := "clean" |};
    {| fs_name := "Classic"; fs_font_family := "Georgia, serif"; fs_style := "traditional" |};
    {| fs_name := "Minimal"; fs_font_family := "Roboto, Arial, sans-serif"; fs_style := "minimal" |};
    {| fs_name := "Technical"; fs_font_family := "JetBrains Mono, monospace"; fs_style := "code" |};
    {| fs_name := "Friendly"; fs_font_family := "Quicksand, sans-serif"; fs_style := "rounded" |} ]%string.

(** ** PromptExtractor: [get_system_prompt] *)

Fixpoint str_repeat (c : ascii) (n : nat) : string :=
  match n with O => EmptyString | S k => String c (str_repeat c k) end.

(** [try: body except Exception as e: handler(e)]: the events of the
    handler are emitted, anything that is not an [Exception] propagates. *)
Definition try_except {A} (body : result A) (handler : exn -> list event * A)
  : list event * result A :=
  match body with
  | Ok a => ([], Ok a)
  | Raise e =>
      if is_Exception e
      then let '(evs, a) := handler e in (evs, Ok a)
      else ([], Raise e)
  end.

(** [DEFAULT_SYSTEM_PROMPT.replace('{{chatbot_description}}', chatbot_description)] *)
Definition default_prompt (chatbot_description : string) : string :=
  replace "{{chatbot_description}}" chatbot_description DEFAULT_SYSTEM_PROMPT.

(** The body of the [try] of [get_system_prompt] (lines 159-172); [edited]
    is what opening and reading the hand-off file gives. *)
Definition read_system_prompt (chatbot_description : string) (edited : result string)
  : result string :=
  raw ← edited;
  let content := strip raw in
  if contains "Delete everything above this line" content then
    if contains "## Default Prompt" content && contains "## Tips" content then
      parts ← py_split content "## Default Prompt";
      rest ← item parts 1;
      parts' ← py_split rest "## Tips";
      first ← item parts' 0;
      let default_section := strip first in
      Ok (replace "{{chatbot_description}}" chatbot_description default_section)
    else Ok (default_prompt chatbot_description)
  else Ok content.

Definition system_prompt_banner (chatbot_description : string) : list event :=
  [ Print (String "010" (str_repeat "=" 80));
    Print "CUSTOM SYSTEM PROMPT";
    Print (str_repeat "=" 80);
    Print (String "010" "A file named 'system_prompt.md' has been created.");
    Print "Please open this file in your text editor, replace the content with your custom";
    Print ("system prompt for a chatbot specializing in " +:+ chatbot_description
           +:+ ", and save it.");
    Print (String "010" "For example, you can use another AI like ChatGPT to help create a good system prompt.");
    Print (String "010" "Press Enter when you've finished editing the file...") ]%string.

(** [get_system_prompt(chatbot_description)]; [template_exists] is
    [template_file.exists()].  The copy of the template into the working
    directory and its removal in the [finally] clause do not change the
    value returned and are not represented. *)
Definition get_system_prompt (chatbot_description : string)
    (template_exists : bool) (edited : result string) : list event * result string :=
  if negb template_exists then
    ([LogWarning "System prompt template not found, using default"],
     Ok (default_prompt chatbot_description))
  else
    let '(evs, r) :=
      try_except (read_system_prompt chatbot_description edited)
        (fun e =>
           ([ LogError "Error reading system prompt file: " e;
              PrintExn "Error reading the system prompt file: " e;
              Print "Using default system prompt instead." ],
            default_prompt chatbot_description)) in
    (system_prompt_banner chatbot_description ++ evs, r).

(** ** ConfigResolver: [get_llm_parameters] *)

(** [re.search(r'```json\s*(.*?)\s*```', content, re.DOTALL)] and its
    [group(1)].  The leftmost [```json] is the match start (two
    occurrences cannot overlap, and a later one would itself close the
    first); the greedy [\s*] eats all white space after it; the lazy group
    then stops at the shortest text followed by white space and a fence,
    which is the text before the next [```] without its trailing white
    space.  No closing fence after the leftmost opener: no match. *)
Definition search_json_block (content : string) : option string :=
  match find "```json" content with
  | None => None
  | Some i =>
      let t := lstrip (drop (i + 7) content) in
      match find "```" t with
      | None => None
      | Some j => Some (rstrip (take j t))
      end
  end.

(** [for key, default_value in DEFAULT_LLM_PARAMS.items():
       if key not in custom_params: custom_params[key] = default_value] *)
Fixpoint fill_defaults (defaults : list (string * json)) (custom_params : json)
  : result json :=
  match defaults with
  | [] => Ok custom_params
  | (key, default_value) :: rest =>
      present ← py_in key custom_params;
      custom_params' ← (if present : bool then Ok custom_params
                        else py_setitem custom_params key default_value);
      fill_defaults rest custom_params'
  end.

(** The body of the [try] of [get_llm_parameters] (lines 216-236).
    [json_loads] is the standard library's parser. *)
Definition read_llm_parameters (json_loads : string -> result json)
    (edited : result string) : result json :=
  content ← edited;
  custom_params ← match search_json_block content with
                   | Some json_str => json_loads json_str
                   | None => json_loads content
                   end;
  fill_defaults DEFAULT_LLM_PARAMS custom_params.

Definition llm_parameters_banner : list event :=
  [ Print (String "010" (str_repeat "=" 80));
    Print "CUSTOM LLM PARAMETERS";
    Print (str_repeat "=" 80);
    Print (String "010" "A file named 'llm_parameters.json' has been created.");
    Print "Please open this file in your text editor, adjust the parameters as needed,";
    Print "and save it. The file contains documentation and examples for different use cases.";
    Print (String "010" "Press Enter when you've finished editing the file...") ]%string.

(** [get_llm_parameters()] *)
Definition get_llm_parameters (json_loads : string -> result json)
    (template_exists : bool) (edited : result string) : list event * result json :=
  if negb template_exists then
    ([LogWarning "LLM parameters template not found, using default"],
     Ok (JObj DEFAULT_LLM_PARAMS_dict))
  else
    let '(evs, r) :=
      try_except (read_llm_parameters json_loads edited)
        (fun e =>
           ([ LogError "Error reading LLM parameters file: " e;
              PrintExn "Error reading the LLM parameters file: " e;
              Print "Using default LLM parameters instead." ],
            JObj DEFAULT_LLM_PARAMS_dict)) in
    (llm_parameters_banner ++ evs, r).

(** ** The file system *)

(** a path is the list of its components; the file system maps the paths
    that exist to what is there *)
Definition path : Type := list string.

Inductive node : Type :=
  | Dir
  | File (content : string).

Fixpoint path_str (p : path) : string :=
  match p with
  | [] => EmptyString
  | c :: p' => "/" +:+ c +:+ path_str p'
  end.

(** [p.exists()] *)
Definition fs_exists (f : gmap path node) (p : path) : bool :=
  bool_decide (is_Some (f !! p)).

(** [shutil.rmtree(p)]: removes the directory and everything below it *)
Definition rmtree (p : path) (f : gmap path node) : result (gmap path node) :=
  match f !! p with
  | Some Dir => Ok (filter (fun kv => ¬ p `prefix_of` kv.1) f)
  | Some (File _) => Raise (OSError "Not a directory")
  | None => Raise (OSError "No such file or directory")
  end.

(** [p.mkdir(parents=True, exist_ok=True)]: every missing directory on the
    way to [p] is made; a file in the way raises. *)
Fixpoint mkdir_from (made todo : path) (f : gmap path node)
  : result (gmap path node) :=
  match todo with
  | [] => Ok f
  | c :: todo' =>
      let d := made ++ [c] in
      match f !! d with
      | Some Dir => mkdir_from d todo' f
      | Some (File _) => Raise (OSError "File exists")
      | None => mkdir_from d todo' (<[d := Dir]> f)
      end
  end.

Definition mkdir_parents (p : path) (f : gmap path node) : result (gmap path node) :=
  mkdir_from [] p f.

(** ** TemplateRenderer: [copy_and_update_template_files] *)

(** values of the configuration dictionary, and their [str()] *)
Inductive pyval : Type :=
  | PStr (s : string)
  | PInt (z : Z)
  | PBool (b : bool)
  | PNone.

Definition py_str (v : pyval) : string :=
  match v with
  | PStr s => s
  | PInt z => NilZero.string_of_int (Z.to_int z)
  | PBool true => "True"
  | PBool false => "False"
  | PNone => "None"
  end.

(** [f"{{{{{{ {key} }}}}}}"]: three braces, a space, the key, a space,
    three braces *)
Definition placeholder (key : string) : string := "{{{ " +:+ key +:+ " }}}".

(** [for key, value in config.items():
       content = content.replace(placeholder, str(value))] *)
Definition replace_placeholders (config : list (string * pyval)) (content : string)
  : string :=
  fold_left (fun content kv => replace (placeholder kv.1) (py_str kv.2) content)
            config content.

(** [open(p, 'w')] and [f.write(content)] where the parent directory is
    there: a file at [p] is overwritten, a directory at [p] raises *)
Definition write_text (p : path) (content : string) (f : gmap path node)
  : result (gmap path node) :=
  match f !! p with
  | Some Dir => Raise (OSError "Is a directory")
  | _ => Ok (<[p := File content]> f)
  end.

(** [copy_and_update_template_files(template_dir, target_dir, config)] on
    the file system [f].  [template_files] is what
    [template_dir.glob("**/*")] filtered by [is_file()] yields, in
    enumeration order: the path relative to [template_dir] and the outcome
    of opening and reading the file as UTF-8 text.  For each file the
    parent of the target path is made first (line 294), then the file is
    read, then the rendered text is written (line 305).  There is no [try]
    in the function: the first step that raises ends the loop, and what
    was made and written before stays. *)
Fixpoint render_files (template_files : list (path * result string))
    (target_dir : path) (f : gmap path node) (config : list (string * pyval))
  : gmap path node * result () :=
  match template_files with
  | [] => (f, Ok ())
  | (relative_path, read) :: rest =>
      let target_path := target_dir ++ relative_path in
      match mkdir_parents (removelast target_path) f with
      | Raise e => (f, Raise e)
      | Ok f1 =>
          match read with
          | Raise e => (f1, Raise e)
          | Ok content =>
              match write_text target_path (replace_placeholders config content) f1 with
              | Raise e => (f1, Raise e)
              | Ok f2 => render_files rest target_dir f2 config
              end
          end
      end
  end.

Definition copy_and_update_template_files
    (template_files : list (path * result string)) (target_dir : path)
    (f : gmap path node) (config : list (string * pyval))
  : list event * gmap path node * result () :=
  let '(f', r) := render_files template_files target_dir f config in
  ([LogInfo "Copying and updating template files"], f', r).

(** The [config] dictionary that [main] builds (lines 1175-1189), in the
    order of its keys; [date_created] is the day read from the clock. *)
Definition main_config (chatbot_name chatbot_description model_name
    github_username date_created theme_name : string)
    (theme_colors : theme_colors) (font_style : font_style)
  : list (string * pyval) :=
  let repository_name := replace " " "-" (lower chatbot_name) +:+ "-chatbot" in
  [ ("chatbot_name", PStr chatbot_name);
    ("chatbot_description", PStr chatbot_description);
    ("model_name", PStr model_name);
    ("github_username", PStr github_username);
    ("repository_name", PStr repository_name);
    ("date_created", PStr date_created);
    ("theme_name", PStr theme_name);
    ("primary_color", PStr (tc_primary theme_colors));
    ("background_color", PStr (tc_bg theme_colors));
    ("text_color", PStr (tc_text theme_colors));
    ("font_family", PStr (fs_font_family font_style));
    ("font_style", PStr (fs_style font_style));
    ("font_name", PStr (fs_name font_style)) ]%string.

(** Template text as the renderer is meant to see it: literal text and
    placeholder tokens.  Used to state when no token is left over. *)
Inductive segment : Type :=
  | Lit (text : string)
  | Tok (key : string).

Fixpoint flatten (segs : list segment) : string :=
  match segs with
  | [] => EmptyString
  | Lit text :: rest => text +:+ flatten rest
  | Tok key :: rest => placeholder key +:+ flatten rest
  end.

(** no opening brace in [s] *)
Definition no_open (s : string) : bool :=
  all_chars (fun c => negb (Ascii.eqb c "{")) s.

(** neither brace in [s] *)
Definition brace_free (s : string) : bool :=
  all_chars (fun c => negb (Ascii.eqb c "{") && negb (Ascii.eqb c "}")) s.

(** [s] ends in an opening brace *)
Fixpoint ends_open (s : string) : bool :=
  match s with
  | EmptyString => false
  | String c EmptyString => Ascii.eqb c "{"
  | String _ s' => ends_open s'
  end.

(** no token can begin in [s], whatever text follows it: [s] has no three
    opening braces in a row and does not end in an opening brace *)
Definition no_opener (s : string) : bool :=
  negb (contains "{{{" s) && negb (ends_open s).

Definition wf_segment (seg : segment) : bool :=
  match seg with
  | Lit text => no_opener text
  | Tok key => brace_free key
  end.

Definition wf_template (segs : list segment) : bool := forallb wf_segment segs.

Definition wf_config (config : list (string * pyval)) : bool :=
  forallb (fun kv => brace_free kv.1 && no_opener (py_str kv.2)) config.

(** what one key does to a well-formed template *)
Definition subst_segment (key value : string) (seg : segment) : segment :=
  match seg with
  | Lit text => Lit text
  | Tok key' => if String.eqb key key' then Lit value else Tok key'
  end.

Definition subst_template (config : list (string * pyval)) (segs : list segment)
  : list segment :=
  fold_left (fun segs kv => map (subst_segment kv.1 (py_str kv.2)) segs) config segs.

(** ** ArtifactWriter: [create_directory_structure] and the overwrite gate *)

Definition directories : list path :=
  [ [];
    ["src"];
    ["src"; "static"; "css"];
    ["src"; "static"; "js"];
    ["src"; "templates"];
    ["src"; "models"];
    ["src"; "knowledge_base"];
    ["src"; "utils"];
    ["knowledge"; "documents"];
    ["docs"] ]%string.

(** [for directory in directories: (chatbot_dir / directory).mkdir(...)];
    what was made before a failure stays. *)
Fixpoint make_directories (chatbot_dir : path) (dirs : list path)
    (f : gmap path node) : gmap path node * result () :=
  match dirs with
  | [] => (f, Ok ())
  | directory :: rest =>
      match mkdir_parents (chatbot_dir ++ directory) f with
      | Ok f' => make_directories chatbot_dir rest f'
      | Raise e => (f, Raise e)
      end
  end.

(** [create_directory_structure(base_path, chatbot_name)] on the file
    system [f]; [response] is the line [input()] reads when it is called.
    [sys.exit(0)] raises [SystemExit].  [chatbot_name] is taken as one
    component of the path, which every name that [validate_chatbot_name]
    lets through is; [base_path / chatbot_name] is another directory for
    [".."], for the empty name and for a name holding a slash, to which
    this definition does not apply. *)
Definition create_directory_structure (base_path : path) (chatbot_name : string)
    (response : string) (f : gmap path node)
  : list event * gmap path node * result path :=
  let chatbot_dir := base_path ++ [chatbot_name] in
  let evs := [LogInfo ("Creating directory structure for " +:+ chatbot_name)] in
  let create evs f :=
    let '(f', r) := make_directories chatbot_dir directories f in
    (evs, f', (_ ← r; Ok chatbot_dir)) in
  if fs_exists f chatbot_dir then
    let evs := evs ++ [ LogWarning ("Directory " +:+ path_str chatbot_dir +:+ " already exists");
                        Print "Directory already exists. Overwrite? [y/N]: " ] in
    if negb (String.eqb (lower response) "y") then
      (evs ++ [LogInfo "Aborting..."], f, Raise (SystemExit 0))
    else
      match rmtree chatbot_dir f with
      | Ok f' => create evs f'
      | Raise e => (evs, f, Raise e)
      end
  else create evs f.

(** The [try] statement that ends [main] (lines 1207-1240):
    [create_directory_structure(Path.cwd(), chatbot_name)], then the rest
    of the [try] body, [rest_of_try] (the file generators and the closing
    prints, lines 1211-1236), under [except Exception]. *)
Definition main_generate
    (rest_of_try : path -> gmap path node -> list event * gmap path node * result ())
    (cwd : path) (chatbot_name response : string) (f : gmap path node)
  : list event * gmap path node * result () :=
  let '(evs, f1, r) := create_directory_structure cwd chatbot_name response f in
  let '(evs2, f2, r2) :=
    match r with
    | Ok chatbot_dir => rest_of_try chatbot_dir f1
    | Raise e => ([], f1, Raise e)
    end in
  match r2 with
  | Ok _ => (evs ++ evs2, f2, Ok ())
  | Raise e =>
      if is_Exception e
      then (evs ++ evs2 ++ [ LogError "Error generating chatbot: " e;
                             PrintExn "Error generating chatbot: " e ], f2, Ok ())
      else (evs ++ evs2, f2, Raise e)
  end.

(** ** ThemeComposer: [generate_custom_css] *)

Definition dq : string := String (ascii_of_nat 34) EmptyString.

(** the f-string up to [{base_css}] *)
Definition css_header (target_name : string) (theme_colors : theme_colors)
    (font_style : font_style) : string :=
  let theme_label := default "Custom"%string (tc_name theme_colors) in
  ("/* 
 * Custom CSS for "
  +:+ target_name
  +:+ " chatbot
 * Theme: "
  +:+ theme_label
  +:+ "
 * Font: "
  +:+ (fs_name font_style)
  +:+ "
 */

:root {
    --primary-color: "
  +:+ (tc_primary theme_colors)
  +:+ ";
    --background-color: "
  +:+ (tc_bg theme_colors)
  +:+ ";
    --text-color: "
  +:+ (tc_text theme_colors)
  +:+ ";
    --font-family: "
  +:+ (fs_font_family font_style)
  +:+ ";
}

body {
    font-family: var(--font-family);
    background-color: var(--background-color);
    color: var(--text-color);
}

.header {
    background-color: var(--primary-color);
}

.primary-button, button[type="
  +:+ dq
  +:+ "submit"
  +:+ dq
  +:+ "] {
    background-color: var(--primary-color);
}

.bot-message {
    border-left: 3px solid var(--primary-color);
}

.bot-info {
    margin-top: 10px;
    color: #586e75;
    font-style: italic;
}

.customization-tip {
    background-color: rgba(var(--primary-color-rgb, 14, 165, 233), 0.1);
    border-radius: 6px;
    padding: 12px 16px;
    margin: 20px 0;
    font-size: 0.9rem;
}

.customization-tip code {
    background-color: rgba(0,0,0,0.05);
    padding: 2px 4px;
    border-radius: 3px;
}

/* Base styles */
")%string.

(** the f-string after [{base_css}] *)
Definition css_trailer (font_style : font_style) : string :=
  ("

/* Custom "
  +:+ (fs_style font_style)
  +:+ " style adjustments */
")%string.

Definition css_clean : string :=
  "
.message {
    border-radius: 4px;
}
.input-container {
    border-radius: 4px;
}
".

Definition css_traditional : string :=
  "
.message {
    border-radius: 0;
    border-bottom: 1px solid rgba(0,0,0,0.1);
}
h1, h2, h3 {
    font-weight: normal;
    letter-spacing: -0.5px;
}
".

Definition css_minimal : string :=
  "
* {
    transition: all 0.2s ease;
}
.message {
    border: none;
    border-bottom: 1px solid rgba(0,0,0,0.05);
    margin-bottom: 8px;
}
button {
    border-radius: 3px;
}
".

Definition css_code : string :=
  "
pre, code {
    font-family: var(--font-family);
}
.message {
    border-radius: 0;
    border-left: 2px solid var(--primary-color);
}
.user-message {
    border-left: 2px solid #606060;
}
".

Definition css_rounded : string :=
  "
.message {
    border-radius: 18px;
}
button {
    border-radius: 24px;
}
.chat-form input {
    border-radius: 24px;
}
".

(** the [if]/[elif] chain on [font_style['style']] *)
Definition css_style_block (style : string) : string :=
  if String.eqb style "clean" then css_clean
  else if String.eqb style "traditional" then css_traditional
  else if String.eqb style "minimal" then css_minimal
  else if String.eqb style "code" then css_code
  else if String.eqb style "rounded" then css_rounded
  else EmptyString.

(** [list(theme_colors.keys())] as the f-string shows it *)
Definition theme_keys_repr (theme_colors : theme_colors) : string :=
  match tc_name theme_colors with
  | None => "['primary', 'bg', 'text']"
  | Some _ => "['primary', 'bg', 'text', 'name']"
  end.

(** [generate_custom_css(target_dir, theme_colors, font_style)]: the text
    written to [src/static/css/style.css].  [target_name] is
    [target_dir.name]; [base_css_file] is the text of the base style sheet
    at [base_css_path] when that file exists. *)
Definition generate_custom_css (target_name : string) (theme_colors : theme_colors)
    (font_style : font_style) (base_css_path : string) (base_css_file : option string)
  : list event * string :=
  let evs := [LogInfo ("Generating custom CSS with " +:+ theme_keys_repr theme_colors
                       +:+ " theme and " +:+ fs_name font_style +:+ " font")] in
  let '(evs, base_css) :=
    match base_css_file with
    | Some text => (evs, text)
    | None => (evs ++ [LogWarning ("Base CSS file not found at " +:+ base_css_path)],
               "/* Default styles */
"%string)
    end in
  let custom_css := css_header target_name theme_colors font_style
                    +:+ base_css +:+ css_trailer font_style in
  (evs, custom_css +:+ css_style_block (fs_style font_style)).

(** ** [update_config.py]: [update_parameters] *)

(** [for key, value in param_updates.items(): config['parameters'][key] = value];
    the parameter dictionary is changed in place, so [config] sees it. *)
Fixpoint update_parameters (config : json) (param_updates : list (string * json))
  : result json :=
  match param_updates with
  | [] => Ok config
  | (key, value) :: rest =>
      parameters ← py_getitem config "parameters";
      parameters' ← py_setitem parameters key value;
      config' ← py_setitem config "parameters" parameters';
      update_parameters config' rest
  end.

(** [config[name]] when [config] is an object that has the field *)
Definition field (name : string) (config : json) : option json :=
  match config with
  | JObj m => m !! name
  | _ => None
  end.

Definition parameter (key : string) (config : json) : option json :=
  field "parameters" config ≫= field key.

(** ** Auxiliary notions used in the proofs *)

(** no occurrence of [P] in [x +:+ r] starts inside [x] *)
Fixpoint skips (P r x : string) : bool :=
  match x with
  | EmptyString => true
  | String _ x' => negb (startswith P (x +:+ r)) && skips P r x'
  end.

(** [x] put in front of the first piece of a split *)
Definition cons_head (x : string) (pieces : list string) : list string :=
  match pieces with
  | piece :: rest => (x +:+ piece) :: rest
  | [] => [x]
  end.

(** the template still has a token of [key] *)
Definition has_tok (key : string) (segs : list segment) : bool :=
  existsb (fun seg => match seg with
                      | Tok key' => String.eqb key key'
                      | Lit _ => false
                      end) segs.

(** ** Further notions for the renderer *)

(** the text the configuration gives for a key: that of its first entry *)
Fixpoint config_value (config : list (string * pyval)) (key : string)
  : option string :=
  match config with
  | [] => None
  | (key', value) :: rest =>
      if String.eqb key' key then Some (py_str value) else config_value rest key
  end.

(** all tokens replaced at once *)
Definition render_segment (config : list (string * pyval)) (seg : segment)
  : segment :=
  match seg with
  | Lit text => Lit text
  | Tok key =>
      match config_value config key with
      | Some value => Lit value
      | None => Tok key
      end
  end.

(** [f'] is [f] with, possibly, some missing directories among [P] made *)
Definition grows (P : path -> Prop) (f f' : gmap path node) : Prop :=
  forall q, f' !! q = f !! q \/ (f !! q = None /\ f' !! q = Some Dir /\ P q).

(** ** The questions [main] asks *)

Definition OLLAMA_MODELS : list string :=
  [ "llama3.2:1b"; "llama3:8b"; "llama3:70b"; "mistral:7b"; "phi3:mini";
    "tinyllama:1.1b" ]%string.

Definition DEFAULT_MODEL : string := "llama3.2:1b".

(** [[a-zA-Z0-9]] *)
Definition is_alnum (c : ascii) : bool :=
  let n := N_of_ascii c in
  ((48 <=? n) && (n <=? 57) || (65 <=? n) && (n <=? 90)
   || (97 <=? n) && (n <=? 122))%N.

(** [[a-zA-Z0-9_-]] *)
Definition is_name_char (c : ascii) : bool :=
  is_alnum c || Ascii.eqb c "_" || Ascii.eqb c "-".

(** [[a-zA-Z0-9_-]*$]: [$] matches at the end and also just before a
    newline that ends the string *)
Fixpoint name_tail (s : string) : bool :=
  match s with
  | EmptyString => true
  | String c s' =>
      if is_name_char c then name_tail s'
      else Ascii.eqb c "010" && String.eqb s' EmptyString
  end.

(** [bool(re.match(r'^[a-zA-Z0-9][a-zA-Z0-9_-]*$', name)) and len(name) <= 50] *)
Definition validate_chatbot_name (name : string) : bool :=
  match name with
  | EmptyString => false
  | String c s => is_alnum c && name_tail s
  end && (String.length name <=? 50).

(** what a loop around [input()] comes to: an answer and the lines not yet
    read, or the end of the input ([input()] raises [EOFError], which
    nothing catches) *)
Inductive asked (A : Type) : Type :=
  | Answered (a : A) (rest : list string)
  | EndOfInput.
Arguments Answered {A} a rest.
Arguments EndOfInput {A}.

(** the [while True] loop of [main] (lines 1111-1115) that asks for the
    name; the prompts and the message for a refused name are not
    represented *)
Fixpoint ask_chatbot_name (inputs : list string) : asked string :=
  match inputs with
  | [] => EndOfInput
  | line :: rest =>
      let chatbot_name := strip line in
      if validate_chatbot_name chatbot_name then Answered chatbot_name rest
      else ask_chatbot_name rest
  end.

(** [int(s)] for a [str] in base 10: white space around, a sign, digits
    with single underscores between them, no more digits than the
    interpreter's limit.  The white space [int] skips is TAB..CR and space,
    and NEL and the no-break space which it first turns into spaces. *)
Definition is_int_space (c : ascii) : bool :=
  let n := N_of_ascii c in
  ((9 <=? n) && (n <=? 13) || (n =? 32) || (n =? 133) || (n =? 160))%N.

Definition digit_value (c : ascii) : option Z :=
  let n := N_of_ascii c in
  if ((48 <=? n) && (n <=? 57))%N then Some (Z.of_N (n - 48)) else None.

Fixpoint int_digits (acc : Z) (after_underscore : bool) (s : string) : option Z :=
  match s with
  | EmptyString => if after_underscore then None else Some acc
  | String c s' =>
      match digit_value c with
      | Some d => int_digits (10 * acc + d) false s'
      | None =>
          if Ascii.eqb c "_" && negb after_underscore
          then int_digits acc true s'
          else None
      end
  end.

Definition int_unsigned (s : string) : option Z :=
  match s with
  | EmptyString => None
  | String c s' =>
      match digit_value c with
      | Some d => int_digits d false s'
      | None => None
      end
  end.

Fixpoint lstrip_by (f : ascii -> bool) (s : string) : string :=
  match s with
  | EmptyString => EmptyString
  | String c s' => if f c then lstrip_by f s' else s
  end.

Fixpoint rstrip_by (f : ascii -> bool) (s : string) : string :=
  match s with
  | EmptyString => EmptyString
  | String c s' =>
      match rstrip_by f s' with
      | EmptyString => if f c then EmptyString else String c EmptyString
      | String _ _ as r => String c r
      end
  end.

(** the number of digits in [s] *)
Fixpoint count_digits (s : string) : N :=
  match s with
  | EmptyString => 0
  | String c s' =>
      (match digit_value c with Some _ => 1 | None => 0 end + count_digits s')%N
  end.

(** [sys.get_int_max_str_digits()] as the interpreter starts with it:
    [int] refuses a text with more digits *)
Definition int_max_str_digits : N := 4300.

(** [None] stands for [ValueError] *)
Definition py_int (s : string) : option Z :=
  if (int_max_str_digits <? count_digits s)%N then None
  else
    match rstrip_by is_int_space (lstrip_by is_int_space s) with
    | String "-" s' => Z.opp <$> int_unsigned s'
    | String "+" s' => int_unsigned s'
    | s' => int_unsigned s'
    end.

(** the loop of a numbered menu over [entries], as [get_theme_choice] and
    [get_font_choice] both write it:
    [choice = input(...).strip()], an empty choice is ["1"],
    [choice_idx = int(choice) - 1], an index in range answers, anything
    else (also a [ValueError]) asks again.  The menu and the messages
    printed are not represented. *)
Fixpoint menu_choice {A} (entries : list A) (inputs : list string) : asked A :=
  match inputs with
  | [] => EndOfInput
  | line :: rest =>
      let choice := strip line in
      let choice := if String.eqb choice "" then "1"%string else choice in
      match py_int choice with
      | Some n =>
          let choice_idx := (n - 1)%Z in
          if ((0 <=? choice_idx) && (choice_idx <? Z.of_nat (length entries)))%Z
          then match entries !! Z.to_nat choice_idx with
               | Some entry => Answered entry rest
               | None => menu_choice entries rest
               end
          else menu_choice entries rest
      | None => menu_choice entries rest
      end
  end.

(** [get_theme_choice()]: the name and the colours *)
Definition get_theme_choice (inputs : list string) : asked (string * theme_colors) :=
  menu_choice THEME_COLORS inputs.

(** [get_font_choice()] *)
Definition get_font_choice (inputs : list string) : asked font_style :=
  menu_choice FONT_STYLES inputs.

(** the choice of the model in [main] (lines 1132-1141), asked once:
    [model_choice] is the stripped answer *)
Definition choose_model (model_choice : string) : string :=
  match py_int model_choice with
  | Some n =>
      let model_index := (n - 1)%Z in
      if ((0 <=? model_index) && (model_index <? Z.of_nat (length OLLAMA_MODELS)))%Z
      then default DEFAULT_MODEL (OLLAMA_MODELS !! Z.to_nat model_index)
      else DEFAULT_MODEL
  | None => DEFAULT_MODEL
  end.

(** ** [update_config.py]: the prompt, the [--param] arguments *)

(** [config['system_prompt'] = prompt; return config] *)
Definition update_system_prompt (config : json) (prompt : string) : result json :=
  py_setitem config "system_prompt" (JStr prompt).

(** the conversion of the text after [=] (lines 174-186); [py_float] is
    [float], [None] for its [ValueError] *)
Definition typed_value (py_float : string -> option json) (value : string) : json :=
  if String.eqb (lower value) "true" then JBool true
  else if String.eqb (lower value) "false" then JBool false
  else if contains "." value then
    match py_float value with Some x => x | None => JStr value end
  else
    match py_int value with Some z => JInt z | None => JStr value end.

(** [param_updates[key] = typed_value] on the items of the dictionary: a
    key already there keeps its place *)
Fixpoint dict_set (items : list (string * json)) (key : string) (value : json)
  : list (string * json) :=
  match items with
  | [] => [(key, value)]
  | (key', value') :: rest =>
      if String.eqb key' key then (key', value) :: rest
      else (key', value') :: dict_set rest key value
  end.

(** the loop over [args.param] (lines 164-188): [param.split('=', 1)] cuts
    at the first [=]; a parameter without one prints an error and exits *)
Fixpoint collect_param_updates (py_float : string -> option json)
    (params : list string) (param_updates : list (string * json))
  : list event * result (list (string * json)) :=
  match params with
  | [] => ([], Ok param_updates)
  | param :: rest =>
      match find "=" param with
      | None =>
          ([Print ("Error: Parameter '" +:+ param +:+ "' is not in format 'key=value'")],
           Raise (SystemExit 1))
      | Some i =>
          let key := take i param in
          let value := drop (S i) param in
          collect_param_updates py_float rest
            (dict_set param_updates key (typed_value py_float value))
      end
  end.

(** [', '.join(keys)] *)
Fixpoint join_comma (keys : list string) : string :=
  match keys with
  | [] => EmptyString
  | [key] => key
  | key :: rest => key +:+ ", " +:+ join_comma rest
  end.

(** what [main] finds at [Path(args.prompt_file)]: nothing, or something
    that [open] and [read] give a text or an exception for *)
Inductive prompt_file_state : Type :=
  | NotFound
  | Found (read : result string).

(** the part of [main] between loading and saving (lines 145-191):
    [prompt] is [args.prompt], [params] is [args.param]; [prompt_file] is
    [None] when [args.prompt_file] is [None] or empty, and otherwise the
    text of [Path(args.prompt_file)] with what is found there.  The result
    is the configuration handed to [save_config].  In the branch of the
    prompt file the [try] also covers [update_system_prompt], and its
    handler exits with status 1. *)
Definition main_update (py_float : string -> option json) (config : json)
    (prompt : option string) (prompt_file : option (string * prompt_file_state))
    (params : option (list string))
  : list event * result json :=
  let '(evs, r) :=
    match prompt, prompt_file with
    | Some (String _ _ as text), _ =>
        match update_system_prompt config text with
        | Ok config' => ([Print "System prompt updated"], Ok config')
        | Raise e => ([], Raise e)
        end
    | _, Some (shown, NotFound) =>
        ([Print ("Error: Prompt file not found at " +:+ shown)], Raise (SystemExit 1))
    | _, Some (shown, Found read) =>
        match (new_prompt ← read; update_system_prompt config (strip new_prompt)) with
        | Ok config' => ([Print "System prompt updated from file"], Ok config')
        | Raise e =>
            if is_Exception e
            then ([PrintExn "Error reading prompt file: " e], Raise (SystemExit 1))
            else ([], Raise e)
        end
    | _, None => ([], Ok config)
    end in
  match r with
  | Raise e => (evs, Raise e)
  | Ok config =>
      match params with
      | Some ((_ :: _) as params) =>
          let '(evs', r') := collect_param_updates py_float params [] in
          match r' with
          | Raise e => (evs ++ evs', Raise e)
          | Ok param_updates =>
              match update_parameters config param_updates with
              | Raise e => (evs ++ evs', Raise e)
              | Ok config' =>
                  (evs ++ evs'
                   ++ [Print ("Parameters updated: " +:+ join_comma param_updates.*1)],
                   Ok config')
              end
          end
      | _ => (evs, Ok config)
      end
  end.

(** ** [generate_llm_config] and [templates/llm.py] *)

(** the dictionary [generate_llm_config] dumps to [llm_config.json];
    [created_at] is the time read from the clock.  The two texts it also
    writes are not represented. *)
Definition generate_llm_config (system_prompt : string) (llm_params : json)
    (created_at : string) : json :=
  JObj (<["metadata" :=
            JObj (<["version" := JStr "1.0"]>
                  (<["description" :=
                       JStr "Configuration for chatbot LLM behavior and response generation"]>
                   (<["created_at" := JStr created_at]> ∅)))]>
        (<["parameters" := llm_params]>
         (<["system_prompt" := JStr system_prompt]> ∅))).

(** The payload of [OllamaLLM.generate_response] (lines 57-79).
    [default_system_prompt] and [default_params] are the module's
    [DEFAULT_SYSTEM_PROMPT] and the items of [DEFAULT_PARAMS]; [kwargs] are
    the items of [**kwargs].  [if system_prompt:] and [if context:] take
    [None] and the empty value alike. *)
Definition build_payload (model_name default_system_prompt : string)
    (default_params : list (string * json)) (prompt : string)
    (system_prompt : option string) (context : option (list json))
    (kwargs : list (string * json)) : gmap string json :=
  let payload : gmap string json :=
    <["stream" := JBool false]>
      (<["prompt" := JStr prompt]> (<["model" := JStr model_name]> ∅)) in
  let payload := foldl (fun p kv => <[kv.1 := kv.2]> p) payload default_params in
  let payload := foldl (fun p kv => <[kv.1 := kv.2]> p) payload kwargs in
  let payload :=
    match system_prompt with
    | Some (String _ _ as text) => <["system" := JStr text]> payload
    | _ => <["system" := JStr default_system_prompt]> payload
    end in
  match context with
  | Some ((_ :: _) as messages) => <["context" := JArr messages]> payload
  | _ => payload
  end.

(** the name of the type in an [AttributeError] message *)
Definition type_name (v : json) : string :=
  match v with
  | JNull => "NoneType"
  | JBool _ => "bool"
  | JInt _ => "int"
  | JFloat _ _ => "float"
  | JStr _ => "str"
  | JArr _ => "list"
  | JObj _ => "dict"
  end.

(** [OllamaLLM.generate_response].  [post url payload] stands for
    [requests.post], [raise_for_status] and [response.json()]: the decoded
    body, or the text [str(e)] of the exception one of them raised.  The
    logging is not represented. *)
Definition generate_response
    (post : string -> gmap string json -> json + string)
    (base_url model_name default_system_prompt : string)
    (default_params : list (string * json)) (prompt : string)
    (system_prompt : option string) (context : option (list json))
    (kwargs : list (string * json)) : json :=
  let payload := build_payload model_name default_system_prompt default_params
                   prompt system_prompt context kwargs in
  match post (base_url +:+ "/api/generate") payload with
  | inl (JObj body) => default (JStr "") (body !! "response"%string)
  | inl v =>
      JStr ("Error generating response: '" +:+ type_name v
            +:+ "' object has no attribute 'get'")
  | inr message => JStr ("Error generating response: " +:+ message)
  end.

(** [OllamaLLM.analyze_code] *)
Definition analyze_code
    (post : string -> gmap string json -> json + string)
    (base_url model_name default_system_prompt : string)
    (default_params : list (string * json)) (code_block : string) : json :=
  generate_response post base_url model_name default_system_prompt default_params
    ("Please analyze this code and provide insights or improvements:

```
" +:+ code_block +:+ "
```")
    None None [("temperature"%string, JFloat 3 (-1))].

(** the characters of a text that [int] accepts *)
Definition is_int_char (c : ascii) : bool :=
  is_int_space c || bool_decide (is_Some (digit_value c))
  || Ascii.eqb c "_" || Ascii.eqb c "+" || Ascii.eqb c "-".

(** * Properties *)

(** ** The string primitives on small inputs *)

Example replace_ex1 : replace "ab" "X" "cabababa" = "cXXXa"%string.
Proof. reflexivity. Qed.
Example replace_ex2 : replace "aa" "a" "aaaa" = "aa"%string.
Proof. reflexivity. Qed.
Example replace_ex3 : replace "" "-" "abc" = "-a-b-c-"%string.
Proof. reflexivity. Qed.
Example split_ex1 : split "##" "a##b####c" = Some ["a"; "b"; ""; "c"]%string.
Proof. reflexivity. Qed.
Example split_ex2 : split "x" "abc" = Some ["abc"%string].
Proof. reflexivity. Qed.
Example strip_ex1 : strip "  a b
 " = "a b"%string.
Proof. reflexivity. Qed.
Example find_ex1 : find "lo" "hello lo" = Some 3.
Proof. reflexivity. Qed.
Example lower_ex1 : lower "Y" = "y"%string /\ lower "Yes" = "yes"%string.
Proof. split; reflexivity. Qed.
Example rstrip_ex1 : rstrip "a  " = "a"%string /\ lstrip "  a " = "a "%string.
Proof. split; reflexivity. Qed.
Example split_ex3 : split "aa" "aaa" = Some [""; "a"]%string /\ split "" "abc" = None.
Proof. split; reflexivity. Qed.

(** ** Facts about the string primitives *)

#[local] Arguments String.append !_ _ / : simpl nomatch.

Module PyStrFacts.

Lemma str_app_nil_r (s : string) : s +:+ "" = s.
Proof. induction s as [|c s IH]; simpl; [done | by rewrite IH]. Qed.

Lemma str_app_assoc (a b c : string) : (a +:+ b) +:+ c = a +:+ (b +:+ c).
Proof. induction a as [|x a IH]; simpl; [done | by rewrite IH]. Qed.

Lemma str_length_app (a b : string) :
  String.length (a +:+ b) = String.length a + String.length b.
Proof. induction a as [|x a IH]; simpl; [done | by rewrite IH]. Qed.

Lemma str_app_inv_head (a b c : string) : a +:+ b = a +:+ c -> b = c.
Proof. induction a as [|x a IH]; simpl; [done | intros [= H]; auto]. Qed.

Lemma str_drop_app_length (p r : string) : drop (String.length p) (p +:+ r) = r.
Proof. induction p as [|a p IH]; simpl; [by destruct r | done]. Qed.

Lemma str_take_app_length (p r : string) : take (String.length p) (p +:+ r) = p.
Proof. induction p as [|a p IH]; simpl; [by destruct r | by rewrite IH]. Qed.

Lemma str_take_drop (n : nat) (s : string) : take n s +:+ drop n s = s.
Proof.
  revert s; induction n as [|n IH]; intros [|c s]; simpl; try done.
  by rewrite IH.
Qed.

Lemma startswith_app (p r : string) : startswith p (p +:+ r) = true.
Proof. induction p as [|a p IH]; simpl; [done | by rewrite Ascii.eqb_refl]. Qed.

Lemma startswith_inv (p s : string) :
  startswith p s = true -> s = p +:+ drop (String.length p) s.
Proof.
  revert s; induction p as [|a p IH]; intros s H; simpl.
  - by destruct s.
  - destruct s as [|c s]; simpl in H; [done |].
    destruct (Ascii.eqb_spec a c) as [->|]; [| done].
    simpl. f_equal. by apply IH.
Qed.

Lemma startswith_iff (p s : string) :
  startswith p s = true <-> exists r, s = p +:+ r.
Proof.
  split.
  - intros H. eexists. by apply startswith_inv.
  - intros [r ->]. apply startswith_app.
Qed.

(** an occurrence that fits in [x] does not depend on what follows [x] *)
Lemma startswith_app_fits (p x y : string) :
  String.length p <= String.length x -> startswith p (x +:+ y) = startswith p x.
Proof.
  revert x; induction p as [|a p IH]; intros x Hlen; [done |].
  destruct x as [|c x]; simpl in *; [lia |].
  destruct (Ascii.eqb a c); [| done]. apply IH. lia.
Qed.

Lemma replace_from_skip (old new : string) (k : nat) (s : string) :
  replace_from old new k s = replace_from old new 0 (drop k s).
Proof.
  revert k; induction s as [|c s IH]; intros [|k]; simpl; done.
Qed.

(** [replace] at an occurrence: the value goes in and the scan resumes
    after the occurrence, never inside the value. *)
Lemma replace_match (old new r : string) :
  old <> EmptyString ->
  replace old new (old +:+ r) = new +:+ replace old new r.
Proof.
  destruct old as [|a p]; [done | intros _].
  unfold replace. cbn [append replace_from].
  change (String a (p +:+ r)) with (String a p +:+ r).
  rewrite startswith_app. f_equal.
  rewrite replace_from_skip.
  replace (String.length (String a p) - 1) with (String.length p) by (simpl; lia).
  by rewrite str_drop_app_length.
Qed.

Lemma replace_nomatch (old new : string) (c : ascii) (s : string) :
  startswith old (String c s) = false ->
  replace old new (String c s) = String c (replace old new s).
Proof.
  destruct old as [|a p]; [done |]. intros H.
  unfold replace. cbn [replace_from]. by rewrite H.
Qed.

Lemma replace_empty (old new : string) :
  old <> EmptyString -> replace old new "" = ""%string.
Proof. by destruct old. Qed.

Lemma find_match (sub s : string) : startswith sub s = true -> find sub s = Some 0.
Proof. intros H. destruct s; simpl in *; by rewrite H. Qed.

Lemma find_nomatch (sub : string) (c : ascii) (s : string) :
  startswith sub (String c s) = false ->
  find sub (String c s) = option_map S (find sub s).
Proof. intros H. cbn [find]. by rewrite H. Qed.

Lemma contains_match (sub s : string) :
  startswith sub s = true -> contains sub s = true.
Proof. intros H. unfold contains. by rewrite find_match. Qed.

Lemma contains_nomatch (sub : string) (c : ascii) (s : string) :
  startswith sub (String c s) = false ->
  contains sub (String c s) = contains sub s.
Proof.
  intros H. unfold contains. rewrite find_nomatch by done.
  by destruct (find sub s).
Qed.

Lemma contains_cons (sub : string) (c : ascii) (s : string) :
  contains sub s = true -> contains sub (String c s) = true.
Proof.
  intros H. destruct (startswith sub (String c s)) eqn:E.
  - by apply contains_match.
  - by rewrite contains_nomatch.
Qed.

(** [sub in s] exactly when [s] has an occurrence of [sub] *)
Lemma contains_iff (sub s : string) :
  contains sub s = true <-> exists a b, s = a +:+ sub +:+ b.
Proof.
  split.
  - induction s as [|c s IH]; intros H.
    + destruct (startswith sub "") eqn:E.
      * apply startswith_iff in E as [r ->]. by exists ""%string, r.
      * unfold contains in H. simpl in H. by rewrite E in H.
    + destruct (startswith sub (String c s)) eqn:E.
      * apply startswith_iff in E as [r ->]. by exists ""%string, r.
      * rewrite contains_nomatch in H by done.
        destruct (IH H) as (a & b & ->). by exists (String c a), b.
  - intros (a & b & ->). induction a as [|c a IH]; simpl.
    + apply contains_match, startswith_app.
    + by apply contains_cons.
Qed.

Lemma contains_app (sub l s r : string) :
  contains sub s = true -> contains sub (l +:+ s +:+ r) = true.
Proof.
  intros (a & b & ->)%contains_iff. apply contains_iff.
  exists (l +:+ a), (b +:+ r). by rewrite !str_app_assoc.
Qed.

Lemma lstrip_suffix (s : string) : exists l, s = l +:+ lstrip s.
Proof.
  induction s as [|c s [l IH]]; simpl.
  - by exists ""%string.
  - destruct (isspace c).
    + exists (String c l). simpl. by rewrite <- IH.
    + by exists ""%string.
Qed.

Lemma rstrip_prefix (s : string) : exists r, s = rstrip s +:+ r.
Proof.
  induction s as [|c s [r IH]]; simpl.
  - by exists ""%string.
  - destruct (rstrip s) as [|a s0] eqn:E.
    + destruct (isspace c).
      * by exists (String c s).
      * by exists s.
    + exists r. simpl. by f_equal.
Qed.

(** the trimmed text is a piece of the text *)
Lemma strip_infix (s : string) : exists l r, s = l +:+ strip s +:+ r.
Proof.
  destruct (lstrip_suffix s) as [l Hl].
  destruct (rstrip_prefix (lstrip s)) as [r Hr].
  exists l, r. unfold strip. by rewrite <- Hr.
Qed.

Lemma contains_strip (sub s : string) :
  contains sub (strip s) = true -> contains sub s = true.
Proof.
  intros H. destruct (strip_infix s) as (l & r & E).
  rewrite E. by apply contains_app.
Qed.

End PyStrFacts.

Import PyStrFacts.

(** ** Scanning past text that holds no occurrence *)

Module ScanFacts.

Lemma skips_app (P r x y : string) :
  skips P r (x +:+ y) = skips P (y +:+ r) x && skips P r y.
Proof.
  induction x as [|c x IH]; simpl; [done |].
  rewrite IH, str_app_assoc. by rewrite andb_assoc.
Qed.

Lemma skips_suffix (P r l x : string) :
  skips P r (l +:+ x) = true -> skips P r x = true.
Proof. rewrite skips_app. by intros [_ ?]%andb_true_iff. Qed.

Lemma replace_skips (P v r x : string) :
  skips P r x = true -> replace P v (x +:+ r) = x +:+ replace P v r.
Proof.
  induction x as [|c x IH]; simpl; [done |].
  intros [H1%negb_true_iff H2]%andb_true_iff.
  rewrite replace_nomatch by done. by rewrite IH.
Qed.

Lemma contains_skips (P r x : string) :
  skips P r x = true -> contains P (x +:+ r) = contains P r.
Proof.
  induction x as [|c x IH]; simpl; [done |].
  intros [H1%negb_true_iff H2]%andb_true_iff.
  rewrite contains_nomatch by done. by apply IH.
Qed.

Lemma find_skips (P r x : string) :
  skips P r x = true ->
  find P (x +:+ r) = (fun i => String.length x + i) <$> find P r.
Proof.
  induction x as [|c x IH]; simpl.
  - intros _. by destruct (find P r).
  - intros [H1%negb_true_iff H2]%andb_true_iff.
    change (String c (x +:+ r)) with (String c x +:+ r) in H1.
    simpl in H1. rewrite H1, IH by done.
    by destruct (find P r).
Qed.

(** the first occurrence is where [find] says *)
Lemma skips_of_find (P x b : string) :
  find P (x +:+ P +:+ b) = Some (String.length x) ->
  skips P (P +:+ b) x = true.
Proof.
  induction x as [|c x IH]; simpl; [done |].
  destruct (startswith P (String c (x +:+ P +:+ b))) eqn:E; [done |].
  intros H. simpl. apply IH.
  destruct (find P (x +:+ P +:+ b)); simpl in H; congruence.
Qed.

Lemma find_of_skips (P x b : string) :
  skips P (P +:+ b) x = true ->
  find P (x +:+ P +:+ b) = Some (String.length x).
Proof.
  intros H. rewrite find_skips by done.
  rewrite find_match by apply startswith_app. simpl. f_equal. lia.
Qed.

(** whether the occurrence after [x] is the first one does not depend on
    what follows it *)
Lemma skips_indep (P x b b' : string) :
  skips P (P +:+ b) x = skips P (P +:+ b') x.
Proof.
  induction x as [|c x IH]; simpl; [done |].
  rewrite IH. f_equal. f_equal.
  change (String c (x +:+ P +:+ ?y)) with (String c x +:+ P +:+ y).
  rewrite <- !str_app_assoc.
  rewrite !(startswith_app_fits P (String c x +:+ P)); [done | |];
    rewrite str_length_app; lia.
Qed.

(** an occurrence that starts in [m] and runs past its end *)
Lemma startswith_overlap (P m y : string) :
  startswith P (m +:+ y) = true ->
  String.length m < String.length P ->
  startswith (drop (String.length m) P) y = true.
Proof.
  revert P; induction m as [|c m IH]; intros P H Hlen; simpl in *.
  - by destruct P.
  - destruct P as [|a P]; simpl in *; [lia |].
    destruct (Ascii.eqb a c); [| done]. apply IH; [done | lia].
Qed.

Lemma contains_false_cons (sub : string) (c : ascii) (s : string) :
  contains sub (String c s) = false ->
  startswith sub (String c s) = false /\ contains sub s = false.
Proof.
  intros H. split.
  - destruct (startswith sub (String c s)) eqn:E; [| done].
    by rewrite contains_match in H.
  - destruct (contains sub s) eqn:E; [| done].
    by rewrite contains_cons in H.
Qed.

(** text without [P] is skipped when [P] cannot run from it into what
    follows *)
Lemma skips_of_contains_false (P r x : string) :
  (forall n, n < String.length P -> startswith (drop n P) r = false) ->
  contains P x = false -> skips P r x = true.
Proof.
  intros Hover. induction x as [|c x IH]; [done |].
  intros [H1 H2]%contains_false_cons. cbn [skips].
  rewrite IH by done. rewrite andb_true_r. apply negb_true_iff.
  destruct (decide (String.length P <= String.length (String c x))) as [Hle|Hgt].
  - by rewrite startswith_app_fits.
  - destruct (startswith P (String c x +:+ r)) eqn:E; [| done].
    apply startswith_overlap in E; [| lia].
    rewrite Hover in E; [done | lia].
Qed.

Lemma split_from_skip (sep : string) (k : nat) (s : string) :
  split_from sep k s = split_from sep 0 (drop k s).
Proof. revert k; induction s as [|c s IH]; intros [|k]; simpl; done. Qed.

Lemma split_match (sep r : string) :
  sep <> EmptyString ->
  split_from sep 0 (sep +:+ r) = EmptyString :: split_from sep 0 r.
Proof.
  destruct sep as [|a p]; [done | intros _].
  cbn [append split_from].
  change (String a (p +:+ r)) with (String a p +:+ r).
  rewrite startswith_app. f_equal.
  rewrite split_from_skip.
  replace (String.length (String a p) - 1) with (String.length p) by (simpl; lia).
  by rewrite str_drop_app_length.
Qed.

Lemma split_from_cons (sep : string) (k : nat) (s : string) :
  exists piece rest, split_from sep k s = piece :: rest.
Proof.
  revert k; induction s as [|c s IH]; intros k; simpl; [by eauto |].
  destruct k as [|k]; [| by apply IH].
  destruct (startswith sep (String c s)); [by eauto |].
  destruct (IH 0) as (piece & rest & ->). by eauto.
Qed.

Lemma split_skips (sep r x : string) :
  skips sep r x = true ->
  split_from sep 0 (x +:+ r) = cons_head x (split_from sep 0 r).
Proof.
  induction x as [|c x IH]; simpl.
  - intros _. by destruct (split_from_cons sep 0 r) as (piece & rest & ->).
  - intros [H1%negb_true_iff H2]%andb_true_iff.
    rewrite H1, IH by done.
    by destruct (split_from_cons sep 0 r) as (piece & rest & ->).
Qed.

End ScanFacts.

Import ScanFacts.

(** ** Trimming around text that starts and ends with a visible character *)

Module StripFacts.

Lemma lstrip_app_visible (a : string) (c : ascii) (y : string) :
  isspace c = false -> lstrip (a +:+ String c y) = lstrip a +:+ String c y.
Proof.
  intros Hc. induction a as [|x a IH]; simpl.
  - by rewrite Hc.
  - by destruct (isspace x).
Qed.

Lemma rstrip_app_visible (y : string) (z : ascii) (b : string) :
  isspace z = false -> rstrip (y +:+ String z b) = y +:+ String z (rstrip b).
Proof.
  intros Hz. induction y as [|c y IH]; simpl.
  - destruct (rstrip b); [by rewrite Hz | done].
  - rewrite IH. by destruct y.
Qed.

Lemma strip_around (a b sub sub' y : string) (c z : ascii) :
  sub = String c sub' -> sub = y +:+ String z "" ->
  isspace c = false -> isspace z = false ->
  strip (a +:+ sub +:+ b) = lstrip a +:+ sub +:+ rstrip b.
Proof.
  intros E1 E2 Hc Hz. unfold strip.
  rewrite E1. change (String c sub' +:+ b) with (String c (sub' +:+ b)).
  rewrite lstrip_app_visible by done.
  change (String c (sub' +:+ b)) with (String c sub' +:+ b).
  rewrite <- E1, E2.
  rewrite (str_app_assoc y), <- (str_app_assoc (lstrip a)). simpl.
  rewrite rstrip_app_visible by done.
  by rewrite !str_app_assoc.
Qed.

(** a substring with visible ends survives trimming *)
Lemma contains_strip_visible (s sub sub' y : string) (c z : ascii) :
  sub = String c sub' -> sub = y +:+ String z "" ->
  isspace c = false -> isspace z = false ->
  contains sub s = true -> contains sub (strip s) = true.
Proof.
  intros E1 E2 Hc Hz (a & b & ->)%contains_iff.
  rewrite (strip_around a b sub sub' y c z) by done.
  apply contains_iff. by eauto.
Qed.

Lemma sentinel_survives_strip (s : string) :
  contains "Delete everything above this line" s = true ->
  contains "Delete everything above this line" (strip s) = true.
Proof.
  by apply (contains_strip_visible s _ "elete everything above this line"
              "Delete everything above this lin" "D" "e").
Qed.

End StripFacts.

Import StripFacts.

(** ** PromptExtractor *)

(** C4.  When the hand-off text does not contain the sentinel
    "Delete everything above this line", [get_system_prompt] returns the
    trimmed text as it is: no placeholder is substituted in it. *)
Theorem C4_sentinel_absent_returns_trimmed_text
    (chatbot_description text : string) :
  contains "Delete everything above this line" text = false ->
  get_system_prompt chatbot_description true (Ok text)
  = (system_prompt_banner chatbot_description, Ok (strip text)).
Proof.
  intros H. unfold get_system_prompt, read_system_prompt. cbn [negb mbind result_bind].
  destruct (contains "Delete everything above this line" (strip text)) eqn:E.
  - apply contains_strip in E. congruence.
  - cbn -[system_prompt_banner]. by rewrite List.app_nil_r.
Qed.

Lemma C4_sentinel_absent_witness :
  get_system_prompt "birds" true (Ok "  All about {{chatbot_description}}.
")
  = (system_prompt_banner "birds", Ok "All about {{chatbot_description}}.").
Proof.
  apply (C4_sentinel_absent_returns_trimmed_text "birds").
  reflexivity.
Defined.

(** the two heading markers cannot overlap *)
Lemma default_prompt_not_into_tips (r : string) (n : nat) :
  n < 17 -> startswith (drop n "## Default Prompt") ("## Tips" +:+ r) = false.
Proof.
  intros Hn. do 17 (destruct n as [|n]; [reflexivity |]). lia.
Qed.

Lemma default_prompt_not_from_tips (r : string) :
  skips "## Default Prompt" r "## Tips" = true.
Proof. reflexivity. Qed.

(** C5 (amended).  When the hand-off text contains the sentinel and its
    first "## Default Prompt" marker is followed by a "## Tips" marker
    with no other "## Default Prompt" in between, [get_system_prompt]
    returns the trimmed text between that "## Default Prompt" and the first
    "## Tips" after it, with [{{chatbot_description}}] replaced by the
    description. *)
Theorem C5_boilerplate_returns_default_section
    (chatbot_description text a mid b : string) :
  text = a +:+ "## Default Prompt" +:+ mid +:+ "## Tips" +:+ b ->
  contains "Delete everything above this line" text = true ->
  find "## Default Prompt" text = Some (String.length a) ->
  find "## Tips" (mid +:+ "## Tips" +:+ b) = Some (String.length mid) ->
  contains "## Default Prompt" mid = false ->
  get_system_prompt chatbot_description true (Ok text)
  = (system_prompt_banner chatbot_description,
     Ok (replace "{{chatbot_description}}" chatbot_description (strip mid))).
Proof.
  intros Htext Hsent Hfirst Htips Hmid.
  unfold get_system_prompt, read_system_prompt. cbn [negb mbind result_bind].
  rewrite (sentinel_survives_strip _ Hsent).
  (* the trimmed text *)
  assert (strip text
          = lstrip a +:+ "## Default Prompt" +:+ mid +:+ "## Tips" +:+ rstrip b)
    as Hcontent.
  { rewrite Htext.
    rewrite <- (str_app_assoc "## Default Prompt"), <- (str_app_assoc _ "## Tips").
    rewrite (strip_around a b _ ("# Default Prompt" +:+ mid +:+ "## Tips")
               ("## Default Prompt" +:+ mid +:+ "## Tip") "#" "s");
      [by rewrite !str_app_assoc | done | | done | done].
    by rewrite !str_app_assoc. }
  rewrite Hcontent.
  set (rb := rstrip b). set (la := lstrip a).
  assert (contains "## Default Prompt"
            (la +:+ "## Default Prompt" +:+ mid +:+ "## Tips" +:+ rb) = true) as ->.
  { apply contains_iff. by eauto. }
  assert (contains "## Tips"
            (la +:+ "## Default Prompt" +:+ mid +:+ "## Tips" +:+ rb) = true) as ->.
  { apply contains_iff.
    exists (la +:+ "## Default Prompt" +:+ mid), rb. by rewrite !str_app_assoc. }
  cbn [andb].
  (* the first split *)
  assert (skips "## Default Prompt"
            ("## Default Prompt" +:+ mid +:+ "## Tips" +:+ rb) la = true) as Hla.
  { destruct (lstrip_suffix a) as [l Hl]. fold la in Hl.
    apply (skips_suffix _ _ l). rewrite <- Hl.
    rewrite (skips_indep _ _ _ (mid +:+ "## Tips" +:+ b)).
    apply skips_of_find. by rewrite <- Htext. }
  assert (skips "## Default Prompt" rb (mid +:+ "## Tips") = true) as Hmt.
  { rewrite skips_app, default_prompt_not_from_tips, andb_true_r.
    apply skips_of_contains_false; [| done].
    intros n Hn. by apply default_prompt_not_into_tips. }
  assert (skips "## Tips" ("## Tips" +:+ rb) mid = true) as Hm.
  { rewrite (skips_indep _ _ _ b). by apply skips_of_find. }
  unfold py_split, split.
  rewrite (split_skips _ _ la Hla), split_match by done.
  rewrite <- (str_app_assoc mid), (split_skips _ _ _ Hmt).
  destruct (split_from_cons "## Default Prompt" 0 rb) as (piece & rest & ->).
  cbn [cons_head item lookup list_lookup mbind result_bind].
  rewrite (str_app_assoc mid).
  rewrite (skips_indep _ _ rb piece) in Hm.
  rewrite (split_skips _ _ mid Hm), split_match by done.
  cbn -[system_prompt_banner replace strip].
  by rewrite str_app_nil_r, List.app_nil_r.
Qed.

Lemma C5_boilerplate_witness :
  get_system_prompt "birds" true
    (Ok "# Edit me
Delete everything above this line
## Default Prompt
You know {{chatbot_description}}.
## Tips
Be brief.
")
  = (system_prompt_banner "birds", Ok "You know birds.").
Proof.
  apply (C5_boilerplate_returns_default_section "birds" _
           "# Edit me
Delete everything above this line
" "
You know {{chatbot_description}}.
" "
Be brief.
"); reflexivity.
Defined.

Lemma take_app_ge (x y : string) (n : nat) :
  String.length x <= n -> take n (x +:+ y) = x +:+ take (n - String.length x) y.
Proof.
  revert n; induction x as [|c x IH]; intros n Hn; simpl in *.
  - by rewrite Nat.sub_0_r.
  - destruct n as [|n]; [lia |]. simpl. rewrite IH by lia. done.
Qed.

(** A text with the sentinel and both markers, "## Tips" first: no text
    lies between "## Default Prompt" and a later "## Tips", and what
    follows "## Default Prompt" is returned. *)
Lemma C5_counterexample_markers_in_reverse_order :
  let text := "Delete everything above this line
## Tips
Be brief.
## Default Prompt
Z" in
  contains "Delete everything above this line" text = true
  /\ contains "## Default Prompt" text = true
  /\ contains "## Tips" text = true
  /\ get_system_prompt "birds" true (Ok text)
     = (system_prompt_banner "birds", Ok "Z")
  /\ ~ (exists a mid b,
          text = a +:+ "## Default Prompt" +:+ mid +:+ "## Tips" +:+ b).
Proof.
  cbv zeta. split_and!; try reflexivity.
  intros (a & mid & b & E).
  set (text := a +:+ "## Default Prompt" +:+ mid +:+ "## Tips" +:+ b) in E.
  assert (contains "## Default Prompt"
            (take (String.length text - 7) text) = true) as H.
  { unfold text.
    rewrite <- (str_app_assoc "## Default Prompt"), <- (str_app_assoc a).
    rewrite take_app_ge by (rewrite !str_length_app; simpl; lia).
    apply contains_iff. exists a. eexists. by rewrite !str_app_assoc. }
  rewrite <- E in H. vm_compute in H. done.
Qed.

(** ** ConfigResolver *)

Lemma try_except_ok {A} (a : A) (handler : exn -> list event * A) :
  try_except (Ok a) handler = ([], Ok a).
Proof. reflexivity. Qed.

(** filling the defaults into a dictionary is a union that keeps the
    dictionary's own entries *)
Lemma fill_defaults_dict (defaults : list (string * json)) (m : gmap string json) :
  fill_defaults defaults (JObj m) = Ok (JObj (m ∪ list_to_map defaults)).
Proof.
  revert m; induction defaults as [|[key default_value] rest IH]; intros m.
  - simpl. by rewrite (right_id_L ∅ (∪)).
  - cbn [fill_defaults py_in mbind result_bind].
    case_bool_decide as Hin; cbn [py_setitem mbind result_bind]; rewrite IH;
      do 2 f_equal;
      apply map_eq; intros i; cbn [list_to_map foldr uncurry fst snd];
      rewrite !lookup_union; destruct (decide (i = key)) as [->|Hne].
    + destruct Hin as [v Hv]. rewrite Hv, lookup_insert_eq.
      by destruct (list_to_map rest !! key).
    + by rewrite lookup_insert_ne.
    + rewrite !lookup_insert_eq.
      assert (m !! key = None) as -> by (by apply eq_None_not_Some).
      by destruct (list_to_map rest !! key).
    + by rewrite !lookup_insert_ne.
Qed.

(** C3.  When the text handed to the parser gives a dictionary [m],
    [get_llm_parameters] returns [m] completed by the defaults: every
    default key is bound, to the parsed value if [m] has the key and to the
    built-in default otherwise; every entry of [m] is kept; the keys of the
    result include the default keys and the parsed keys. *)
Theorem C3_parsed_map_completed_by_defaults
    (json_loads : string -> result json) (text : string) (m : gmap string json) :
  match search_json_block text with
  | Some json_str => json_loads json_str
  | None => json_loads text
  end = Ok (JObj m) ->
  exists resolved : gmap string json,
    get_llm_parameters json_loads true (Ok text)
    = (llm_parameters_banner, Ok (JObj resolved))
    /\ (forall key default_value,
          DEFAULT_LLM_PARAMS_dict !! key = Some default_value ->
          resolved !! key = Some (default default_value (m !! key)))
    /\ (forall key value, m !! key = Some value -> resolved !! key = Some value)
    /\ dom DEFAULT_LLM_PARAMS_dict ⊆ dom resolved
    /\ dom m ⊆ dom resolved.
Proof.
  intros Hparsed. exists (m ∪ DEFAULT_LLM_PARAMS_dict). split_and!.
  - unfold get_llm_parameters, read_llm_parameters.
    cbn [negb mbind result_bind]. rewrite Hparsed. cbn [mbind result_bind].
    rewrite fill_defaults_dict, try_except_ok.
    by rewrite List.app_nil_r.
  - intros key default_value Hd. rewrite lookup_union, Hd.
    by destruct (m !! key).
  - intros key value Hv. by apply lookup_union_Some_l.
  - rewrite dom_union_L. apply union_subseteq_r.
  - rewrite dom_union_L. apply union_subseteq_l.
Qed.

Lemma C3_parsed_map_witness :
  let json_loads := fun s : string =>
    if String.eqb s "{}" then Ok (JObj ∅)
    else if String.eqb s "{'temperature': 0.2, 'seed': 7}"
         then Ok (JObj (<["temperature" := JFloat 2 (-1)]> (<["seed" := JInt 7]> ∅)))
         else Raise (JSONDecodeError "Expecting value") in
  exists resolved : gmap string json,
    get_llm_parameters json_loads true
      (Ok "# Parameters
```json
{'temperature': 0.2, 'seed': 7}
```
")
    = (llm_parameters_banner, Ok (JObj resolved))
    /\ resolved !! "temperature" = Some (JFloat 2 (-1))
    /\ resolved !! "top_k" = Some (JInt 40)
    /\ resolved !! "seed" = Some (JInt 7).
Proof.
  intros json_loads.
  destruct (C3_parsed_map_completed_by_defaults json_loads
              "# Parameters
```json
{'temperature': 0.2, 'seed': 7}
```
" (<["temperature" := JFloat 2 (-1)]> (<["seed" := JInt 7]> ∅)))
    as (resolved & Hrun & Hdef & Hkeep & _); [reflexivity |].
  exists resolved. split_and!.
  - exact Hrun.
  - apply Hkeep. reflexivity.
  - apply (Hdef "top_k" (JInt 40)). reflexivity.
  - apply Hkeep. reflexivity.
Defined.

(** C6.  When neither the interior of a fenced json block nor the whole
    text parses as JSON, [get_llm_parameters] does not raise: the error is
    logged and printed, and the built-in default map is returned. *)
Theorem C6_malformed_json_falls_back_to_defaults
    (json_loads : string -> result json) (text : string) :
  (forall json_str, search_json_block text = Some json_str ->
     exists msg, json_loads json_str = Raise (JSONDecodeError msg)) ->
  (exists msg, json_loads text = Raise (JSONDecodeError msg)) ->
  exists msg,
    get_llm_parameters json_loads true (Ok text)
    = (llm_parameters_banner
       ++ [ LogError "Error reading LLM parameters file: " (JSONDecodeError msg);
            PrintExn "Error reading the LLM parameters file: " (JSONDecodeError msg);
            Print "Using default LLM parameters instead." ],
       Ok (JObj DEFAULT_LLM_PARAMS_dict)).
Proof.
  intros Hblock [msg0 Hwhole].
  unfold get_llm_parameters, read_llm_parameters. cbn [negb mbind result_bind].
  destruct (search_json_block text) as [json_str|].
  - destruct (Hblock json_str eq_refl) as [msg ->]. by exists msg.
  - rewrite Hwhole. by exists msg0.
Qed.

Lemma C6_malformed_json_witness :
  let json_loads := fun s : string =>
    if String.eqb s "{}" then Ok (JObj ∅)
    else Raise (JSONDecodeError "Expecting value") in
  exists msg,
    get_llm_parameters json_loads true (Ok "```json
{temperature: hot}
```")
    = (llm_parameters_banner
       ++ [ LogError "Error reading LLM parameters file: " (JSONDecodeError msg);
            PrintExn "Error reading the LLM parameters file: " (JSONDecodeError msg);
            Print "Using default LLM parameters instead." ],
       Ok (JObj DEFAULT_LLM_PARAMS_dict)).
Proof.
  intros json_loads.
  apply (C6_malformed_json_falls_back_to_defaults json_loads).
  - intros json_str [= <-]. by exists "Expecting value"%string.
  - by exists "Expecting value"%string.
Defined.

(** ** [update_config.py] *)

Lemma update_parameters_dict (c p : gmap string json)
    (param_updates : list (string * json)) :
  c !! "parameters" = Some (JObj p) ->
  update_parameters (JObj c) param_updates
  = Ok (JObj (<["parameters" :=
                 JObj (foldl (fun p kv => <[kv.1 := kv.2]> p) p param_updates)]> c)).
Proof.
  revert c p; induction param_updates as [|[key value] rest IH]; intros c p Hp.
  - simpl. by rewrite insert_id.
  - cbn [update_parameters py_getitem py_setitem mbind result_bind]. rewrite Hp.
    cbn [py_setitem mbind result_bind].
    rewrite (IH _ (<[key := value]> p)) by apply lookup_insert_eq.
    by rewrite insert_insert_eq.
Qed.

(** a run that returns had a dictionary of parameters to work on, unless
    there was nothing to update *)
Lemma update_parameters_ok_inv (config config' : json)
    (param_updates : list (string * json)) :
  update_parameters config param_updates = Ok config' ->
  (param_updates = [] /\ config' = config)
  \/ exists c p, config = JObj c /\ c !! "parameters" = Some (JObj p).
Proof.
  destruct param_updates as [|[key value] rest]; [intros [= <-]; by left |].
  intros H. right.
  destruct config as [| | | | |l|c]; try discriminate H.
  cbn [update_parameters py_getitem mbind result_bind] in H.
  destruct (c !! "parameters") as [parameters|] eqn:Hp; [| discriminate H].
  destruct parameters as [| | | | |l|p]; try discriminate H.
  by exists c, p.
Qed.

Lemma foldl_insert_lookup_other (p : gmap string json)
    (param_updates : list (string * json)) (key : string) :
  key ∉ param_updates.*1 ->
  foldl (fun p kv => <[kv.1 := kv.2]> p) p param_updates !! key = p !! key.
Proof.
  revert p; induction param_updates as [|[k v] rest IH]; intros p Hnot; [done |].
  rewrite fmap_cons, not_elem_of_cons in Hnot. destruct Hnot as [Hne Hnot].
  simpl. rewrite IH by done. by rewrite lookup_insert_ne.
Qed.

Lemma foldl_insert_lookup_updated (p : gmap string json)
    (param_updates : list (string * json)) (key : string) :
  key ∈ param_updates.*1 ->
  is_Some (foldl (fun p kv => <[kv.1 := kv.2]> p) p param_updates !! key).
Proof.
  revert p; induction param_updates as [|[k v] rest IH]; intros p Hin.
  - by apply elem_of_nil in Hin.
  - simpl. destruct (decide (key ∈ rest.*1)) as [Hrest|Hrest]; [by apply IH |].
    rewrite fmap_cons in Hin. apply elem_of_cons in Hin as [->|]; [| done].
    rewrite foldl_insert_lookup_other by done.
    rewrite lookup_insert_eq. by eauto.
Qed.

(** C10.  [update_parameters] changes [config['parameters']] only at the
    keys of the updates, which are bound afterwards; every other parameter
    and every other field of the configuration, [system_prompt] and
    [metadata] among them, is as before.  It returns whenever the
    configuration is an object whose [parameters] field is an object. *)
Theorem C10_update_parameters_frame
    (config : json) (param_updates : list (string * json)) :
  (forall config', update_parameters config param_updates = Ok config' ->
     field "system_prompt" config' = field "system_prompt" config
     /\ field "metadata" config' = field "metadata" config
     /\ (forall name, name <> "parameters"%string ->
           field name config' = field name config)
     /\ (forall key, key ∉ param_updates.*1 ->
           parameter key config' = parameter key config)
     /\ (forall key, key ∈ param_updates.*1 -> is_Some (parameter key config')))
  /\ (forall c p, config = JObj c -> c !! "parameters" = Some (JObj p) ->
        exists config', update_parameters config param_updates = Ok config').
Proof.
  split.
  - intros config' Hrun.
    assert ((forall name, name <> "parameters"%string ->
               field name config' = field name config)
            /\ (forall key, key ∉ param_updates.*1 ->
                  parameter key config' = parameter key config)
            /\ (forall key, key ∈ param_updates.*1 ->
                  is_Some (parameter key config'))) as (Hfield & Hother & Hupd).
    { destruct (update_parameters_ok_inv _ _ _ Hrun)
        as [[-> ->]|(c & p & -> & Hp)].
      - split_and!; [done | done |]. intros key Hin. by apply elem_of_nil in Hin.
      - rewrite (update_parameters_dict c p _ Hp) in Hrun.
        injection Hrun as <-. unfold parameter, field. split_and!.
        + intros name Hne. by rewrite lookup_insert_ne.
        + intros key Hnot. rewrite lookup_insert_eq, Hp. simpl.
          by apply foldl_insert_lookup_other.
        + intros key Hin. rewrite lookup_insert_eq. simpl.
          by apply foldl_insert_lookup_updated. }
    split_and!; [by apply Hfield | by apply Hfield | done | done | done].
  - intros c p -> Hp. eexists. by apply update_parameters_dict.
Qed.

Lemma C10_update_parameters_witness :
  let config := JObj (<["system_prompt" := JStr "Be kind."]>
                      (<["parameters" := JObj (<["temperature" := JFloat 7 (-1)]>
                                               (<["top_k" := JInt 40]> ∅))]>
                       (<["metadata" := JObj (<["version" := JStr "1.0"]> ∅)]> ∅))) in
  exists config',
    update_parameters config [("temperature", JFloat 2 (-1)); ("seed", JInt 7)]%string
    = Ok config'
    /\ field "system_prompt" config' = Some (JStr "Be kind.")
    /\ parameter "top_k" config' = Some (JInt 40).
Proof.
  intros config.
  destruct (C10_update_parameters_frame config
              [("temperature", JFloat 2 (-1)); ("seed", JInt 7)]%string)
    as [Hframe Hruns].
  destruct (Hruns _ _ eq_refl eq_refl) as [config' Hrun].
  exists config'. destruct (Hframe config' Hrun) as (Hsp & _ & _ & Hother & _).
  split_and!; [done | by rewrite Hsp |].
  rewrite Hother; [reflexivity |].
  cbn. rewrite !not_elem_of_cons. split_and!; [done | done | apply not_elem_of_nil].
Defined.

(** ** ArtifactWriter *)

(** C8.  When the target directory exists and the answer to the overwrite
    question is not "y" (in any letter case), [create_directory_structure]
    raises [SystemExit] before anything is removed or made; the
    [except Exception] of [main] does not catch it, so no later step runs
    and the file system is as it was. *)
Theorem C8_declined_overwrite_halts_without_changes
    (rest_of_try : path -> gmap path node -> list event * gmap path node * result ())
    (cwd : path) (chatbot_name response : string) (f : gmap path node) :
  fs_exists f (cwd ++ [chatbot_name]) = true ->
  lower response <> "y"%string ->
  let evs :=
    [ LogInfo ("Creating directory structure for " +:+ chatbot_name);
      LogWarning ("Directory " +:+ path_str (cwd ++ [chatbot_name]) +:+ " already exists");
      Print "Directory already exists. Overwrite? [y/N]: ";
      LogInfo "Aborting..." ] in
  create_directory_structure cwd chatbot_name response f
  = (evs, f, Raise (SystemExit 0))
  /\ main_generate rest_of_try cwd chatbot_name response f
     = (evs, f, Raise (SystemExit 0)).
Proof.
  intros Hexists Hno evs.
  assert (create_directory_structure cwd chatbot_name response f
          = (evs, f, Raise (SystemExit 0))) as Hcreate.
  { unfold create_directory_structure. rewrite Hexists.
    apply String.eqb_neq in Hno. by rewrite Hno. }
  split; [done |].
  unfold main_generate. rewrite Hcreate. cbn [is_Exception].
  by rewrite List.app_nil_r.
Qed.

Lemma C8_declined_overwrite_witness :
  let f : gmap path node :=
    <[ ["home"; "bot"]%string := Dir ]>
      (<[ ["home"; "bot"; "notes.txt"]%string := File "keep me" ]> ∅) in
  let rest_of_try := fun (dir : path) (f : gmap path node) =>
    ([Print "generated"], <[ dir ++ ["README.md"%string] := File "# bot" ]> f, Ok ()) in
  (main_generate rest_of_try ["home"%string] "bot" "no" f).1.2 = f
  /\ (main_generate rest_of_try ["home"%string] "bot" "no" f).2 = Raise (SystemExit 0).
Proof.
  intros f rest_of_try.
  destruct (C8_declined_overwrite_halts_without_changes
              rest_of_try ["home"%string] "bot" "no" f) as [_ Hmain];
    [reflexivity | discriminate |].
  rewrite Hmain. split; reflexivity.
Defined.

(** ** ThemeComposer *)

Lemma css_style_block_rounded : css_style_block "rounded" = css_rounded.
Proof. reflexivity. Qed.

Lemma css_style_block_unknown (style : string) :
  style <> "clean"%string -> style <> "traditional"%string ->
  style <> "minimal"%string -> style <> "code"%string ->
  style <> "rounded"%string ->
  css_style_block style = ""%string.
Proof.
  intros H1%String.eqb_neq H2%String.eqb_neq H3%String.eqb_neq
         H4%String.eqb_neq H5%String.eqb_neq.
  unfold css_style_block. by rewrite H1, H2, H3, H4, H5.
Qed.

Lemma generate_custom_css_text (target_name : string) (theme_colors : theme_colors)
    (font_style : font_style) (base_css_path : string) (base_css_file : option string) :
  (generate_custom_css target_name theme_colors font_style
     base_css_path base_css_file).2
  = (css_header target_name theme_colors font_style
     +:+ default "/* Default styles */
"%string base_css_file
     +:+ css_trailer font_style)
    +:+ css_style_block (fs_style font_style).
Proof. unfold generate_custom_css. by destruct base_css_file. Qed.

(** C9 (amended).  With the style tag "rounded" the style sheet contains
    the rounded block, and what is emitted after the base style sheet
    contains none of the other four blocks.  With a tag that is none of
    the five, the style sheet is the header, the base style sheet and the
    comment line naming the tag, and nothing after it.  The composer
    always yields a text. *)
Theorem C9_style_block_selection (target_name : string) (theme_colors : theme_colors)
    (font_style : font_style) (base_css_path : string) (base_css_file : option string) :
  let base_css := default "/* Default styles */
"%string base_css_file in
  let css := (generate_custom_css target_name theme_colors font_style
                base_css_path base_css_file).2 in
  (fs_style font_style = "rounded"%string ->
     exists tail,
       css = css_header target_name theme_colors font_style +:+ base_css +:+ tail
       /\ contains css_rounded css = true
       /\ contains css_rounded tail = true
       /\ contains css_clean tail = false
       /\ contains css_traditional tail = false
       /\ contains css_minimal tail = false
       /\ contains css_code tail = false)
  /\ (fs_style font_style <> "clean"%string ->
      fs_style font_style <> "traditional"%string ->
      fs_style font_style <> "minimal"%string ->
      fs_style font_style <> "code"%string ->
      fs_style font_style <> "rounded"%string ->
      css = css_header target_name theme_colors font_style +:+ base_css
            +:+ "

/* Custom " +:+ fs_style font_style +:+ " style adjustments */
").
Proof.
  intros base_css css. unfold css. rewrite generate_custom_css_text. fold base_css.
  split.
  - intros Hstyle. exists (css_trailer font_style +:+ css_rounded).
    rewrite Hstyle, css_style_block_rounded. unfold css_trailer. rewrite Hstyle.
    split_and!; try reflexivity.
    + by rewrite !str_app_assoc.
    + apply contains_iff. eexists. exists ""%string.
      rewrite str_app_nil_r. reflexivity.
  - intros H1 H2 H3 H4 H5. rewrite css_style_block_unknown by done.
    unfold css_trailer. by rewrite str_app_nil_r.
Qed.

Lemma C9_style_block_witness :
  let friendly := {| fs_name := "Friendly"; fs_font_family := "Quicksand, sans-serif";
                     fs_style := "rounded" |} in
  let fancy := {| fs_name := "Fancy"; fs_font_family := "Papyrus"; fs_style := "fancy" |} in
  let forest := {| tc_primary := "#22C55E"; tc_bg := "#F0FDF4"; tc_text := "#14532D";
                   tc_name := None |} in
  contains css_rounded
    (generate_custom_css "BioBot" forest friendly "/src/static/css/style.css" None).2 = true
  /\ (generate_custom_css "BioBot" forest fancy "/src/static/css/style.css" None).2
     = css_header "BioBot" forest fancy +:+ "/* Default styles */
" +:+ "

/* Custom fancy style adjustments */
".
Proof.
  intros friendly fancy forest. split.
  - destruct (C9_style_block_selection "BioBot" forest friendly
                "/src/static/css/style.css" None) as [Hrounded _].
    destruct (Hrounded eq_refl) as (tail & _ & Hin & _). exact Hin.
  - destruct (C9_style_block_selection "BioBot" forest fancy
                "/src/static/css/style.css" None) as [_ Hunknown].
    apply Hunknown; discriminate.
Defined.

(** Without these provisos the statement fails twice: a base style sheet
    may itself hold the text of another block, and after the base style
    sheet an unknown tag still gets its comment line. *)
Lemma C9_counterexample_base_text_and_comment_line :
  let friendly := {| fs_name := "Friendly"; fs_font_family := "Quicksand, sans-serif";
                     fs_style := "rounded" |} in
  let fancy := {| fs_name := "Fancy"; fs_font_family := "Papyrus"; fs_style := "fancy" |} in
  let forest := {| tc_primary := "#22C55E"; tc_bg := "#F0FDF4"; tc_text := "#14532D";
                   tc_name := None |} in
  contains css_clean
    (generate_custom_css "BioBot" forest friendly "/src/static/css/style.css"
       (Some css_clean)).2 = true
  /\ (generate_custom_css "BioBot" forest fancy "/src/static/css/style.css"
        (Some "p { margin: 0; }")).2
     <> css_header "BioBot" forest fancy +:+ "p { margin: 0; }".
Proof.
  intros friendly fancy forest. split.
  - vm_compute. reflexivity.
  - vm_compute. discriminate.
Qed.

(** ** TemplateRenderer: one key on a well-formed template *)

Module TemplateFacts.

Lemma brace_free_cons (c : ascii) (s : string) :
  brace_free (String c s) = true ->
  c <> "{"%char /\ c <> "}"%char /\ brace_free s = true.
Proof.
  unfold brace_free. cbn [all_chars].
  intros [[H1%negb_true_iff H2%negb_true_iff]%andb_true_iff H3]%andb_true_iff.
  by apply Ascii.eqb_neq in H1, H2.
Qed.

Lemma brace_free_no_open (s : string) : brace_free s = true -> no_open s = true.
Proof.
  induction s as [|c s IH]; [done |].
  intros (H1 & _ & H3)%brace_free_cons. unfold no_open. cbn [all_chars].
  apply Ascii.eqb_neq in H1. rewrite H1. by apply IH.
Qed.

Lemma no_open_app (x y : string) :
  no_open (x +:+ y) = no_open x && no_open y.
Proof.
  unfold no_open. induction x as [|c x IH]; simpl; [done |].
  by rewrite IH, andb_assoc.
Qed.

Lemma placeholder_cons (key : string) :
  placeholder key = String "{" (String "{" (String "{" (String " " (key +:+ " }}}")))).
Proof. reflexivity. Qed.

Lemma placeholder_not_empty (key : string) : placeholder key <> EmptyString.
Proof. by rewrite placeholder_cons. Qed.

(** a token starts with an opening brace, so text without one is skipped *)
Lemma skips_no_open (key r x : string) :
  no_open x = true -> skips (placeholder key) r x = true.
Proof.
  induction x as [|c x IH]; [done |].
  unfold no_open. cbn [all_chars skips].
  intros [Hc%negb_true_iff Hx]%andb_true_iff.
  rewrite IH by done. rewrite andb_true_r, placeholder_cons.
  cbn [String.append startswith].
  rewrite Ascii.eqb_sym in Hc. by rewrite Hc.
Qed.

(** a token begins with three opening braces: text that has none in a row
    and does not end in one is skipped, whatever follows it *)
Lemma skips_no_opener (key r x : string) :
  no_opener x = true -> skips (placeholder key) r x = true.
Proof.
  unfold no_opener. intros [Hin%negb_true_iff Hend%negb_true_iff]%andb_true_iff.
  induction x as [|c x IH]; [done |].
  apply contains_false_cons in Hin as [Hhere Hin].
  cbn [skips]. apply andb_true_iff. split.
  - apply negb_true_iff. rewrite placeholder_cons.
    cbn [String.append startswith] in Hhere |- *.
    destruct (Ascii.eqb_spec "{" c) as [<-|]; [| done].
    destruct x as [|c1 x]; [done |].
    cbn [String.append startswith] in Hhere |- *.
    destruct (Ascii.eqb_spec "{" c1) as [<-|]; [| done].
    destruct x as [|c2 x]; [done |].
    cbn [String.append startswith] in Hhere |- *.
    by destruct (Ascii.eqb_spec "{" c2).
  - apply IH; [done |]. by destruct x.
Qed.

(** tokens of brace-free names are told apart by the name *)
Lemma key_suffix_inj (k k' r : string) :
  brace_free k = true -> brace_free k' = true ->
  startswith (k +:+ " }}}") (k' +:+ " }}}" +:+ r) = true -> k = k'.
Proof.
  revert k'; induction k as [|a k IH]; intros k' Hk Hk' H.
  - destruct k' as [|c k']; [done |]. exfalso.
    apply brace_free_cons in Hk' as (_ & _ & Hk'). cbn [String.append startswith] in H.
    destruct (Ascii.eqb " " c); [| done].
    destruct k' as [|d k']; cbn [String.append startswith] in H; [done |].
    apply brace_free_cons in Hk' as (_ & Hd & _).
    destruct (Ascii.eqb_spec "}" d); [by subst | done].
  - apply brace_free_cons in Hk as (_ & _ & Hk).
    destruct k' as [|c k']; cbn [String.append startswith] in H.
    + exfalso. destruct (Ascii.eqb a " "); [| done].
      destruct k as [|b k]; cbn [String.append startswith] in H; [done |].
      apply brace_free_cons in Hk as (_ & Hb & _).
      destruct (Ascii.eqb_spec b "}"); [by subst | done].
    + apply brace_free_cons in Hk' as (_ & _ & Hk').
      destruct (Ascii.eqb_spec a c) as [->|]; [| done].
      f_equal. by apply IH.
Qed.

Lemma skips_other_token (k k' r : string) :
  k <> k' -> brace_free k = true -> brace_free k' = true ->
  skips (placeholder k) r (placeholder k') = true.
Proof.
  intros Hne Hk Hk'.
  rewrite (placeholder_cons k').
  change (String "{" (String "{" (String "{" (String " " (k' +:+ " }}}")))))
    with ("{{{" +:+ String " " (k' +:+ " }}}")).
  rewrite skips_app. apply andb_true_iff. split.
  - rewrite placeholder_cons. simpl. rewrite andb_true_r.
    apply negb_true_iff.
    destruct (startswith (k +:+ " }}}") ((k' +:+ " }}}") +:+ r)) eqn:E; [| done].
    rewrite str_app_assoc in E. by apply key_suffix_inj in E.
  - apply skips_no_open.
    change (String " " (k' +:+ " }}}")) with (" " +:+ k' +:+ " }}}").
    rewrite !no_open_app. by rewrite (brace_free_no_open k').
Qed.

Lemma replace_template (key value : string) (segs : list segment) :
  brace_free key = true -> wf_template segs = true ->
  replace (placeholder key) value (flatten segs)
  = flatten (map (subst_segment key value) segs).
Proof.
  intros Hk. induction segs as [|seg segs IH]; [done |].
  cbn [wf_template forallb]. intros [Hseg Hsegs]%andb_true_iff.
  specialize (IH Hsegs). destruct seg as [text|key']; cbn [flatten map subst_segment].
  - rewrite replace_skips by (by apply skips_no_opener). by rewrite IH.
  - destruct (String.eqb_spec key key') as [<-|Hne]; cbn [flatten].
    + rewrite replace_match by apply placeholder_not_empty. by rewrite IH.
    + rewrite replace_skips by (by apply skips_other_token). by rewrite IH.
Qed.

Lemma contains_template (key : string) (segs : list segment) :
  brace_free key = true -> wf_template segs = true ->
  has_tok key segs = false ->
  contains (placeholder key) (flatten segs) = false.
Proof.
  intros Hk. induction segs as [|seg segs IH]; [done |].
  cbn [wf_template forallb has_tok existsb].
  intros [Hseg Hsegs]%andb_true_iff [Hhere Hrest]%orb_false_iff.
  specialize (IH Hsegs Hrest). destruct seg as [text|key']; cbn [flatten].
  - rewrite contains_skips by (by apply skips_no_opener). done.
  - apply String.eqb_neq in Hhere.
    rewrite contains_skips by (by apply skips_other_token). done.
Qed.

Lemma wf_subst_segment (key value : string) (segs : list segment) :
  no_opener value = true -> wf_template segs = true ->
  wf_template (map (subst_segment key value) segs) = true.
Proof.
  intros Hv. induction segs as [|seg segs IH]; [done |].
  cbn [wf_template forallb map]. intros [Hseg Hsegs]%andb_true_iff.
  apply andb_true_iff. split; [| by apply IH].
  destruct seg as [text|key']; [done |]. simpl.
  by destruct (String.eqb key key').
Qed.

Lemma has_tok_subst_same (key value : string) (segs : list segment) :
  has_tok key (map (subst_segment key value) segs) = false.
Proof.
  induction segs as [|seg segs IH]; [done |].
  cbn [has_tok existsb map]. apply orb_false_iff. split; [| done].
  destruct seg as [text|key']; [done |]. simpl.
  by destruct (String.eqb key key') eqn:E.
Qed.

Lemma has_tok_subst_other (key key' value : string) (segs : list segment) :
  has_tok key segs = false ->
  has_tok key (map (subst_segment key' value) segs) = false.
Proof.
  induction segs as [|seg segs IH]; [done |].
  cbn [has_tok existsb map]. intros [Hhere Hrest]%orb_false_iff.
  apply orb_false_iff. split; [| by apply IH].
  destruct seg as [text|key'']; [done |]. simpl.
  by destruct (String.eqb key' key'').
Qed.

End TemplateFacts.

Import TemplateFacts.

(** ** TemplateRenderer: the whole configuration, the whole tree *)

Lemma replace_placeholders_app (c1 c2 : list (string * pyval)) (content : string) :
  replace_placeholders (c1 ++ c2) content
  = replace_placeholders c2 (replace_placeholders c1 content).
Proof. unfold replace_placeholders. by rewrite fold_left_app. Qed.

Lemma replace_absent (old new s : string) :
  contains old s = false -> replace old new s = s.
Proof.
  destruct old as [|a p]; [by destruct s |].
  induction s as [|c s IH]; [done |].
  intros [H1 H2]%contains_false_cons.
  rewrite replace_nomatch by done. by rewrite IH.
Qed.

(** keys whose token does not occur leave the text alone *)
Lemma replace_placeholders_absent (config : list (string * pyval)) (content : string) :
  forallb (fun kv => negb (contains (placeholder kv.1) content)) config = true ->
  replace_placeholders config content = content.
Proof.
  induction config as [|[key value] rest IH]; [done |].
  cbn [forallb]. intros [Hk%negb_true_iff Hrest]%andb_true_iff.
  unfold replace_placeholders. cbn [fold_left fst snd].
  rewrite replace_absent by done. by apply IH.
Qed.

(** on a well-formed template the key-by-key replacement is the
    substitution of the tokens *)
Lemma replace_placeholders_template (config : list (string * pyval))
    (segs : list segment) :
  wf_config config = true -> wf_template segs = true ->
  replace_placeholders config (flatten segs) = flatten (subst_template config segs)
  /\ wf_template (subst_template config segs) = true.
Proof.
  revert segs; induction config as [|[key value] rest IH]; intros segs Hc Hs.
  - done.
  - cbn [wf_config forallb fst snd] in Hc.
    apply andb_true_iff in Hc as [[Hk Hv]%andb_true_iff Hrest].
    unfold replace_placeholders, subst_template. cbn [fold_left fst snd].
    rewrite replace_template by done.
    apply (IH _ Hrest). by apply wf_subst_segment.
Qed.

Lemma has_tok_subst_template (config : list (string * pyval))
    (segs : list segment) (key : string) :
  has_tok key segs = false -> has_tok key (subst_template config segs) = false.
Proof.
  revert segs; induction config as [|[key' value'] rest IH]; intros segs H; [done |].
  unfold subst_template. cbn [fold_left fst snd].
  apply IH. by apply has_tok_subst_other.
Qed.

Lemma subst_template_no_key (config : list (string * pyval))
    (segs : list segment) (key : string) (value : pyval) :
  (key, value) ∈ config -> has_tok key (subst_template config segs) = false.
Proof.
  revert segs; induction config as [|[key' value'] rest IH]; intros segs Hin.
  - by apply elem_of_nil in Hin.
  - unfold subst_template. cbn [fold_left fst snd].
    apply elem_of_cons in Hin as [[= <- <-]|Hin].
    + apply has_tok_subst_template, has_tok_subst_same.
    + by apply IH.
Qed.

Lemma wf_config_key (config : list (string * pyval)) (key : string) (value : pyval) :
  wf_config config = true -> (key, value) ∈ config -> brace_free key = true.
Proof.
  unfold wf_config. rewrite forallb_forall. intros H Hin.
  apply list_elem_of_In in Hin. by apply H in Hin as [? _]%andb_true_iff.
Qed.

(** no token of a configured key is left in a rendered well-formed template *)
Lemma rendered_template_has_no_token (config : list (string * pyval))
    (segs : list segment) (key : string) (value : pyval) :
  wf_config config = true -> wf_template segs = true ->
  (key, value) ∈ config ->
  contains (placeholder key) (replace_placeholders config (flatten segs)) = false.
Proof.
  intros Hc Hs Hin.
  destruct (replace_placeholders_template config segs Hc Hs) as [-> Hwf].
  apply contains_template; [by eapply wf_config_key | done |].
  by eapply subst_template_no_key.
Qed.

(** ** What the renderer does to the file system *)

Module FsFacts.

Lemma grows_refl (P : path -> Prop) (f : gmap path node) : grows P f f.
Proof. intros q. by left. Qed.

Lemma grows_trans (P : path -> Prop) (f1 f2 f3 : gmap path node) :
  grows P f1 f2 -> grows P f2 f3 -> grows P f1 f3.
Proof.
  intros H12 H23 q. destruct (H23 q) as [E|(E1 & E2 & HP)], (H12 q) as [E'|(E1' & E2' & HP')].
  - left. congruence.
  - right. split_and!; [done | congruence | done].
  - right. split_and!; [congruence | done | done].
  - congruence.
Qed.

Lemma grows_weaken (P Q : path -> Prop) (f f' : gmap path node) :
  (forall q, P q -> Q q) -> grows P f f' -> grows Q f f'.
Proof. intros HPQ H q. destruct (H q) as [E|(E1 & E2 & HP)]; [by left | right; auto]. Qed.

Lemma grows_insert (P : path -> Prop) (f : gmap path node) (d : path) :
  f !! d = None -> P d -> grows P f (<[d := Dir]> f).
Proof.
  intros Hd HP q. destruct (decide (q = d)) as [->|Hne].
  - right. by rewrite lookup_insert_eq.
  - left. by rewrite lookup_insert_ne.
Qed.

Lemma mkdir_from_grows (made todo : path) (f f' : gmap path node) :
  mkdir_from made todo f = Ok f' ->
  grows (fun q => made `prefix_of` q /\ q <> made /\ q `prefix_of` made ++ todo) f f'.
Proof.
  revert made f; induction todo as [|c todo IH]; intros made f H.
  - injection H as <-. apply grows_refl.
  - cbn [mkdir_from] in H.
    assert (forall q, made ++ [c] `prefix_of` q /\ q <> made ++ [c]
                      /\ q `prefix_of` (made ++ [c]) ++ todo ->
                      made `prefix_of` q /\ q <> made
                      /\ q `prefix_of` made ++ c :: todo) as Hsub.
    { intros q ([k ->] & Hne & Hq). split_and!.
      - exists ([c] ++ k). by rewrite app_assoc.
      - intros E. apply (f_equal length) in E. rewrite !length_app in E. simpl in E. lia.
      - by replace (made ++ c :: todo) with ((made ++ [c]) ++ todo)
          by (by rewrite <- app_assoc). }
    destruct (f !! (made ++ [c])) as [[|content]|] eqn:Hd; [| done |].
    + eapply grows_weaken; [exact Hsub | by apply IH].
    + eapply grows_trans; [| eapply grows_weaken; [exact Hsub | by apply IH]].
      apply grows_insert; [done |]. split_and!.
      * by exists [c].
      * intros E. apply (f_equal length) in E. rewrite length_app in E. simpl in E. lia.
      * exists todo. by rewrite <- app_assoc.
Qed.

Lemma between_step (made todo q : path) (c : string) :
  made `prefix_of` q -> q <> made -> q `prefix_of` made ++ c :: todo ->
  q = made ++ [c]
  \/ (made ++ [c] `prefix_of` q /\ q <> made ++ [c]
      /\ q `prefix_of` (made ++ [c]) ++ todo).
Proof.
  intros [k ->] Hne [k' Hk']. rewrite <- app_assoc in Hk'.
  apply app_inv_head in Hk'. destruct k as [|x k].
  - by rewrite app_nil_r in Hne.
  - injection Hk' as <- Hk'. destruct k as [|y k].
    + by left.
    + right. split_and!.
      * exists (y :: k). by rewrite <- app_assoc.
      * intros E. apply (f_equal length) in E. rewrite !length_app in E.
        simpl in E. lia.
      * exists k'. rewrite Hk'. by rewrite <- !app_assoc.
Qed.

(** with no file in the way every directory on the way is there afterwards *)
Lemma mkdir_from_ok (made todo : path) (f : gmap path node) :
  (forall q content, q `prefix_of` made ++ todo -> f !! q <> Some (File content)) ->
  exists f', mkdir_from made todo f = Ok f'
    /\ forall q, made `prefix_of` q -> q <> made -> q `prefix_of` made ++ todo ->
                 f' !! q = Some Dir.
Proof.
  revert made f; induction todo as [|c todo IH]; intros made f Hfree.
  - exists f. split; [done |]. intros q [k ->] Hne Hq. rewrite app_nil_r in Hq.
    destruct Hq as [k' Hk']. rewrite <- app_assoc in Hk'.
    rewrite <- (app_nil_r made) in Hk' at 1. apply app_inv_head in Hk'.
    symmetry in Hk'. apply app_eq_nil in Hk' as [-> _]. by rewrite app_nil_r in Hne.
  - cbn [mkdir_from].
    assert (made ++ [c] `prefix_of` made ++ c :: todo) as Hd.
    { exists todo. by rewrite <- app_assoc. }
    destruct (f !! (made ++ [c])) as [[|content]|] eqn:E.
    + destruct (IH (made ++ [c]) f) as (f' & Hrun & Hdirs).
      { intros q content Hq. apply Hfree. by rewrite <- app_assoc in Hq. }
      exists f'. split; [done |]. intros q H1 H2 H3.
      destruct (between_step _ _ _ _ H1 H2 H3) as [->|(H4 & H5 & H6)]; [| by apply Hdirs].
      destruct (mkdir_from_grows _ _ _ _ Hrun (made ++ [c])) as [E1|(_ & E2 & _)];
        [exact (eq_trans E1 E) | exact E2].
    + by destruct (Hfree (made ++ [c]) content Hd).
    + destruct (IH (made ++ [c]) (<[made ++ [c] := Dir]> f)) as (f' & Hrun & Hdirs).
      { intros q content Hq. rewrite <- app_assoc in Hq.
        destruct (decide (q = made ++ [c])) as [->|Hne].
        - by rewrite lookup_insert_eq.
        - rewrite lookup_insert_ne by done. by apply Hfree. }
      exists f'. split; [done |]. intros q H1 H2 H3.
      destruct (between_step _ _ _ _ H1 H2 H3) as [->|(H4 & H5 & H6)]; [| by apply Hdirs].
      destruct (mkdir_from_grows _ _ _ _ Hrun (made ++ [c])) as [E1|(_ & E2 & _)];
        [exact (eq_trans E1 (lookup_insert_eq _ _ _)) | exact E2].
Qed.

Lemma make_directories_grows (chatbot_dir : path) (dirs : list path)
    (f f' : gmap path node) (r : result ()) :
  make_directories chatbot_dir dirs f = (f', r) ->
  grows (fun q => q <> [] /\ exists d, d ∈ dirs /\ q `prefix_of` chatbot_dir ++ d) f f'.
Proof.
  revert f; induction dirs as [|d dirs IH]; intros f H.
  - injection H as <- _. apply grows_refl.
  - cbn [make_directories] in H. unfold mkdir_parents in H.
    destruct (mkdir_from [] (chatbot_dir ++ d) f) as [f1|e] eqn:E.
    + eapply grows_trans.
      * eapply grows_weaken; [| by apply (mkdir_from_grows _ _ _ _ E)].
        intros q (_ & Hne & Hq). split; [done |]. exists d. split; [by left | done].
      * eapply grows_weaken; [| by apply IH].
        intros q [Hne (d' & Hd' & Hq)]. split; [done |]. exists d'. split; [by right | done].
    + injection H as <- _. apply grows_refl.
Qed.

Lemma make_directories_ok (chatbot_dir : path) (dirs : list path)
    (f : gmap path node) :
  (forall d q content, d ∈ dirs -> q `prefix_of` chatbot_dir ++ d ->
     f !! q <> Some (File content)) ->
  exists f', make_directories chatbot_dir dirs f = (f', Ok ())
    /\ forall d, d ∈ dirs -> chatbot_dir ++ d <> [] ->
         f' !! (chatbot_dir ++ d) = Some Dir.
Proof.
  revert f; induction dirs as [|d dirs IH]; intros f Hfree.
  - exists f. split; [done |]. intros d Hd. by apply elem_of_nil in Hd.
  - cbn [make_directories]. unfold mkdir_parents.
    destruct (mkdir_from_ok [] (chatbot_dir ++ d) f) as (f1 & Hrun & Hdirs).
    { intros q content Hq. apply (Hfree d); [by left | done]. }
    rewrite Hrun.
    destruct (IH f1) as (f' & Hrest & Hdirs').
    { intros d' q content Hd' Hq.
      destruct (mkdir_from_grows _ _ _ _ Hrun q) as [E1|(_ & E2 & _)].
      - intros E2. apply (Hfree d' q content); [by right | done |].
        exact (eq_trans (eq_sym E1) E2).
      - intros E3. pose proof (eq_trans (eq_sym E2) E3). done. }
    exists f'. split; [done |]. intros d' Hin Hne.
    apply elem_of_cons in Hin as [->|Hin]; [| by apply Hdirs'].
    destruct (make_directories_grows _ _ _ _ _ Hrest (chatbot_dir ++ d))
      as [E1|(_ & E2 & _)]; [| exact E2].
    refine (eq_trans E1 _). apply Hdirs; [apply prefix_nil | done | done].
Qed.

Lemma rmtree_lookup (p : path) (f f' : gmap path node) (q : path) :
  rmtree p f = Ok f' ->
  f' !! q = if decide (p `prefix_of` q) then None else f !! q.
Proof.
  unfold rmtree. destruct (f !! p) as [[|content]|]; [| done | done].
  intros [= <-]. rewrite map_lookup_filter.
  destruct (f !! q) as [x|]; simpl; [| by case_decide].
  case_decide; by rewrite ?option_guard_True, ?option_guard_False by auto.
Qed.

Lemma rmtree_ok (p : path) (f : gmap path node) :
  f !! p = Some Dir -> exists f', rmtree p f = Ok f'.
Proof. unfold rmtree. intros ->. by eauto. Qed.

End FsFacts.

Import FsFacts.


Lemma write_text_ok (p : path) (content : string) (f : gmap path node) :
  f !! p <> Some Dir -> write_text p content f = Ok (<[p := File content]> f).
Proof. unfold write_text. by destruct (f !! p) as [[|old]|]. Qed.





(** C2 (amended).  The keys are replaced one after the other in the order
    of the configuration, each in one scan that does not look into the
    value it has just put in.  So where a template holds the token of a key
    (and no token of an earlier key), the value goes in as it is, whatever
    token of its own key or of an earlier key it holds, and the later keys
    are then replaced in the text that holds the value; when no token of a
    later key occurs in that text, it is the output. *)
Theorem C2_value_inserted_literally_unless_later_key
    (earlier later : list (string * pyval)) (key : string) (value : pyval)
    (a b : string) :
  let content := a +:+ placeholder key +:+ b in
  let out := a +:+ py_str value +:+ replace (placeholder key) (py_str value) b in
  forallb (fun kv => negb (contains (placeholder kv.1) content)) earlier = true ->
  find (placeholder key) content = Some (String.length a) ->
  replace_placeholders (earlier ++ (key, value) :: later) content
  = replace_placeholders later out
  /\ (forallb (fun kv => negb (contains (placeholder kv.1) out)) later = true ->
      replace_placeholders (earlier ++ (key, value) :: later) content = out).
Proof.
  intros content out Hearlier Hfirst.
  assert (replace_placeholders (earlier ++ (key, value) :: later) content
          = replace_placeholders later out) as Hrun.
  { rewrite replace_placeholders_app, (replace_placeholders_absent earlier) by done.
    change ((key, value) :: later) with ([(key, value)] ++ later).
    rewrite replace_placeholders_app. f_equal.
    unfold replace_placeholders, content, out. cbn [fold_left fst snd].
    rewrite replace_skips by (by apply skips_of_find).
    by rewrite replace_match by apply placeholder_not_empty. }
  split; [done |].
  intros Hlater. rewrite Hrun. by apply replace_placeholders_absent.
Qed.

Lemma C2_value_inserted_literally_witness :
  replace_placeholders
    [ ("chatbot_name", PStr "BioBot");
      ("chatbot_description",
       PStr "{{{ chatbot_name }}} explains {{{ chatbot_description }}}");
      ("model_name", PStr "llama3.2:1b") ]%string
    "<{{{ chatbot_description }}}>"
  = "<{{{ chatbot_name }}} explains {{{ chatbot_description }}}>"%string.
Proof.
  apply (C2_value_inserted_literally_unless_later_key
           [("chatbot_name", PStr "BioBot")]%string
           [("model_name", PStr "llama3.2:1b")]%string
           "chatbot_description"
           (PStr "{{{ chatbot_name }}} explains {{{ chatbot_description }}}")
           "<" ">"); reflexivity.
Defined.

(** A description that quotes the token of a later key: the later
    replacement expands it, so the value is not in the output as it is. *)
Lemma C2_counterexample_later_key_expands_value :
  let config :=
    main_config "BioBot" "see {{{ model_name }}}" "llama3.2:1b"
      "yourusername" "2025-01-01" "sky"
      {| tc_primary := "#0EA5E9"; tc_bg := "#F0F9FF"; tc_text := "#0C4A6E";
         tc_name := None |}
      {| fs_name := "Modern"; fs_font_family := "Inter, system-ui, sans-serif";
         fs_style := "clean" |} in
  replace_placeholders config "{{{ chatbot_description }}}" = "see llama3.2:1b"%string
  /\ contains "see {{{ model_name }}}" "see llama3.2:1b" = false.
Proof. split; reflexivity. Qed.

(** C7.  A source file that cannot be read ends the rendering: the
    exception leaves the function, nothing is logged for it, and the files
    after it are not rendered. *)
Theorem C7_unreadable_file_ends_rendering :
  copy_and_update_template_files
    [ (["a.txt"], Ok "Hello {{{ chatbot_name }}}");
      (["b.txt"], Raise (OSError "No such file or directory"));
      (["c.txt"], Ok "Bye {{{ chatbot_name }}}") ]%string
    ["BioBot"%string] {[ ["BioBot"%string] := Dir ]}
    [("chatbot_name", PStr "BioBot")]%string
  = ([LogInfo "Copying and updating template files"],
     <[ ["BioBot"; "a.txt"]%string := File "Hello BioBot" ]>
       {[ ["BioBot"%string] := Dir ]},
     Raise (OSError "No such file or directory")).
Proof.
  unfold copy_and_update_template_files, render_files.
  change (removelast (["BioBot"] ++ ["a.txt"]))%string with ["BioBot"%string].
  change (removelast (["BioBot"] ++ ["b.txt"]))%string with ["BioBot"%string].
  unfold mkdir_parents. cbn [mkdir_from app].
  rewrite lookup_singleton_eq.
  rewrite write_text_ok by (by rewrite lookup_singleton_ne).
  rewrite lookup_insert_ne by done. by rewrite lookup_singleton_eq.
Qed.

(** ** The models on small inputs *)

Example search_json_block_ex1 :
  search_json_block "Edit below.
```json
{}
```
Thanks." = Some "{}"%string.
Proof. reflexivity. Qed.

Example search_json_block_ex2 :
  search_json_block "{}" = None
  /\ search_json_block "```json {} " = None
  /\ search_json_block "```json   ```" = Some ""%string.
Proof. split_and!; reflexivity. Qed.

(** a parsed value that is not a dictionary: the item assignment raises
    [TypeError], which the [except] turns into the defaults *)
Example get_llm_parameters_list :
  (get_llm_parameters (fun _ => Ok (JArr [JInt 1])) true (Ok "[1]")).2
  = Ok (JObj DEFAULT_LLM_PARAMS_dict).
Proof. reflexivity. Qed.

(** the token as the renderer builds it *)
Example placeholder_ex : placeholder "model_name" = "{{{ model_name }}}"%string.
Proof. reflexivity. Qed.

(** [templates/llm.py] writes its token with two braces: the renderer
    leaves that line as it is *)
Example llm_template_line_unchanged :
  replace_placeholders [("model_name", PStr "llama3.2:1b")]%string
    "Initialize the Ollama LLM client with {{ model_name }}"
  = "Initialize the Ollama LLM client with {{ model_name }}"%string.
Proof. reflexivity. Qed.

(** text with single and double braces, as the style sheets and the Python
    files under [templates] have it, is literal text of a well-formed
    template *)
Example braces_in_literal_text :
  wf_template [Lit "Initialize the Ollama LLM client with {{ model_name }}"] = true
  /\ wf_template [Lit "print(f'Error: Parameter {param} is not in format key=value')"]
     = true
  /\ wf_template [Lit "body { color: "; Tok "primary_color"; Lit "; }"] = true
  /\ wf_template [Lit "{{{ a"] = false
  /\ wf_template [Lit "{{"; Tok "b"; Lit "{ a }}}"] = false.
Proof. split_and!; reflexivity. Qed.

Example py_str_ex :
  py_str (PInt (-12)) = "-12"%string /\ py_str (PInt 0) = "0"%string
  /\ py_str (PBool true) = "True"%string /\ py_str PNone = "None"%string.
Proof. split_and!; reflexivity. Qed.

(** a file of the target where a directory is needed: [mkdir] raises and
    nothing is written; a directory where a file is to be written: [open]
    raises *)
Example render_files_something_in_the_way :
  let f : gmap path node :=
    <[ ["BioBot"; "src"]%string := File "old" ]>
      (<[ ["BioBot"; "notes"]%string := Dir ]> {[ ["BioBot"%string] := Dir ]}) in
  copy_and_update_template_files
    [(["src"; "notes.txt"], Ok "no tokens here")]%string ["BioBot"%string] f []
  = ([LogInfo "Copying and updating template files"], f, Raise (OSError "File exists"))
  /\ copy_and_update_template_files
       [(["notes"], Ok "no tokens here")]%string ["BioBot"%string] f []
     = ([LogInfo "Copying and updating template files"], f,
        Raise (OSError "Is a directory")).
Proof. vm_compute. split; reflexivity. Qed.

(** why the literal text of a well-formed template has no three opening
    braces in a row and no opening brace at its end: an empty value can
    close such text up to the token of a key that was replaced before *)
Example braces_that_close_up_to_a_token :
  replace_placeholders [("a", PStr "x"); ("b", PStr "")]%string "{{{ a{{{ b }}} }}}"
  = "{{{ a }}}"%string
  /\ replace_placeholders [("a", PStr "x"); ("b", PStr "")]%string "{{{{{ b }}}{ a }}}"
     = "{{{ a }}}"%string.
Proof. split; reflexivity. Qed.

(** an accepted overwrite removes the old tree and makes the skeleton *)
Example create_directory_structure_accepted :
  let f : gmap path node :=
    <[ ["home"; "bot"]%string := Dir ]>
      (<[ ["home"; "bot"; "notes.txt"]%string := File "old" ]>
         (<[ ["home"]%string := Dir ]> ∅)) in
  let '(_, f', r) := create_directory_structure ["home"%string] "bot" "Y" f in
  r = Ok ["home"; "bot"]%string
  /\ f' !! ["home"; "bot"; "notes.txt"]%string = None
  /\ f' !! ["home"; "bot"; "src"; "static"; "css"]%string = Some Dir
  /\ size f' = 13.
Proof. vm_compute. split_and!; reflexivity. Qed.

(** theme "forest" with font "Technical" *)
Example generate_custom_css_forest_technical :
  match THEME_COLORS !! 1, FONT_STYLES !! 3 with
  | Some (theme_name, colors), Some font =>
      theme_name = "forest"%string /\ fs_name font = "Technical"%string
      /\ tc_primary colors = "#22C55E"%string
      /\ let css := (generate_custom_css "BioBot" colors font
                       "/src/static/css/style.css" None).2 in
         contains "--primary-color: #22C55E;" css = true
         /\ contains css_code css = true
  | _, _ => False
  end.
Proof. vm_compute. split_and!; reflexivity. Qed.

(** * Further properties *)

(** ** The renderer on well-formed templates *)

Lemma subst_template_parallel (config : list (string * pyval))
    (segs : list segment) :
  subst_template config segs = map (render_segment config) segs.
Proof.
  revert segs; induction config as [|[key value] rest IH]; intros segs.
  - simpl. induction segs as [|[text|key] segs IHs]; simpl; by f_equal.
  - unfold subst_template. cbn [fold_left fst snd].
    fold (subst_template rest (map (subst_segment key (py_str value)) segs)).
    rewrite IH, map_map. apply map_ext. intros [text|key']; [done |].
    cbn [subst_segment render_segment config_value].
    by destruct (String.eqb key key').
Qed.

Lemma replace_placeholders_parallel (config : list (string * pyval))
    (segs : list segment) :
  wf_config config = true -> wf_template segs = true ->
  replace_placeholders config (flatten segs)
  = flatten (map (render_segment config) segs).
Proof.
  intros Hc Hs.
  destruct (replace_placeholders_template config segs Hc Hs) as [-> _].
  by rewrite subst_template_parallel.
Qed.

(** X1.  On a well-formed template with a well-formed configuration, the
    key-by-key replacement gives what replacing all tokens at once gives:
    every token of a configured key becomes the text of the first entry
    for that key, every other token and all literal text stay. *)
Theorem X1_render_is_simultaneous_substitution
    (config : list (string * pyval)) (segs : list segment) :
  wf_config config = true -> wf_template segs = true ->
  replace_placeholders config (flatten segs)
  = flatten (map (render_segment config) segs).
Proof. apply replace_placeholders_parallel. Qed.

Lemma X1_render_witness :
  replace_placeholders
    [("chatbot_name", PStr "BioBot"); ("model_name", PStr "llama3.2:1b")]%string
    "# {{{ chatbot_name }}} on {{{ model_name }}} by {{{ author }}}"
  = "# BioBot on llama3.2:1b by {{{ author }}}"%string.
Proof.
  apply (X1_render_is_simultaneous_substitution
           [("chatbot_name", PStr "BioBot"); ("model_name", PStr "llama3.2:1b")]%string
           [Lit "# "; Tok "chatbot_name"; Lit " on "; Tok "model_name";
            Lit " by "; Tok "author"]%string); reflexivity.
Defined.

Lemma config_value_permutation (config config' : list (string * pyval))
    (key : string) :
  config ≡ₚ config' -> NoDup config.*1 ->
  config_value config key = config_value config' key.
Proof.
  induction 1 as [|[k v] l l' Hp IH|[k1 v1] [k2 v2] l|l1 l2 l3 H1 IH1 H2 IH2];
    intros Hnd.
  - done.
  - cbn [config_value]. rewrite fmap_cons in Hnd. apply NoDup_cons in Hnd as [_ Hnd].
    by rewrite IH.
  - cbn [config_value]. rewrite !fmap_cons in Hnd.
    apply NoDup_cons in Hnd as [Hne _]. rewrite not_elem_of_cons in Hne.
    destruct Hne as [Hne _]. cbn in Hne.
    destruct (String.eqb_spec k1 key) as [->|]; [| done].
    destruct (String.eqb_spec k2 key) as [->|]; [done | done].
  - rewrite IH1 by done. apply IH2. by rewrite <- H1.
Qed.

Lemma wf_config_permutation (config config' : list (string * pyval)) :
  config ≡ₚ config' -> wf_config config = true -> wf_config config' = true.
Proof.
  intros Hp. unfold wf_config. rewrite !forallb_forall.
  intros H kv Hin. apply H. apply list_elem_of_In. rewrite Hp.
  by apply list_elem_of_In.
Qed.

(** X2.  On a well-formed template, a well-formed configuration with
    distinct keys renders the same text in whatever order its keys are
    taken. *)
Theorem X2_render_order_irrelevant_when_well_formed
    (config config' : list (string * pyval)) (segs : list segment) :
  config ≡ₚ config' -> NoDup config.*1 ->
  wf_config config = true -> wf_template segs = true ->
  replace_placeholders config (flatten segs)
  = replace_placeholders config' (flatten segs).
Proof.
  intros Hp Hnd Hc Hs.
  rewrite !replace_placeholders_parallel by eauto using wf_config_permutation.
  f_equal. apply map_ext. intros [text|key]; [done |].
  cbn [render_segment]. by rewrite (config_value_permutation _ _ _ Hp Hnd).
Qed.

Lemma X2_render_order_witness :
  replace_placeholders
    [("model_name", PStr "llama3.2:1b"); ("chatbot_name", PStr "BioBot")]%string
    "{{{ chatbot_name }}} on {{{ model_name }}}"
  = replace_placeholders
      [("chatbot_name", PStr "BioBot"); ("model_name", PStr "llama3.2:1b")]%string
      "{{{ chatbot_name }}} on {{{ model_name }}}".
Proof.
  apply (X2_render_order_irrelevant_when_well_formed
           [("model_name", PStr "llama3.2:1b"); ("chatbot_name", PStr "BioBot")]%string
           [("chatbot_name", PStr "BioBot"); ("model_name", PStr "llama3.2:1b")]%string
           [Tok "chatbot_name"; Lit " on "; Tok "model_name"]%string).
  - apply perm_swap.
  - cbn. by apply (bool_decide_eq_true_1 (NoDup _)).
  - reflexivity.
  - reflexivity.
Defined.

(** X3.  Rendering is idempotent on well-formed input: a second pass over
    the rendered text changes nothing. *)
Theorem X3_render_twice_is_render_once
    (config : list (string * pyval)) (segs : list segment) :
  wf_config config = true -> wf_template segs = true ->
  replace_placeholders config (replace_placeholders config (flatten segs))
  = replace_placeholders config (flatten segs).
Proof.
  intros Hc Hs. apply replace_placeholders_absent.
  apply forallb_forall. intros [key value] Hin%list_elem_of_In.
  cbn [fst]. apply negb_true_iff.
  by eapply rendered_template_has_no_token.
Qed.

Lemma X3_render_twice_witness :
  let config := [("chatbot_name", PStr "BioBot")]%string in
  replace_placeholders config
    (replace_placeholders config "Hi, {{{ chatbot_name }}} and {{{ other }}}")
  = replace_placeholders config "Hi, {{{ chatbot_name }}} and {{{ other }}}".
Proof.
  intros config.
  apply (X3_render_twice_is_render_once config
           [Lit "Hi, "; Tok "chatbot_name"; Lit " and "; Tok "other"]%string);
    reflexivity.
Defined.

(** X4.  A text in which no token of a configured key occurs is written
    as it is, whatever else it holds. *)
Theorem X4_text_without_tokens_is_unchanged
    (config : list (string * pyval)) (content : string) :
  (forall key value, (key, value) ∈ config ->
     contains (placeholder key) content = false) ->
  replace_placeholders config content = content.
Proof.
  intros H. apply replace_placeholders_absent.
  apply forallb_forall. intros [key value] Hin%list_elem_of_In.
  cbn [fst]. apply negb_true_iff. by eapply H.
Qed.

Lemma X4_text_without_tokens_witness :
  replace_placeholders [("model_name", PStr "llama3.2:1b")]%string
    "def f(x): return {{ model_name }} or {x}"
  = "def f(x): return {{ model_name }} or {x}"%string.
Proof.
  apply X4_text_without_tokens_is_unchanged.
  intros key value [[= -> ->]|Hin%elem_of_nil]%elem_of_cons; [reflexivity | done].
Defined.

(** ** The prompt paths of [get_system_prompt] *)

(** X5.  The built-in prompt with the description filled in is the text
    before the token, the description as it is, and the text after the
    token: the description goes in once and is not looked into, whatever
    it holds. *)
Theorem X5_default_prompt_holds_the_description_verbatim
    (chatbot_description : string) :
  default_prompt chatbot_description
  = "You are a helpful assistant specialized in " +:+ chatbot_description +:+ ". 
You provide accurate, concise information based on your knowledge and the documents in your knowledge base.
If you don't know something or if the information isn't in your knowledge base, admit it clearly.
Always maintain a helpful and professional tone.".
Proof.
  unfold default_prompt.
  change DEFAULT_SYSTEM_PROMPT
    with ("You are a helpful assistant specialized in "
          +:+ "{{chatbot_description}}" +:+ ". 
You provide accurate, concise information based on your knowledge and the documents in your knowledge base.
If you don't know something or if the information isn't in your knowledge base, admit it clearly.
Always maintain a helpful and professional tone.").
  rewrite replace_skips by reflexivity.
  rewrite replace_match by done.
  by rewrite replace_absent by reflexivity.
Qed.

(** X6.  The fall-backs of [get_system_prompt]: when reading the hand-off
    file raises, the error is logged and printed and the built-in prompt
    is used; when the text holds the sentinel but lacks one of the two
    heading markers, the built-in prompt is used without any message.  In
    both cases the description is filled in. *)
Theorem X6_prompt_fallbacks (chatbot_description : string) :
  (forall e, is_Exception e = true ->
     get_system_prompt chatbot_description true (Raise e)
     = (system_prompt_banner chatbot_description
        ++ [ LogError "Error reading system prompt file: " e;
             PrintExn "Error reading the system prompt file: " e;
             Print "Using default system prompt instead." ],
        Ok (default_prompt chatbot_description)))
  /\ (forall text,
        contains "Delete everything above this line" text = true ->
        contains "## Default Prompt" text = false
        \/ contains "## Tips" text = false ->
        get_system_prompt chatbot_description true (Ok text)
        = (system_prompt_banner chatbot_description,
           Ok (default_prompt chatbot_description))).
Proof.
  split.
  - intros e He. unfold get_system_prompt, read_system_prompt, try_except.
    cbn [negb mbind result_bind]. by rewrite He.
  - intros text Hsent Hmarker.
    unfold get_system_prompt, read_system_prompt. cbn [negb mbind result_bind].
    rewrite (sentinel_survives_strip _ Hsent).
    assert (contains "## Default Prompt" (strip text)
            && contains "## Tips" (strip text) = false) as ->.
    { apply andb_false_iff.
      destruct Hmarker as [H|H]; [left | right];
        (destruct (contains _ (strip text)) eqn:E; [| done]);
        apply contains_strip in E; congruence. }
    cbn -[system_prompt_banner default_prompt]. by rewrite List.app_nil_r.
Qed.

Lemma X6_prompt_fallbacks_witness :
  get_system_prompt "birds" true (Raise (OSError "Permission denied"))
  = (system_prompt_banner "birds"
     ++ [ LogError "Error reading system prompt file: " (OSError "Permission denied");
          PrintExn "Error reading the system prompt file: " (OSError "Permission denied");
          Print "Using default system prompt instead." ],
     Ok (default_prompt "birds"))
  /\ get_system_prompt "birds" true
       (Ok "Delete everything above this line
## Default Prompt
You know {{chatbot_description}}.")
     = (system_prompt_banner "birds", Ok (default_prompt "birds")).
Proof.
  destruct (X6_prompt_fallbacks "birds") as [Hraise Hmarker]. split.
  - by apply Hraise.
  - apply Hmarker; [reflexivity | by right].
Defined.

Lemma split_from_two (sep s : string) :
  sep <> EmptyString -> contains sep s = true ->
  exists a b more, split_from sep 0 s = a :: b :: more.
Proof.
  intros Hsep. induction s as [|c s IH]; intros H.
  - destruct sep; [done | discriminate H].
  - destruct (startswith sep (String c s)) eqn:E.
    + apply startswith_iff in E as [r ->]. rewrite split_match by done.
      destruct (split_from_cons sep 0 r) as (b & more & ->). by eauto.
    + rewrite contains_nomatch in H by done.
      destruct (IH H) as (a & b & more & Hs).
      cbn [split_from]. rewrite E, Hs. by eauto.
Qed.

(** X7.  Whatever text the hand-off file holds, [get_system_prompt]
    returns a prompt without entering its error handler: the two marker
    tests make the indexing of the split texts safe. *)
Theorem X7_readable_prompt_file_never_fails (chatbot_description text : string) :
  exists prompt,
    get_system_prompt chatbot_description true (Ok text)
    = (system_prompt_banner chatbot_description, Ok prompt).
Proof.
  unfold get_system_prompt.
  assert (exists prompt, read_system_prompt chatbot_description (Ok text) = Ok prompt)
    as [prompt ->].
  { unfold read_system_prompt. cbn [mbind result_bind].
    destruct (contains "Delete everything above this line" (strip text));
      [| by eauto].
    destruct (contains "## Default Prompt" (strip text)) eqn:Hdp; [| by eauto].
    destruct (contains "## Tips" (strip text)) eqn:Htips; [| by eauto].
    cbn [andb]. unfold py_split, split.
    destruct (split_from_two "## Default Prompt" (strip text))
      as (a & b & more & ->); [done | done |].
    cbn [item lookup list_lookup mbind result_bind].
    destruct (split_from_cons "## Tips" 0 b) as (first & rest & ->).
    cbn [item lookup list_lookup mbind result_bind]. by eauto. }
  exists prompt. cbn -[system_prompt_banner]. by rewrite List.app_nil_r.
Qed.

(** ** The fenced block of the parameter file *)

Lemma skips_not_first (P' r x : string) (a : ascii) :
  all_chars (fun c => negb (Ascii.eqb a c)) x = true ->
  skips (String a P') r x = true.
Proof.
  induction x as [|c x IH]; [done |].
  cbn [all_chars skips String.append startswith].
  intros [Hc%negb_true_iff Hx]%andb_true_iff.
  rewrite Hc. by rewrite IH.
Qed.

Lemma skips_after_overlap_check (P r x : string) :
  (forall n, 0 < n -> n < String.length P -> startswith (drop n P) r = false) ->
  contains P x = false -> skips P r x = true.
Proof.
  intros Hover. induction x as [|c x IH]; [done |].
  intros [H1 H2]%contains_false_cons. cbn [skips].
  rewrite IH by done. rewrite andb_true_r. apply negb_true_iff.
  destruct (decide (String.length P <= String.length (String c x))) as [Hle|Hgt].
  - by rewrite startswith_app_fits.
  - destruct (startswith P (String c x +:+ r)) eqn:E; [| done].
    apply startswith_overlap in E; [| lia].
    rewrite Hover in E; [done | simpl; lia | lia].
Qed.

Lemma space_is_no_backtick (ws : string) :
  all_chars isspace ws = true ->
  all_chars (fun c => negb (Ascii.eqb "`" c)) ws = true.
Proof.
  induction ws as [|c ws IH]; [done |]. cbn [all_chars].
  intros [Hc Hws]%andb_true_iff. rewrite IH by done. rewrite andb_true_r.
  apply negb_true_iff, Ascii.eqb_neq. by intros <-.
Qed.

Lemma lstrip_spaces (ws : string) (c : ascii) (y : string) :
  all_chars isspace ws = true -> isspace c = false ->
  lstrip (ws +:+ String c y) = String c y.
Proof.
  intros Hws Hc. induction ws as [|x ws IH]; simpl.
  - by rewrite Hc.
  - cbn [all_chars] in Hws. apply andb_true_iff in Hws as [-> Hws]. by apply IH.
Qed.

Lemma rstrip_spaces (ws : string) :
  all_chars isspace ws = true -> rstrip ws = ""%string.
Proof.
  induction ws as [|x ws IH]; [done |]. cbn [all_chars rstrip].
  intros [-> Hws]%andb_true_iff. by rewrite IH.
Qed.

(** X8.  A text with visible ends and no fence in it, put in a fenced json
    block, is what [search_json_block] gives back: the white space after
    the opening fence and before the closing one is dropped, and what
    stands before the block (without an opening fence of its own) or after
    it does not matter. *)
Theorem X8_fenced_block_is_extracted
    (pre ws1 block ws2 post block_tail block_init : string) (c z : ascii) :
  contains "```json" pre = false ->
  all_chars isspace ws1 = true ->
  all_chars isspace ws2 = true -> ws2 <> ""%string ->
  block = String c block_tail -> block = block_init +:+ String z "" ->
  isspace c = false -> isspace z = false ->
  contains "```" block = false ->
  search_json_block (pre +:+ "```json" +:+ ws1 +:+ block +:+ ws2 +:+ "```" +:+ post)
  = Some block.
Proof.
  intros Hpre Hws1 Hws2 Hne Hc Hz Hvc Hvz Hblock.
  unfold search_json_block.
  (* the opening fence *)
  rewrite find_of_skips.
  2:{ apply skips_after_overlap_check; [| done].
      intros n Hpos Hn. do 7 (destruct n as [|n]; [try reflexivity; lia |]).
      simpl in Hn. lia. }
  replace (String.length pre + 7)
    with (String.length (pre +:+ "```json")) by (by rewrite str_length_app).
  rewrite <- (str_app_assoc pre), str_drop_app_length.
  (* the white space after it *)
  rewrite Hc. change (String c block_tail +:+ ?y) with (String c (block_tail +:+ y)).
  rewrite lstrip_spaces by done.
  change (String c (block_tail +:+ ?y)) with (String c block_tail +:+ y).
  rewrite <- Hc.
  (* the closing fence *)
  rewrite <- (str_app_assoc block).
  rewrite find_of_skips.
  2:{ rewrite skips_app. apply andb_true_iff. split.
      - apply skips_after_overlap_check; [| done].
        intros n Hpos Hn. destruct ws2 as [|w ws2]; [done |].
        cbn [all_chars] in Hws2. apply andb_true_iff in Hws2 as [Hw _].
        assert (w <> "`"%char) as Hw' by (by intros ->).
        apply Ascii.eqb_neq in Hw'. rewrite Ascii.eqb_sym in Hw'.
        do 3 (destruct n as [|n];
              [try lia; cbn [drop String.append startswith]; by rewrite Hw' |]).
        simpl in Hn. lia.
      - by apply skips_not_first, space_is_no_backtick. }
  rewrite str_take_app_length.
  (* the white space before it *)
  rewrite Hz, str_app_assoc. cbn [String.append].
  rewrite rstrip_app_visible by done.
  by rewrite rstrip_spaces.
Qed.

Lemma X8_fenced_block_witness :
  search_json_block "# LLM parameters
Edit the values below.
```json
{'temperature': 0.2}
```
Higher temperature, more surprise."
  = Some "{'temperature': 0.2}"%string.
Proof.
  apply (X8_fenced_block_is_extracted
           "# LLM parameters
Edit the values below.
" "
" "{'temperature': 0.2}" "
" "
Higher temperature, more surprise." "'temperature': 0.2}" "{'temperature': 0.2" "{" "}");
    done.
Defined.

Lemma startswith_take (P s : string) (n : nat) :
  startswith P (take n s) = true -> startswith P s = true.
Proof.
  revert s n; induction P as [|a P IH]; intros s n H; [done |].
  destruct s as [|c s]; destruct n as [|n]; simpl in *; try done.
  destruct (Ascii.eqb a c); [| done]. by eapply IH.
Qed.

(** nothing before the leftmost occurrence holds an occurrence *)
Lemma contains_take_find (P s : string) (j : nat) :
  P <> EmptyString -> find P s = Some j -> contains P (take j s) = false.
Proof.
  intros HP. revert j; induction s as [|c s IH]; intros j H.
  - destruct j; by destruct P.
  - destruct (startswith P (String c s)) eqn:E.
    + rewrite find_match in H by done. injection H as <-. by destruct P.
    + rewrite find_nomatch in H by done.
      destruct (find P s) as [j'|] eqn:Hf; [| done].
      injection H as <-. cbn [take].
      rewrite contains_nomatch; [by apply IH |].
      destruct (startswith P (String c (take j' s))) eqn:E'; [| done].
      apply (startswith_take P (String c s) (S j')) in E'. congruence.
Qed.

Lemma lstrip_head_visible (s : string) (c : ascii) (y : string) :
  lstrip s = String c y -> isspace c = false.
Proof.
  induction s as [|x s IH]; [done |]. simpl.
  destruct (isspace x) eqn:E; [done |]. by intros [= <- _].
Qed.

Lemma rstrip_cons (c : ascii) (s : string) :
  rstrip (String c s)
  = match rstrip s with
    | EmptyString => if isspace c then EmptyString else String c EmptyString
    | String _ _ as r => String c r
    end.
Proof. reflexivity. Qed.

Lemma rstrip_idem (s : string) : rstrip (rstrip s) = rstrip s.
Proof.
  induction s as [|c s IH]; [done |]. rewrite rstrip_cons.
  destruct (rstrip s) as [|a r] eqn:E.
  - destruct (isspace c) eqn:Ec; [done |]. rewrite rstrip_cons. simpl. by rewrite Ec.
  - rewrite rstrip_cons, IH. done.
Qed.

Lemma rstrip_head (s : string) (c : ascii) (y : string) :
  rstrip s = String c y -> exists y', s = String c y'.
Proof.
  destruct s as [|x s]; [done |]. cbn [rstrip].
  destruct (rstrip s); [destruct (isspace x) |]; intros [= <- _]; by eauto.
Qed.

Lemma take_head (s : string) (n : nat) (c : ascii) (y : string) :
  take n s = String c y -> exists y', s = String c y'.
Proof. destruct n, s; simpl; try done. intros [= <- _]. by eauto. Qed.

(** X9.  What [search_json_block] extracts has no white space at either
    end and no fence in it. *)
Theorem X9_extracted_block_is_trimmed_and_fence_free (content block : string) :
  search_json_block content = Some block ->
  strip block = block /\ contains "```" block = false.
Proof.
  unfold search_json_block.
  destruct (find "```json" content) as [i|]; [| done].
  set (t := lstrip (drop (i + 7) content)).
  destruct (find "```" t) as [j|] eqn:Hj; [| done].
  intros [= <-]. split.
  - unfold strip.
    assert (lstrip (rstrip (take j t)) = rstrip (take j t)) as ->.
    { destruct (rstrip (take j t)) as [|c y] eqn:E; [done |].
      apply rstrip_head in E as [y1 E]. apply take_head in E as [y2 E].
      apply lstrip_head_visible in E. simpl. by rewrite E. }
    apply rstrip_idem.
  - destruct (contains "```" (rstrip (take j t))) eqn:E; [| done].
    destruct (rstrip_prefix (take j t)) as [r Hr].
    apply (contains_app _ "" _ r) in E. cbn [String.append] in E.
    rewrite <- Hr in E. by rewrite contains_take_find in E.
Qed.

Lemma X9_extracted_block_witness :
  strip "{}" = "{}"%string /\ contains "```" "{}" = false.
Proof.
  apply (X9_extracted_block_is_trimmed_and_fence_free "see ```json   {}  ``` here").
  reflexivity.
Defined.

(** ** The value [get_llm_parameters] returns *)

(** on anything but a dictionary the filling either has nothing to do or
    stops with [TypeError] *)
Lemma fill_defaults_not_dict (defaults : list (string * json)) (v : json) :
  (forall m, v <> JObj m) ->
  fill_defaults defaults v = Ok v \/ fill_defaults defaults v = Raise TypeError.
Proof.
  intros Hv. induction defaults as [|[key default_value] rest IH]; [by left |].
  cbn [fill_defaults].
  destruct v as [| | | | s | l | m]; cbn [py_in mbind result_bind];
    try (by right); try (by destruct (Hv m)).
  - destruct (contains key s); cbn [py_setitem mbind result_bind]; [done | by right].
  - destruct (existsb _ l); cbn [py_setitem mbind result_bind]; [done | by right].
Qed.

(** X10.  Whenever [get_llm_parameters] returns a dictionary, the
    dictionary binds every default parameter key, whatever the file, the
    parser and the outcome of reading were. *)
Theorem X10_returned_dictionary_has_every_default_key
    (json_loads : string -> result json) (template_exists : bool)
    (edited : result string) (evs : list event) (m : gmap string json) :
  get_llm_parameters json_loads template_exists edited = (evs, Ok (JObj m)) ->
  dom DEFAULT_LLM_PARAMS_dict ⊆ dom m.
Proof.
  unfold get_llm_parameters. destruct template_exists; cbn [negb].
  2:{ by intros [= _ <-]. }
  unfold try_except.
  destruct (read_llm_parameters json_loads edited) as [v|e] eqn:Hread.
  - intros [= _ ->]. unfold read_llm_parameters in Hread.
    destruct edited as [content|e]; [| done]. cbn [mbind result_bind] in Hread.
    destruct (match search_json_block content with
              | Some json_str => json_loads json_str
              | None => json_loads content
              end) as [v|e]; [| done].
    cbn [mbind result_bind] in Hread.
    destruct v as [| | | | s | l | m0].
    7:{ rewrite fill_defaults_dict in Hread. injection Hread as <-.
        rewrite dom_union_L. apply union_subseteq_r. }
    all: match type of Hread with fill_defaults _ ?v = _ =>
           destruct (fill_defaults_not_dict DEFAULT_LLM_PARAMS v) as [H|H];
             [done | congruence | congruence] end.
  - destruct (is_Exception e); [| done]. by intros [= _ <-].
Qed.

Lemma X10_returned_dictionary_witness :
  dom DEFAULT_LLM_PARAMS_dict
  ⊆ dom ({["seed"%string := JInt 7]} ∪ DEFAULT_LLM_PARAMS_dict).
Proof.
  apply (X10_returned_dictionary_has_every_default_key
           (fun _ => Ok (JObj {["seed"%string := JInt 7]})) true (Ok "{'seed': 7}")
           llm_parameters_banner).
  vm_compute. reflexivity.
Defined.

Lemma fill_defaults_listed (defaults : list (string * json)) (l : list json) :
  (forall key, key ∈ defaults.*1 -> JStr key ∈ l) ->
  fill_defaults defaults (JArr l) = Ok (JArr l).
Proof.
  induction defaults as [|[key default_value] rest IH]; intros Hall; [done |].
  cbn [fill_defaults py_in mbind result_bind].
  assert (existsb (fun x => match x with
                            | JStr s => String.eqb s key
                            | _ => false
                            end) l = true) as ->.
  { apply existsb_exists. exists (JStr key).
    split; [| apply String.eqb_refl].
    apply list_elem_of_In, Hall. rewrite fmap_cons. by left. }
  cbn [mbind result_bind]. apply IH.
  intros key' Hin. apply Hall. rewrite fmap_cons. by right.
Qed.

(** X11.  A parsed value that is a number, a boolean or [null] is
    reported as a [TypeError] and replaced by the defaults.  A parsed
    array, however, that lists all six default key names as strings passes
    the key tests untouched and is itself returned as the parameters. *)
Theorem X11_parsed_non_dictionary
    (json_loads : string -> result json) (text : string) (v : json) :
  match search_json_block text with
  | Some json_str => json_loads json_str
  | None => json_loads text
  end = Ok v ->
  (match v with JNull | JBool _ | JInt _ | JFloat _ _ => True | _ => False end ->
   get_llm_parameters json_loads true (Ok text)
   = (llm_parameters_banner
      ++ [ LogError "Error reading LLM parameters file: " TypeError;
           PrintExn "Error reading the LLM parameters file: " TypeError;
           Print "Using default LLM parameters instead." ],
      Ok (JObj DEFAULT_LLM_PARAMS_dict)))
  /\ (forall l, v = JArr l ->
        (forall key, key ∈ DEFAULT_LLM_PARAMS.*1 -> JStr key ∈ l) ->
        get_llm_parameters json_loads true (Ok text)
        = (llm_parameters_banner, Ok (JArr l))).
Proof.
  intros Hparsed.
  unfold get_llm_parameters, read_llm_parameters. cbn [negb mbind result_bind].
  rewrite Hparsed. cbn [mbind result_bind]. split.
  - by destruct v.
  - intros l -> Hall. rewrite fill_defaults_listed by done.
    cbn -[llm_parameters_banner]. by rewrite List.app_nil_r.
Qed.

Lemma X11_parsed_non_dictionary_witness :
  get_llm_parameters (fun _ => Ok (JInt 7)) true (Ok "7")
  = (llm_parameters_banner
     ++ [ LogError "Error reading LLM parameters file: " TypeError;
          PrintExn "Error reading the LLM parameters file: " TypeError;
          Print "Using default LLM parameters instead." ],
     Ok (JObj DEFAULT_LLM_PARAMS_dict))
  /\ get_llm_parameters (fun _ => Ok (JArr (JStr <$> DEFAULT_LLM_PARAMS.*1))) true
       (Ok "[]")
     = (llm_parameters_banner, Ok (JArr (JStr <$> DEFAULT_LLM_PARAMS.*1))).
Proof.
  split.
  - destruct (X11_parsed_non_dictionary (fun _ => Ok (JInt 7)) "7" (JInt 7) eq_refl)
      as [Hscalar _].
    by apply Hscalar.
  - destruct (X11_parsed_non_dictionary
                (fun _ => Ok (JArr (JStr <$> DEFAULT_LLM_PARAMS.*1))) "[]"
                (JArr (JStr <$> DEFAULT_LLM_PARAMS.*1)) eq_refl) as [_ Harray].
    apply Harray; [reflexivity |].
    intros key Hin. by apply list_elem_of_fmap_2.
Defined.

(** ** What [create_directory_structure] does to the file system *)

Lemma prefix_snoc_cases (q l : path) (x : string) :
  q `prefix_of` l ++ [x] -> q = l ++ [x] \/ q `prefix_of` l.
Proof.
  intros [k Hk]. destruct k as [|y k _] using rev_ind.
  - left. by rewrite app_nil_r in Hk.
  - right. rewrite app_assoc in Hk. apply app_inj_tail in Hk as [-> _]. by exists k.
Qed.

(** a path on the way to something in the target that is not in the target
    lies on the way to the target's parent *)
Lemma outside_on_the_way (base q d : path) (name : string) :
  ~ (base ++ [name]) `prefix_of` q ->
  q `prefix_of` (base ++ [name]) ++ d -> q `prefix_of` base.
Proof.
  intros Hout Hq.
  destruct (prefix_weak_total q (base ++ [name]) ((base ++ [name]) ++ d))
    as [H|H]; [done | by apply prefix_app_r | | done].
  apply prefix_snoc_cases in H as [->|H]; [| done].
  by destruct Hout.
Qed.

(** X12.  For a name that [validate_chatbot_name] accepts, whatever the
    answer and the outcome, [create_directory_structure] neither removes
    nor changes anything outside the target directory; the only entries it
    can add there are missing directories on the way to the target. *)
Theorem X12_outside_the_target_nothing_is_lost
    (base_path : path) (chatbot_name response : string)
    (f f' : gmap path node) (evs : list event) (r : result path) :
  validate_chatbot_name chatbot_name = true ->
  create_directory_structure base_path chatbot_name response f = (evs, f', r) ->
  forall q, ~ (base_path ++ [chatbot_name]) `prefix_of` q ->
    f' !! q = f !! q
    \/ (f !! q = None /\ f' !! q = Some Dir /\ q `prefix_of` base_path).
Proof.
  intros _ Hrun q Hout.
  assert (forall f1 evs1, (forall q, ~ (base_path ++ [chatbot_name]) `prefix_of` q ->
                             f1 !! q = f !! q) ->
            (let '(f2, r2) := make_directories (base_path ++ [chatbot_name]) directories f1 in
             (evs1, f2, r2 ≫= fun _ => Ok (base_path ++ [chatbot_name])))
            = (evs, f', r) ->
            f' !! q = f !! q
            \/ (f !! q = None /\ f' !! q = Some Dir /\ q `prefix_of` base_path))
    as Hcreate.
  { intros f1 evs1 Hf1 H.
    destruct (make_directories _ directories f1) as [f2 r2] eqn:Hmk.
    injection H as _ <- _.
    destruct (make_directories_grows _ _ _ _ _ Hmk q) as [E|(E1 & E2 & _ & d & _ & Hq)].
    - left. exact (eq_trans E (Hf1 q Hout)).
    - right. split_and!; [exact (eq_trans (eq_sym (Hf1 q Hout)) E1) | done |].
      by eapply outside_on_the_way. }
  unfold create_directory_structure in Hrun.
  destruct (fs_exists f (base_path ++ [chatbot_name])).
  - destruct (negb (String.eqb (lower response) "y")).
    + injection Hrun as _ <- _. by left.
    + destruct (rmtree (base_path ++ [chatbot_name]) f) as [f1|e] eqn:Hrm.
      * eapply (Hcreate f1); [| exact Hrun].
        intros q' Hq'. refine (eq_trans (rmtree_lookup _ _ _ q' Hrm) _). by case_decide.
      * injection Hrun as _ <- _. by left.
  - by eapply (Hcreate f).
Qed.

Lemma X12_outside_the_target_witness :
  let f : gmap path node :=
    <[ ["home"; "bot"]%string := Dir ]>
      (<[ ["home"; "bot"; "notes.txt"]%string := File "old" ]>
         (<[ ["home"; "diary.txt"]%string := File "dear diary" ]>
            (<[ ["home"]%string := Dir ]> ∅))) in
  (create_directory_structure ["home"%string] "bot" "y" f).1.2
    !! ["home"; "diary.txt"]%string
  = Some (File "dear diary").
Proof.
  intros f.
  destruct (create_directory_structure ["home"%string] "bot" "y" f)
    as [[evs f'] r] eqn:Hrun.
  destruct (X12_outside_the_target_nothing_is_lost ["home"%string] "bot" "y" f f' evs r
              eq_refl Hrun
              ["home"; "diary.txt"]%string) as [E|(E & _)].
  - intros [k Hk]. discriminate Hk.
  - exact E.
  - discriminate E.
Defined.

(** X13.  For a name that [validate_chatbot_name] accepts: when the target
    is free (nothing at or below it) or the overwrite of an existing target
    directory is accepted, and no file stands on the way to the target's
    parent, [create_directory_structure] returns the target; afterwards all
    ten directories of the skeleton exist, and at or below the target there
    is nothing but directories of the skeleton: no entry of an overwritten
    tree is left. *)
Theorem X13_skeleton_is_created
    (base_path : path) (chatbot_name response : string) (f : gmap path node) :
  validate_chatbot_name chatbot_name = true ->
  (forall q, (base_path ++ [chatbot_name]) `prefix_of` q -> f !! q = None)
  \/ (f !! (base_path ++ [chatbot_name]) = Some Dir
      /\ lower response = "y"%string) ->
  (forall q content, q `prefix_of` base_path -> f !! q <> Some (File content)) ->
  exists evs f',
    create_directory_structure base_path chatbot_name response f
    = (evs, f', Ok (base_path ++ [chatbot_name]))
    /\ (forall d, d ∈ directories ->
          f' !! ((base_path ++ [chatbot_name]) ++ d) = Some Dir)
    /\ (forall q, (base_path ++ [chatbot_name]) `prefix_of` q ->
          f' !! q = None
          \/ (f' !! q = Some Dir
              /\ exists d, d ∈ directories
                           /\ q `prefix_of` (base_path ++ [chatbot_name]) ++ d)).
Proof.
  intros _ Hcase Hway.
  set (target := base_path ++ [chatbot_name]).
  assert (forall (f1 : gmap path node) (evs1 : list event),
            (forall q, f1 !! q = if decide (target `prefix_of` q) then None else f !! q) ->
            exists f' : gmap path node,
              (let '(f2, r2) := make_directories target directories f1 in
               (evs1, f2, r2 ≫= fun _ => Ok target))
              = ((evs1, f', Ok target) : list event * gmap path node * result path)
              /\ (forall d, d ∈ directories -> f' !! (target ++ d) = Some Dir)
              /\ (forall q, target `prefix_of` q ->
                    f' !! q = None
                    \/ (f' !! q = Some Dir
                        /\ exists d, d ∈ directories /\ q `prefix_of` target ++ d)))
    as Hcreate.
  { intros f1 evs1 Hf1.
    destruct (make_directories_ok target directories f1) as (f' & Hmk & Hdirs).
    { intros d q content Hd Hq. rewrite Hf1. case_decide as Hin; [done |].
      apply Hway. by eapply outside_on_the_way. }
    exists f'. rewrite Hmk. split_and!; [done | |].
    - intros d Hd. apply Hdirs; [done |]. unfold target.
      intros E. apply (f_equal length) in E. rewrite !length_app in E. simpl in E. lia.
    - intros q Hq.
      destruct (make_directories_grows _ _ _ _ _ Hmk q) as [E|(_ & E2 & _ & d & Hd & Hqd)].
      + left. refine (eq_trans E _). rewrite Hf1. by case_decide.
      + right. by eauto. }
  unfold create_directory_structure. fold target.
  destruct Hcase as [Hfree|[Hdir Hyes]].
  - assert (fs_exists f target = false) as ->.
    { unfold fs_exists. apply bool_decide_eq_false.
      assert (f !! target = None) as E by (by apply Hfree).
      intros [x Hx]. pose proof (eq_trans (eq_sym E) Hx). done. }
    destruct (Hcreate f [LogInfo ("Creating directory structure for " +:+ chatbot_name)])
      as (f' & Hrun & H1 & H2).
    { intros q. case_decide; [by apply Hfree | done]. }
    by eauto.
  - assert (fs_exists f target = true) as ->.
    { unfold fs_exists. apply bool_decide_eq_true. exists Dir. exact Hdir. }
    rewrite Hyes. cbn [String.eqb negb].
    destruct (rmtree_ok target f Hdir) as [f1 Hrm]. rewrite Hrm.
    edestruct (Hcreate f1) as (f' & Hrun & H1 & H2).
    { intros q. by apply rmtree_lookup. }
    rewrite Hrun. by eauto.
Qed.

Lemma X13_skeleton_witness :
  let f : gmap path node :=
    <[ ["home"; "bot"]%string := Dir ]>
      (<[ ["home"; "bot"; "notes.txt"]%string := File "old" ]>
         (<[ ["home"]%string := Dir ]> ∅)) in
  exists evs f',
    create_directory_structure ["home"%string] "bot" "Y" f
    = (evs, f', Ok ["home"; "bot"]%string)
    /\ f' !! ["home"; "bot"; "src"; "static"; "css"]%string = Some Dir
    /\ f' !! ["home"; "bot"; "notes.txt"]%string = None.
Proof.
  intros f.
  destruct (X13_skeleton_is_created ["home"%string] "bot" "Y" f)
    as (evs & f' & Hrun & Hdirs & Honly).
  - reflexivity.
  - right. split; reflexivity.
  - intros q content [k Hk].
    destruct q as [|x [|y q]]; [done | | done].
    injection Hk as <- _. discriminate.
  - exists evs, f'. split_and!; [done | |].
    + apply (Hdirs ["src"; "static"; "css"]%string). unfold directories.
      right. right. by left.
    + destruct (Honly ["home"; "bot"; "notes.txt"]%string) as [E|[_ (d & Hd & [k Hk])]];
        [by exists ["notes.txt"%string] | done |].
      exfalso. unfold directories in Hd.
      repeat (apply elem_of_cons in Hd as [->|Hd]; [discriminate Hk |]).
      by apply elem_of_nil in Hd.
Defined.

(** ** The questions [main] asks *)

Example py_int_ex :
  py_int "1" = Some 1%Z /\ py_int " 42 " = Some 42%Z /\ py_int "-7" = Some (-7)%Z
  /\ py_int "1_000" = Some 1000%Z /\ py_int "007" = Some 7%Z
  /\ py_int "" = None /\ py_int "1__0" = None /\ py_int "+" = None
  /\ py_int "1.5" = None /\ py_int "1e3" = None /\ py_int "_1" = None.
Proof. split_and!; reflexivity. Qed.

Example validate_chatbot_name_ex :
  validate_chatbot_name "BioBot-2" = true
  /\ validate_chatbot_name "_bot" = false
  /\ validate_chatbot_name "my bot" = false
  /\ validate_chatbot_name "" = false
  /\ validate_chatbot_name (str_repeat "a" 50) = true
  /\ validate_chatbot_name (str_repeat "a" 51) = false.
Proof. split_and!; reflexivity. Qed.

Lemma rstrip_last_visible (s y : string) (z : ascii) :
  rstrip s = y +:+ String z "" -> isspace z = false.
Proof.
  revert y; induction s as [|c s IH]; intros y H.
  - by destruct y.
  - rewrite rstrip_cons in H. destruct (rstrip s) as [|a r] eqn:E.
    + destruct (isspace c) eqn:Ec; [by destruct y |].
      destruct y as [|c' y]; simpl in H; [by injection H as <- | ].
      injection H as _ H. by destruct y.
    + destruct y as [|c' y]; simpl in H; [done |].
      injection H as _ H. by apply (IH y).
Qed.

Lemma name_tail_cases (s : string) :
  name_tail s = true ->
  all_chars is_name_char s = true \/ exists y, s = y +:+ String "010" "".
Proof.
  induction s as [|c s IH]; [by left |]. cbn [name_tail all_chars].
  destruct (is_name_char c) eqn:Ec.
  - intros [H|[y ->]]%IH; [by left | right]. by exists (String c y).
  - intros [Hc%Ascii.eqb_eq Hs%String.eqb_eq]%andb_true_iff. subst.
    right. by exists ""%string.
Qed.

Lemma name_char_facts (c : ascii) :
  is_name_char c = true ->
  c <> "{"%char /\ c <> "}"%char /\ lower_char c <> " "%char
  /\ isspace c = false.
Proof.
  destruct c as [[] [] [] [] [] [] [] []]; vm_compute; intros H;
    try discriminate H; by split_and!.
Qed.

Lemma alnum_is_name_char (c : ascii) : is_alnum c = true -> is_name_char c = true.
Proof. unfold is_name_char. by intros ->. Qed.

Lemma name_chars_brace_free (s : string) :
  all_chars is_name_char s = true -> brace_free s = true.
Proof.
  unfold brace_free. induction s as [|c s IH]; [done |]. cbn [all_chars].
  intros [(H1 & H2 & _)%name_char_facts Hs]%andb_true_iff.
  apply Ascii.eqb_neq in H1, H2. rewrite H1, H2. by apply IH.
Qed.

Lemma name_chars_lower_no_space (s : string) :
  all_chars is_name_char s = true ->
  all_chars (fun c => negb (Ascii.eqb " " c)) (lower s) = true.
Proof.
  induction s as [|c s IH]; [done |]. cbn [all_chars lower].
  intros [(_ & _ & H3 & _)%name_char_facts Hs]%andb_true_iff.
  apply not_eq_sym, Ascii.eqb_neq in H3. rewrite H3. by apply IH.
Qed.

Lemma ask_chatbot_name_valid (inputs rest : list string) (name : string) :
  ask_chatbot_name inputs = Answered name rest ->
  validate_chatbot_name name = true /\ exists line, name = strip line.
Proof.
  induction inputs as [|line inputs IH]; [done |]. cbn [ask_chatbot_name].
  destruct (validate_chatbot_name (strip line)) eqn:E; [| done].
  intros [= <- _]. by eauto.
Qed.

(** X14.  The name [main] accepts is made of letters, digits, underscores
    and hyphens only, at least one and at most fifty of them (the newline
    that the pattern would let through at the end cannot survive the
    stripping).  So it holds no brace, and the repository name built from
    it is the name in lower case followed by "-chatbot": there is no space
    for the replacement to find. *)
Theorem X14_accepted_name_is_plain
    (inputs rest : list string) (name : string)
    (description model github date theme : string)
    (colors : theme_colors) (font : font_style) :
  ask_chatbot_name inputs = Answered name rest ->
  all_chars is_name_char name = true
  /\ 1 <= String.length name <= 50
  /\ brace_free name = true
  /\ main_config name description model github date theme colors font !! 4
     = Some ("repository_name"%string, PStr (lower name +:+ "-chatbot")).
Proof.
  intros [Hvalid [line ->]]%ask_chatbot_name_valid.
  unfold validate_chatbot_name in Hvalid.
  destruct (strip line) as [|c s] eqn:Hname; [done |].
  apply andb_true_iff in Hvalid as [[Hc Htail]%andb_true_iff Hlen%Nat.leb_le].
  assert (all_chars is_name_char (String c s) = true) as Hchars.
  { cbn [all_chars]. rewrite (alnum_is_name_char c Hc).
    destruct (name_tail_cases s Htail) as [H|[y ->]]; [done | exfalso].
    unfold strip in Hname.
    change (String c (y +:+ String "010" "")) with (String c y +:+ String "010" "") in Hname.
    by apply rstrip_last_visible in Hname. }
  split_and!; [done | simpl; lia | done | by apply name_chars_brace_free |].
  cbn [main_config lookup list_lookup]. do 3 f_equal.
  rewrite replace_absent; [done |].
  rewrite <- (str_app_nil_r (lower (String c s))).
  rewrite contains_skips; [done |].
  by apply (skips_not_first "" "" _ " "), name_chars_lower_no_space.
Qed.

Lemma X14_accepted_name_witness :
  main_config "Bio_Bot-2" "birds" "llama3.2:1b" "yourusername" "2025-01-01" "sky"
    {| tc_primary := "#0EA5E9"; tc_bg := "#F0F9FF"; tc_text := "#0C4A6E";
       tc_name := None |}
    {| fs_name := "Modern"; fs_font_family := "Inter, system-ui, sans-serif";
       fs_style := "clean" |} !! 4
  = Some ("repository_name"%string, PStr "bio_bot-2-chatbot").
Proof.
  destruct (X14_accepted_name_is_plain ["my bot"; "  Bio_Bot-2 "; "next"]%string
              ["next"%string] "Bio_Bot-2" "birds" "llama3.2:1b" "yourusername"
              "2025-01-01" "sky"
              {| tc_primary := "#0EA5E9"; tc_bg := "#F0F9FF"; tc_text := "#0C4A6E";
                 tc_name := None |}
              {| fs_name := "Modern"; fs_font_family := "Inter, system-ui, sans-serif";
                 fs_style := "clean" |} eq_refl) as (_ & _ & _ & H).
  exact H.
Defined.

Lemma menu_choice_answer {A} (entries : list A) (inputs rest : list string) (e : A) :
  menu_choice entries inputs = Answered e rest ->
  e ∈ entries /\ rest `suffix_of` inputs.
Proof.
  induction inputs as [|line inputs IH]; [done |]. cbn [menu_choice].
  assert (menu_choice entries inputs = Answered e rest ->
          e ∈ entries /\ rest `suffix_of` line :: inputs) as Hnext.
  { intros [H1 H2]%IH. split; [done | by apply suffix_cons_r]. }
  destruct (py_int _) as [n|]; [| done].
  destruct (_ && _)%bool; [| done].
  destruct (entries !! Z.to_nat (n - 1)) as [entry|] eqn:E; [| done].
  intros [= <- <-]. split; [by eapply list_elem_of_lookup_2 | by apply suffix_cons_r].
Qed.

(** X15.  Whatever is typed, the theme and the font that the menus return
    are entries of their catalogues, and the model chosen is one of the
    listed models. *)
Theorem X15_choices_come_from_the_catalogues :
  (forall inputs rest theme,
     get_theme_choice inputs = Answered theme rest -> theme ∈ THEME_COLORS)
  /\ (forall inputs rest font,
        get_font_choice inputs = Answered font rest -> font ∈ FONT_STYLES)
  /\ (forall model_choice, choose_model model_choice ∈ OLLAMA_MODELS).
Proof.
  split_and!.
  - intros inputs rest theme H. by apply menu_choice_answer in H as [? _].
  - intros inputs rest font H. by apply menu_choice_answer in H as [? _].
  - intros model_choice. unfold choose_model.
    assert (DEFAULT_MODEL ∈ OLLAMA_MODELS) as Hdefault by (by left).
    destruct (py_int model_choice) as [n|]; [| done].
    destruct (_ && _)%bool; [| done].
    destruct (OLLAMA_MODELS !! Z.to_nat (n - 1)) as [model|] eqn:E; [| done].
    by eapply list_elem_of_lookup_2.
Qed.

Lemma X15_choices_witness :
  exists theme font,
    get_theme_choice ["3"; "2"]%string = Answered theme ["2"%string]
    /\ get_font_choice ["2"]%string = Answered font []
    /\ theme ∈ THEME_COLORS /\ font ∈ FONT_STYLES.
Proof.
  destruct X15_choices_come_from_the_catalogues as (Htheme & Hfont & _).
  eexists _, _. split; [reflexivity |]. split; [reflexivity |]. split.
  - by apply (Htheme ["3"; "2"]%string ["2"%string]).
  - by apply (Hfont ["2"]%string []).
Defined.

Lemma menu_choice_line {A} (entries : list A) (line : string) (rest : list string) :
  let choice := strip line in
  (choice = ""%string -> forall e, entries !! 0 = Some e ->
     menu_choice entries (line :: rest) = Answered e rest)
  /\ (forall n, choice <> ""%string -> py_int choice = Some n ->
        (1 <= n <= Z.of_nat (length entries))%Z ->
        exists e, entries !! Z.to_nat (n - 1) = Some e
                  /\ menu_choice entries (line :: rest) = Answered e rest)
  /\ (choice <> ""%string ->
      (forall n, py_int choice = Some n ->
         (n < 1 \/ Z.of_nat (length entries) < n)%Z) ->
      menu_choice entries (line :: rest) = menu_choice entries rest).
Proof.
  intros choice. split_and!.
  - intros Hempty e He. cbn [menu_choice]. fold choice. rewrite Hempty.
    cbn [String.eqb]. change (py_int "1") with (Some 1%Z).
    destruct entries as [|e0 entries]; [done |]. injection He as ->.
    cbn [length]. replace ((0 <=? 1 - 1)%Z && (1 - 1 <? Z.of_nat (S (length entries)))%Z)
      with true by (symmetry; apply andb_true_iff; split; [done | apply Z.ltb_lt; lia]).
    done.
  - intros n Hne Hint Hrange. cbn [menu_choice]. fold choice.
    apply String.eqb_neq in Hne. rewrite Hne, Hint.
    replace ((0 <=? n - 1)%Z && (n - 1 <? Z.of_nat (length entries))%Z)
      with true
      by (symmetry; apply andb_true_iff; split; [apply Z.leb_le | apply Z.ltb_lt]; lia).
    destruct (entries !! Z.to_nat (n - 1)) as [e|] eqn:E; [by eauto |].
    apply lookup_ge_None in E. lia.
  - intros Hne Hout. cbn [menu_choice]. fold choice.
    apply String.eqb_neq in Hne. rewrite Hne.
    destruct (py_int choice) as [n|]; [| done].
    replace ((0 <=? n - 1)%Z && (n - 1 <? Z.of_nat (length entries))%Z)
      with false; [done |].
    symmetry. apply andb_false_iff.
    destruct (Hout n eq_refl); [left; apply Z.leb_gt | right; apply Z.ltb_ge]; lia.
Qed.

(** X16.  One line typed at the theme or the font menu: a blank line takes
    the first entry; a number from 1 to 5 takes the entry of that rank;
    anything else, zero and negative numbers included, is passed over and
    the next line is read. *)
Theorem X16_menu_reads_one_line (line : string) (rest : list string) :
  let choice := strip line in
  (choice = ""%string ->
     (exists colors, get_theme_choice (line :: rest)
                     = Answered ("sky"%string, colors) rest)
     /\ (exists font, fs_name font = "Modern"%string
                      /\ get_font_choice (line :: rest) = Answered font rest))
  /\ (forall n, choice <> ""%string -> py_int choice = Some n -> (1 <= n <= 5)%Z ->
        (exists theme, THEME_COLORS !! Z.to_nat (n - 1) = Some theme
                       /\ get_theme_choice (line :: rest) = Answered theme rest)
        /\ (exists font, FONT_STYLES !! Z.to_nat (n - 1) = Some font
                         /\ get_font_choice (line :: rest) = Answered font rest))
  /\ (choice <> ""%string ->
      (forall n, py_int choice = Some n -> (n < 1 \/ 5 < n)%Z) ->
      get_theme_choice (line :: rest) = get_theme_choice rest
      /\ get_font_choice (line :: rest) = get_font_choice rest).
Proof.
  intros choice.
  destruct (menu_choice_line THEME_COLORS line rest) as (T1 & T2 & T3).
  destruct (menu_choice_line FONT_STYLES line rest) as (F1 & F2 & F3).
  unfold get_theme_choice, get_font_choice. split_and!.
  - intros Hempty. split.
    + eexists. by apply T1.
    + eexists. split; [| by apply F1]. done.
  - intros n Hne Hint Hrange. split; [by apply T2 | by apply F2].
  - intros Hne Hout. split; [by apply T3 | by apply F3].
Qed.

Lemma X16_menu_witness :
  (exists colors, get_theme_choice ["  "; "3"]%string
                  = Answered ("sky"%string, colors) ["3"%string])
  /\ get_font_choice ["0"; "-1"; "abc"; "4"; "2"]%string
     = get_font_choice ["4"; "2"]%string.
Proof.
  split.
  - destruct (X16_menu_reads_one_line "  " ["3"%string]) as (H & _ & _).
    by destruct (H eq_refl) as [? _].
  - destruct (X16_menu_reads_one_line "0" ["-1"; "abc"; "4"; "2"]%string)
      as (_ & _ & H0).
    destruct (H0 ltac:(done)) as [_ ->]; [intros n [= <-]; lia |].
    destruct (X16_menu_reads_one_line "-1" ["abc"; "4"; "2"]%string) as (_ & _ & H1).
    destruct (H1 ltac:(done)) as [_ ->]; [intros n [= <-]; lia |].
    destruct (X16_menu_reads_one_line "abc" ["4"; "2"]%string) as (_ & _ & H2).
    destruct (H2 ltac:(done)) as [_ ->]; [intros n [=] |]. done.
Defined.

(** X17.  The model question is asked once: an answer that is no number
    (the empty answer too) or a number outside 1..6 gives the default
    model, the first of the list; a number from 1 to 6 gives the model of
    that rank. *)
Theorem X17_model_choice (model_choice : string) :
  ((forall n, py_int model_choice = Some n -> (n < 1 \/ 6 < n)%Z) ->
   choose_model model_choice = "llama3.2:1b"%string)
  /\ (forall n, py_int model_choice = Some n -> (1 <= n <= 6)%Z ->
        OLLAMA_MODELS !! Z.to_nat (n - 1) = Some (choose_model model_choice)).
Proof.
  unfold choose_model. split.
  - intros Hout. destruct (py_int model_choice) as [n|]; [| done].
    replace ((0 <=? n - 1)%Z && (n - 1 <? Z.of_nat (length OLLAMA_MODELS))%Z)
      with false; [done |].
    symmetry. apply andb_false_iff.
    destruct (Hout n eq_refl); [left; apply Z.leb_gt | right; apply Z.ltb_ge];
      simpl; lia.
  - intros n -> Hrange.
    replace ((0 <=? n - 1)%Z && (n - 1 <? Z.of_nat (length OLLAMA_MODELS))%Z)
      with true
      by (symmetry; apply andb_true_iff; split; [apply Z.leb_le | apply Z.ltb_lt];
          simpl; lia).
    destruct (OLLAMA_MODELS !! Z.to_nat (n - 1)) as [model|] eqn:E; [done |].
    apply lookup_ge_None in E. simpl in E. lia.
Qed.

Lemma X17_model_choice_witness :
  choose_model "" = "llama3.2:1b"%string
  /\ OLLAMA_MODELS !! 3 = Some (choose_model "4").
Proof.
  split.
  - destruct (X17_model_choice "") as [H _]. apply H. intros n [=].
  - destruct (X17_model_choice "4") as [_ H]. apply (H 4%Z); [reflexivity | lia].
Defined.

(** ** [update_config.py]: the [--param] arguments *)

Lemma find_first_equals (key rest : string) :
  contains "=" key = false ->
  find "=" (key +:+ "=" +:+ rest) = Some (String.length key).
Proof.
  intros H. apply find_of_skips. apply skips_after_overlap_check; [| done].
  intros n Hpos Hn. simpl in Hn. lia.
Qed.

Lemma drop_S_app_length (key rest : string) (c : ascii) :
  drop (S (String.length key)) (key +:+ String c rest) = rest.
Proof. induction key as [|a key IH]; simpl; [by destruct rest | done]. Qed.

(** X18.  A [--param] argument is cut at its first [=]: a key without [=]
    followed by [=] and any text, further [=] included, is read back as
    that key and the typed form of that text. *)
Theorem X18_param_is_cut_at_the_first_equals
    (py_float : string -> option json) (key value : string)
    (param_updates : list (string * json)) :
  contains "=" key = false ->
  collect_param_updates py_float [key +:+ "=" +:+ value] param_updates
  = ([], Ok (dict_set param_updates key (typed_value py_float value))).
Proof.
  intros Hkey. cbn [collect_param_updates].
  rewrite find_first_equals by done.
  rewrite str_take_app_length. cbn [String.append].
  by rewrite drop_S_app_length.
Qed.

Lemma X18_param_witness :
  collect_param_updates (fun _ => None) ["stop=a=b"%string] []
  = ([], Ok [("stop"%string, JStr "a=b")]).
Proof.
  apply (X18_param_is_cut_at_the_first_equals (fun _ => None) "stop" "a=b" []).
  reflexivity.
Defined.


Lemma all_chars_app (f : ascii -> bool) (x y : string) :
  all_chars f (x +:+ y) = all_chars f x && all_chars f y.
Proof. induction x as [|c x IH]; simpl; [done | by rewrite IH, andb_assoc]. Qed.

Lemma all_chars_impl (f g : ascii -> bool) (s : string) :
  (forall c, f c = true -> g c = true) -> all_chars f s = true -> all_chars g s = true.
Proof.
  intros Hfg. induction s as [|c s IH]; [done |]. cbn [all_chars].
  intros [?%Hfg ?%IH]%andb_true_iff. by apply andb_true_iff.
Qed.

Lemma lstrip_by_split (f : ascii -> bool) (s : string) :
  exists l, s = l +:+ lstrip_by f s /\ all_chars f l = true.
Proof.
  induction s as [|c s (l & Hl & Hf)]; [by exists ""%string |]. cbn [lstrip_by].
  destruct (f c) eqn:E; [| by exists ""%string].
  exists (String c l). simpl. rewrite E. split; [by f_equal | done].
Qed.

Lemma rstrip_by_split (f : ascii -> bool) (s : string) :
  exists r, s = rstrip_by f s +:+ r /\ all_chars f r = true.
Proof.
  induction s as [|c s (r & Hr & Hf)]; [by exists ""%string |]. cbn [rstrip_by].
  destruct (rstrip_by f s) as [|a u] eqn:E.
  - destruct (f c) eqn:Ec.
    + exists (String c s). simpl in *. subst. simpl. by rewrite Ec.
    + exists r. simpl in *. by subst.
  - exists r. simpl. split; [by f_equal | done].
Qed.

Lemma int_digits_chars (acc : Z) (after_underscore : bool) (s : string) (z : Z) :
  int_digits acc after_underscore s = Some z -> all_chars is_int_char s = true.
Proof.
  revert acc after_underscore; induction s as [|c s IH]; intros acc b H; [done |].
  cbn [int_digits] in H. cbn [all_chars]. unfold is_int_char at 1.
  destruct (digit_value c) as [d|] eqn:E.
  - apply IH in H. rewrite H. rewrite bool_decide_eq_true_2 by eauto.
    by rewrite orb_true_r.
  - destruct (Ascii.eqb c "_") eqn:Ec; [| done].
    destruct b; [done |]. apply IH in H. rewrite H. by rewrite !orb_true_r.
Qed.

Lemma int_unsigned_chars (s : string) (z : Z) :
  int_unsigned s = Some z -> all_chars is_int_char s = true.
Proof.
  destruct s as [|c s]; [done |]. cbn [int_unsigned all_chars].
  destruct (digit_value c) as [d|] eqn:E; [| done].
  intros H%int_digits_chars. rewrite H. unfold is_int_char.
  rewrite bool_decide_eq_true_2 by eauto. by rewrite orb_true_r.
Qed.

Lemma py_int_chars (s : string) (z : Z) :
  py_int s = Some z -> all_chars is_int_char s = true.
Proof.
  unfold py_int. destruct (_ <? _)%N; [done |]. intros H.
  destruct (lstrip_by_split is_int_space s) as (l & Hl & Hfl).
  destruct (rstrip_by_split is_int_space (lstrip_by is_int_space s)) as (r & Hr & Hfr).
  assert (forall c, is_int_space c = true -> is_int_char c = true) as Hsp.
  { intros c Hc. unfold is_int_char. by rewrite Hc. }
  rewrite Hl, Hr, !all_chars_app.
  rewrite (all_chars_impl _ _ l Hsp Hfl), (all_chars_impl _ _ r Hsp Hfr), andb_true_r.
  cbn [andb].
  destruct (rstrip_by is_int_space (lstrip_by is_int_space s)) as [|c u]; [done |].
  assert (int_unsigned (String c u) = Some z -> all_chars is_int_char (String c u) = true)
    as Hplain by apply int_unsigned_chars.
  destruct (Ascii.eqb_spec c "-") as [->|Hm].
  { destruct (int_unsigned u) as [z'|] eqn:E; [| done].
    cbn [all_chars]. by rewrite (int_unsigned_chars u z'). }
  destruct (Ascii.eqb_spec c "+") as [->|Hp].
  { cbn [all_chars]. by rewrite (int_unsigned_chars u z). }
  apply Hplain.
  destruct c as [[] [] [] [] [] [] [] []]; try done.
Qed.

Lemma int_char_facts (c : ascii) :
  is_int_char c = true ->
  c <> "."%char /\ lower_char c <> "t"%char /\ lower_char c <> "f"%char.
Proof.
  destruct c as [[] [] [] [] [] [] [] []]; vm_compute; intros H;
    try discriminate H; by split_and!.
Qed.

(** X19.  Whatever [float] does, a value that [int] accepts is stored as
    that integer: such a text is never "true" or "false" in any letter
    case and holds no dot, so no earlier branch of the conversion takes
    it. *)
Theorem X19_integer_values_are_stored_as_integers
    (py_float : string -> option json) (value : string) (z : Z) :
  py_int value = Some z -> typed_value py_float value = JInt z.
Proof.
  intros Hint. pose proof (py_int_chars _ _ Hint) as Hchars.
  unfold typed_value.
  assert (forall word c w, word = String c w -> (c = "t" \/ c = "f")%char ->
            String.eqb (lower value) word = false) as Hword.
  { intros word c w -> Hc. apply String.eqb_neq. intros E.
    destruct value as [|a value]; [done |]. cbn [lower] in E. injection E as E _.
    cbn [all_chars] in Hchars. apply andb_true_iff in Hchars as [Ha _].
    apply int_char_facts in Ha as (_ & Ht & Hf). by destruct Hc; subst. }
  rewrite (Hword "true"%string "t"%char "rue"%string), (Hword "false"%string "f"%char "alse"%string)
    by auto.
  assert (contains "." value = false) as ->; [| by rewrite Hint].
  rewrite <- (str_app_nil_r value), contains_skips; [done |].
  apply (skips_not_first "" "" _ "."). eapply all_chars_impl; [| exact Hchars].
  intros c (Hc & _)%int_char_facts. apply negb_true_iff, Ascii.eqb_neq. by intros <-.
Qed.

Lemma X19_integer_values_witness :
  typed_value (fun _ => Some (JStr "never asked")) " -1_024 " = JInt (-1024).
Proof.
  apply X19_integer_values_are_stored_as_integers. reflexivity.
Defined.

(** X20.  One [--param] argument without [=], wherever it stands among the
    arguments, ends the run in an error before any parameter is updated,
    so no configuration reaches [save_config], with or without a prompt or
    a prompt file; when the configuration is a dictionary (and reading the
    prompt file, if it comes to that, raises nothing but an [Exception])
    the error is the exit with status 1. *)
Theorem X20_malformed_param_saves_nothing
    (py_float : string -> option json) (config : json) (prompt : option string)
    (prompt_file : option (string * prompt_file_state)) (params : list string) :
  (exists param, param ∈ params /\ contains "=" param = false) ->
  exists evs e,
    main_update py_float config prompt prompt_file (Some params) = (evs, Raise e)
    /\ (forall c, config = JObj c ->
          (forall shown e', prompt_file = Some (shown, Found (Raise e')) ->
             is_Exception e' = true) ->
          e = SystemExit 1).
Proof.
  intros (param & Hin & Hno).
  assert (forall acc, exists evs,
            collect_param_updates py_float params acc = (evs, Raise (SystemExit 1)))
    as Hcollect.
  { induction params as [|p params IH]; intros acc; [by apply elem_of_nil in Hin |].
    cbn [collect_param_updates].
    destruct (find "=" p) as [i|] eqn:E; [| by eauto].
    apply elem_of_cons in Hin as [->|Hin]; [| by apply IH].
    unfold contains in Hno. by rewrite E in Hno. }
  destruct params as [|p params]; [by apply elem_of_nil in Hin |].
  destruct (Hcollect []) as [evs' E].
  unfold main_update, update_system_prompt.
  destruct config as [| | | | | |c]; destruct prompt as [[|a text]|];
    destruct prompt_file as [[shown [|[content|e']]]|];
    cbn [py_setitem mbind result_bind is_Exception];
    try destruct (is_Exception e') eqn:He;
    cbv beta iota zeta; rewrite ?E;
    (eexists _, _; split; [reflexivity |]); intros c' Hc Hread;
    try done; by rewrite (Hread _ _ eq_refl) in He.
Qed.

Lemma X20_malformed_param_witness :
  exists evs e,
    main_update (fun _ => None)
      (generate_llm_config "Be kind." (JObj DEFAULT_LLM_PARAMS_dict) "2025-01-01T00:00:00")
      None (Some ("prompt.txt", Found (Ok "Be brief.")))%string
      (Some ["temperature=0.2"; "top_k 50"]%string)
    = (evs, Raise e)
    /\ (forall c,
          generate_llm_config "Be kind." (JObj DEFAULT_LLM_PARAMS_dict)
            "2025-01-01T00:00:00" = JObj c ->
          (forall shown e',
             Some ("prompt.txt", Found (Ok "Be brief."))%string
             = Some (shown, Found (Raise e')) ->
             is_Exception e' = true) ->
          e = SystemExit 1).
Proof.
  apply X20_malformed_param_saves_nothing.
  exists "top_k 50"%string. split; [right; by left | reflexivity].
Defined.

(** ** [update_config.py]: what an update leaves behind *)

Lemma foldl_insert_lookup_nodup (p : gmap string json)
    (param_updates : list (string * json)) (key : string) (value : json) :
  NoDup param_updates.*1 -> (key, value) ∈ param_updates ->
  foldl (fun p kv => <[kv.1 := kv.2]> p) p param_updates !! key = Some value.
Proof.
  revert p; induction param_updates as [|[k v] rest IH]; intros p Hnd Hin.
  - by apply elem_of_nil in Hin.
  - rewrite fmap_cons in Hnd. apply NoDup_cons in Hnd as [Hk Hnd].
    apply elem_of_cons in Hin as [[= -> ->]|Hin]; simpl.
    + rewrite foldl_insert_lookup_other by done. apply lookup_insert_eq.
    + by apply IH.
Qed.

Lemma foldl_insert_lookup_indep (p p' : gmap string json)
    (param_updates : list (string * json)) (key : string) :
  key ∈ param_updates.*1 ->
  foldl (fun p kv => <[kv.1 := kv.2]> p) p param_updates !! key
  = foldl (fun p kv => <[kv.1 := kv.2]> p) p' param_updates !! key.
Proof.
  revert p p'; induction param_updates as [|[k v] rest IH]; intros p p' Hin.
  - by apply elem_of_nil in Hin.
  - simpl. destruct (decide (key ∈ rest.*1)) as [Hrest|Hrest]; [by apply IH |].
    rewrite fmap_cons in Hin. apply elem_of_cons in Hin as [->|]; [| done].
    rewrite !foldl_insert_lookup_other by done. by rewrite !lookup_insert_eq.
Qed.

Lemma foldl_insert_twice (p : gmap string json)
    (param_updates : list (string * json)) :
  foldl (fun p kv => <[kv.1 := kv.2]> p)
    (foldl (fun p kv => <[kv.1 := kv.2]> p) p param_updates) param_updates
  = foldl (fun p kv => <[kv.1 := kv.2]> p) p param_updates.
Proof.
  apply map_eq. intros key.
  destruct (decide (key ∈ param_updates.*1)) as [Hin|Hnot].
  - by apply foldl_insert_lookup_indep.
  - by rewrite foldl_insert_lookup_other.
Qed.

Lemma dict_set_keys (items : list (string * json)) (key : string) (value : json)
    (x : string) :
  x ∈ (dict_set items key value).*1 <-> x = key \/ x ∈ items.*1.
Proof.
  induction items as [|[k v] rest IH]; cbn [dict_set].
  - rewrite fmap_cons, elem_of_cons. simpl. rewrite !elem_of_nil. tauto.
  - destruct (String.eqb_spec k key) as [->|Hne].
    + rewrite !fmap_cons, !elem_of_cons. simpl. tauto.
    + rewrite !fmap_cons, !elem_of_cons, IH. simpl. tauto.
Qed.

Lemma dict_set_NoDup (items : list (string * json)) (key : string) (value : json) :
  NoDup items.*1 -> NoDup (dict_set items key value).*1.
Proof.
  induction items as [|[k v] rest IH]; cbn [dict_set]; intros Hnd.
  - rewrite fmap_cons. simpl. apply NoDup_singleton.
  - rewrite fmap_cons in Hnd. apply NoDup_cons in Hnd as [Hk Hnd].
    destruct (String.eqb_spec k key) as [->|Hne].
    + rewrite fmap_cons. by apply NoDup_cons.
    + rewrite fmap_cons. apply NoDup_cons. split; [| by apply IH].
      rewrite dict_set_keys. simpl. intros [->|?]; done.
Qed.

(** X21.  [param_updates] is a dictionary, so its keys are distinct; after
    an update that returns, each of its keys is bound in
    [config['parameters']] to the value the update gave for it. *)
Theorem X21_updated_parameter_has_the_given_value
    (config config' : json) (param_updates : list (string * json))
    (key : string) (value : json) :
  NoDup param_updates.*1 ->
  update_parameters config param_updates = Ok config' ->
  (key, value) ∈ param_updates ->
  parameter key config' = Some value.
Proof.
  intros Hnd Hrun Hin.
  destruct (update_parameters_ok_inv _ _ _ Hrun) as [[-> _]|(c & p & -> & Hp)].
  { by apply elem_of_nil in Hin. }
  rewrite (update_parameters_dict c p _ Hp) in Hrun. injection Hrun as <-.
  unfold parameter, field. rewrite lookup_insert_eq. simpl.
  by apply foldl_insert_lookup_nodup.
Qed.

Lemma X21_updated_parameter_witness :
  parameter "top_k"
    (JObj (<["parameters" := JObj (<["top_k" := JInt 50]> (<["top_k" := JInt 40]> ∅))]>
           (<["parameters" := JObj (<["top_k" := JInt 40]> ∅)]> ∅)))
  = Some (JInt 50).
Proof.
  apply (X21_updated_parameter_has_the_given_value
           (JObj (<["parameters" := JObj (<["top_k" := JInt 40]> ∅)]> ∅)) _
           [("top_k"%string, JInt 50)]).
  - apply (bool_decide_eq_true_1 (NoDup _)). reflexivity.
  - reflexivity.
  - by left.
Defined.

Lemma dict_set_fst (items : list (string * json)) (key : string) (value : json) :
  (dict_set items key value).*1
  = if bool_decide (key ∈ items.*1) then items.*1 else items.*1 ++ [key].
Proof.
  induction items as [|[k v] rest IH]; cbn [dict_set].
  - rewrite bool_decide_eq_false_2; [done | apply not_elem_of_nil].
  - destruct (String.eqb_spec k key) as [->|Hne].
    + rewrite bool_decide_eq_true_2; [done | by left].
    + rewrite !fmap_cons, IH. cbn [fst].
      destruct (decide (key ∈ rest.*1)) as [Hin|Hnot].
      * rewrite !bool_decide_eq_true_2; [done | by right | done].
      * rewrite !bool_decide_eq_false_2; [done | | done].
        rewrite not_elem_of_cons. by split.
Qed.

Lemma dict_set_elem (items : list (string * json)) (key : string) (value : json)
    (k : string) (v : json) :
  NoDup items.*1 ->
  (k, v) ∈ dict_set items key value
  <-> (k = key /\ v = value) \/ (k <> key /\ (k, v) ∈ items).
Proof.
  induction items as [|[k0 v0] rest IH]; cbn [dict_set]; intros Hnd.
  - rewrite elem_of_cons, !elem_of_nil. split.
    + intros [[= -> ->]|[]]. by left.
    + intros [[-> ->]|[_ []]]. by left.
  - rewrite fmap_cons in Hnd. apply NoDup_cons in Hnd as [Hk0 Hnd].
    destruct (String.eqb_spec k0 key) as [->|Hne].
    + rewrite !elem_of_cons. split.
      * intros [[= -> ->]|Hin]; [by left |]. right. split; [| by right].
        intros ->. apply Hk0. by apply (list_elem_of_fmap_2 fst) in Hin.
      * intros [[-> ->]|[Hk [[= -> ->]|Hin]]]; [by left | done | by right].
    + rewrite !elem_of_cons, IH by done. split.
      * intros [[= -> ->]|[[-> ->]|[Hk Hin]]].
        -- right. split; [done | by left].
        -- by left.
        -- right. split; [done | by right].
      * intros [[-> ->]|[Hk [[= -> ->]|Hin]]].
        -- right. by left.
        -- by left.
        -- right. right. by split.
Qed.

(** what the loop makes of well-formed arguments *)
Lemma collect_param_updates_args (py_float : string -> option json)
    (args : list (string * string)) (acc : list (string * json)) :
  Forall (fun kv => contains "=" kv.1 = false) args ->
  collect_param_updates py_float ((fun kv => kv.1 +:+ "=" +:+ kv.2) <$> args) acc
  = ([], Ok (foldl (fun acc kv => dict_set acc kv.1 (typed_value py_float kv.2))
                   acc args)).
Proof.
  intros Hall. revert acc.
  induction Hall as [|[key text] args Hkey _ IH]; intros acc; [done |].
  rewrite fmap_cons. cbn [collect_param_updates fst snd foldl] in *.
  rewrite find_first_equals by done.
  rewrite str_take_app_length. cbn [String.append].
  rewrite drop_S_app_length. apply IH.
Qed.

(** X22.  Of the well-formed [--param] arguments the loop keeps one entry
    for each key, in the order in which the keys first occur, and the
    value of an entry is the typed text of the last argument with its key:
    a later value replaces the earlier one in place.  Collecting prints
    nothing.  ([reverse (remove_dups (reverse l))] is [l] without the
    repetitions of an earlier element.) *)
Theorem X22_later_value_replaces_the_earlier_in_place
    (py_float : string -> option json) (args : list (string * string)) :
  Forall (fun kv => contains "=" kv.1 = false) args ->
  exists param_updates,
    collect_param_updates py_float ((fun kv => kv.1 +:+ "=" +:+ kv.2) <$> args) []
    = ([], Ok param_updates)
    /\ param_updates.*1 = reverse (remove_dups (reverse args.*1))
    /\ NoDup param_updates.*1
    /\ forall key value,
         (key, value) ∈ param_updates
         <-> exists before text after,
               args = before ++ (key, text) :: after
               /\ (key ∉ after.*1)
               /\ value = typed_value py_float text.
Proof.
  intros Hall. eexists. split; [by apply collect_param_updates_args |].
  clear Hall.
  set (step := fun (acc : list (string * json)) (kv : string * string) =>
                 dict_set acc kv.1 (typed_value py_float kv.2)).
  induction args as [|[k s] args (Hkeys & Hnd & Hval)] using rev_ind.
  - split_and!; [done | apply NoDup_nil_2 |].
    intros key value. split.
    + intros Hin. by apply elem_of_nil in Hin.
    + intros (before & text & after & E & _). by destruct before.
  - rewrite foldl_app. cbn [foldl].
    change (step (foldl step [] args) (k, s))
      with (dict_set (foldl step [] args) k (typed_value py_float s)).
    assert ((dict_set (foldl step [] args) k (typed_value py_float s)).*1
            = reverse (remove_dups (reverse (args ++ [(k, s)]).*1))) as Hkeys'.
    { rewrite dict_set_fst, Hkeys, fmap_app, reverse_app. cbn [fmap list_fmap fst reverse app].
      change (reverse [k]) with [k]. cbn [app remove_dups].
      destruct (decide_rel elem_of k (reverse args.*1)) as [Hin|Hnot].
      - rewrite bool_decide_eq_true_2; [done |].
        by rewrite elem_of_reverse, elem_of_remove_dups.
      - rewrite bool_decide_eq_false_2; [by rewrite reverse_cons |].
        by rewrite elem_of_reverse, elem_of_remove_dups. }
    split_and!; [done | |].
    + rewrite Hkeys', reverse_Permutation. apply NoDup_remove_dups.
    + intros key value. rewrite dict_set_elem by done. rewrite Hval. split.
      * intros [[-> ->]|(Hne & before & text & after & -> & Hnot & ->)].
        -- exists args, s, []. split_and!; [done | apply not_elem_of_nil | done].
        -- exists before, text, (after ++ [(k, s)]). split_and!; [| | done].
           ++ by rewrite <- app_assoc.
           ++ rewrite fmap_app, not_elem_of_app. split; [done |].
              rewrite fmap_cons, not_elem_of_cons. split; [done | apply not_elem_of_nil].
      * intros (before & text & after & E & Hnot & ->).
        destruct after as [|x after _] using rev_ind.
        -- apply app_inj_tail in E as [_ [= <- <-]]. by left.
        -- rewrite app_comm_cons, app_assoc in E.
           apply app_inj_tail in E as [-> <-].
           rewrite fmap_app, not_elem_of_app in Hnot. destruct Hnot as [Hnot Hk].
           rewrite fmap_cons, not_elem_of_cons in Hk. destruct Hk as [Hk _].
           right. split; [done |]. by exists before, text, after.
Qed.

Lemma X22_later_value_witness :
  exists param_updates,
    collect_param_updates (fun _ => None) ["top_k=40"; "seed=7"; "top_k=50"]%string []
    = ([], Ok param_updates)
    /\ param_updates.*1 = ["top_k"; "seed"]%string
    /\ ("top_k"%string, JInt 50) ∈ param_updates.
Proof.
  destruct (X22_later_value_replaces_the_earlier_in_place (fun _ => None)
              [("top_k", "40"); ("seed", "7"); ("top_k", "50")]%string)
    as (param_updates & Hrun & Hkeys & _ & Hval).
  - repeat (apply Forall_cons; split; [reflexivity |]). apply Forall_nil_2.
  - exists param_updates. split_and!; [exact Hrun | exact Hkeys |].
    apply Hval. exists [("top_k", "40"); ("seed", "7")]%string, "50"%string, [].
    split_and!; [done | apply not_elem_of_nil | done].
Defined.

(** X23.  Setting the system prompt and updating the parameters do not
    interfere: in either order they give the same configuration, or fail
    with the same error. *)
Theorem X23_prompt_and_parameter_updates_commute
    (config : json) (prompt : string) (param_updates : list (string * json)) :
  (update_system_prompt config prompt ≫= fun c => update_parameters c param_updates)
  = (update_parameters config param_updates ≫= fun c => update_system_prompt c prompt).
Proof.
  unfold update_system_prompt.
  destruct config as [| | | | | |c];
    try (by destruct param_updates as [|[k v] rest]).
  cbn [py_setitem mbind result_bind].
  destruct (c !! "parameters"%string) as [parameters|] eqn:Hp.
  - destruct parameters as [| | | | | |p].
    7:{ rewrite (update_parameters_dict c p _ Hp).
        rewrite (update_parameters_dict (<["system_prompt"%string := JStr prompt]> c) p).
        - cbn [py_setitem mbind result_bind]. by rewrite insert_insert_ne.
        - by rewrite lookup_insert_ne. }
    all: destruct param_updates as [|[k v] rest]; [done |];
      cbn [update_parameters py_getitem mbind result_bind];
      rewrite lookup_insert_ne by done; by rewrite Hp.
  - destruct param_updates as [|[k v] rest]; [done |].
    cbn [update_parameters py_getitem mbind result_bind].
    rewrite lookup_insert_ne by done. by rewrite Hp.
Qed.

(** X24.  An update that returned changes nothing when it is applied
    again. *)
Theorem X24_update_parameters_is_idempotent
    (config config' : json) (param_updates : list (string * json)) :
  update_parameters config param_updates = Ok config' ->
  update_parameters config' param_updates = Ok config'.
Proof.
  intros Hrun.
  destruct (update_parameters_ok_inv _ _ _ Hrun) as [[-> ->]|(c & p & -> & Hp)]; [done |].
  rewrite (update_parameters_dict c p _ Hp) in Hrun. injection Hrun as <-.
  rewrite (update_parameters_dict _ _ _ (lookup_insert_eq _ _ _)).
  by rewrite insert_insert_eq, foldl_insert_twice.
Qed.

Lemma X24_update_parameters_witness :
  update_parameters
    (JObj (<["parameters" := JObj (<["top_k" := JInt 50]> (<["top_k" := JInt 40]> ∅))]>
           (<["parameters" := JObj (<["top_k" := JInt 40]> ∅)]> ∅)))
    [("top_k"%string, JInt 50)]
  = Ok (JObj (<["parameters" := JObj (<["top_k" := JInt 50]> (<["top_k" := JInt 40]> ∅))]>
              (<["parameters" := JObj (<["top_k" := JInt 40]> ∅)]> ∅))).
Proof.
  apply (X24_update_parameters_is_idempotent
           (JObj (<["parameters" := JObj (<["top_k" := JInt 40]> ∅)]> ∅))).
  reflexivity.
Defined.

(** ** [templates/llm.py]: the request *)

Lemma payload_lookup (model_name default_system_prompt : string)
    (default_params : list (string * json)) (prompt : string)
    (system_prompt : option string) (context : option (list json))
    (kwargs : list (string * json)) (key : string) :
  key <> "system"%string -> key <> "context"%string ->
  build_payload model_name default_system_prompt default_params prompt
    system_prompt context kwargs !! key
  = foldl (fun p kv => <[kv.1 := kv.2]> p)
      (foldl (fun p kv => <[kv.1 := kv.2]> p)
         (<["stream" := JBool false]>
            (<["prompt" := JStr prompt]>
               (<["model" := JStr model_name]> (∅ : gmap string json))))
         default_params) kwargs !! key.
Proof.
  intros Hs Hc. unfold build_payload.
  destruct context as [[|message messages]|];
    destruct system_prompt as [[|a text]|];
    by rewrite ?(lookup_insert_ne _ "context"%string), ?(lookup_insert_ne _ "system"%string).
Qed.

Lemma payload_system (model_name default_system_prompt : string)
    (default_params : list (string * json)) (prompt : string)
    (system_prompt : option string) (context : option (list json))
    (kwargs : list (string * json)) :
  build_payload model_name default_system_prompt default_params prompt
    system_prompt context kwargs !! "system"%string
  = Some (JStr match system_prompt with
               | Some (String _ _ as text) => text
               | _ => default_system_prompt
               end).
Proof.
  unfold build_payload.
  destruct context as [[|message messages]|];
    destruct system_prompt as [[|a text]|];
    by rewrite ?(lookup_insert_ne _ "context"%string), lookup_insert_eq.
Qed.

(** X25.  The request always carries a system prompt: the one passed in
    when it is not empty, the configured one otherwise.  A [system] entry
    among the configured parameters or the keyword arguments never
    survives. *)
Theorem X25_system_prompt_is_never_overridden
    (model_name default_system_prompt : string)
    (default_params : list (string * json)) (prompt : string)
    (system_prompt : option string) (context : option (list json))
    (kwargs : list (string * json)) :
  build_payload model_name default_system_prompt default_params prompt
    system_prompt context kwargs !! "system"%string
  = Some (JStr match system_prompt with
               | Some (String _ _ as text) => text
               | _ => default_system_prompt
               end).
Proof. apply payload_system. Qed.

(** X26.  For every other key but [context], a keyword argument wins over
    a configured parameter, and a configured parameter wins over the
    request's own [model], [prompt] and [stream]. *)
Theorem X26_keyword_arguments_override_configured_parameters
    (model_name default_system_prompt : string)
    (default_params : list (string * json)) (prompt : string)
    (system_prompt : option string) (context : option (list json))
    (kwargs : list (string * json)) (key : string) (value : json) :
  NoDup kwargs.*1 -> NoDup default_params.*1 ->
  key <> "system"%string -> key <> "context"%string ->
  (key, value) ∈ kwargs \/ ((key ∉ kwargs.*1) /\ (key, value) ∈ default_params) ->
  build_payload model_name default_system_prompt default_params prompt
    system_prompt context kwargs !! key = Some value.
Proof.
  intros Hkw Hdp Hs Hc Hin. rewrite payload_lookup by done.
  destruct Hin as [Hin|[Hnot Hin]].
  - by apply foldl_insert_lookup_nodup.
  - rewrite foldl_insert_lookup_other by done. by apply foldl_insert_lookup_nodup.
Qed.

Lemma X26_keyword_arguments_witness :
  build_payload "llama3" "Be kind."
    [("temperature", JFloat 7 (-1)); ("model", JStr "mistral")]%string
    "Hello" None None [("temperature", JFloat 3 (-1))]%string !! "model"%string
  = Some (JStr "mistral").
Proof.
  apply X26_keyword_arguments_override_configured_parameters.
  - apply (bool_decide_eq_true_1 (NoDup _)). reflexivity.
  - apply (bool_decide_eq_true_1 (NoDup _)). reflexivity.
  - done.
  - done.
  - right. split.
    + cbn. rewrite not_elem_of_cons. split; [done | apply not_elem_of_nil].
    + right. by left.
Defined.

(** X27.  [analyze_code] asks at temperature 0.3 whatever temperature is
    configured, and under the configured system prompt: a server that
    answers every such request to [/api/generate] is asked, and its answer
    is what [analyze_code] returns. *)
Theorem X27_code_analysis_runs_at_temperature_0_3
    (post : string -> gmap string json -> json + string)
    (base_url model_name default_system_prompt : string)
    (default_params : list (string * json)) (code_block : string) (answer : json) :
  (forall payload : gmap string json,
     payload !! "temperature"%string = Some (JFloat 3 (-1)) ->
     payload !! "system"%string = Some (JStr default_system_prompt) ->
     post (base_url +:+ "/api/generate") payload
     = inl (JObj {["response"%string := answer]})) ->
  analyze_code post base_url model_name default_system_prompt default_params code_block
  = answer.
Proof.
  intros Hpost. unfold analyze_code, generate_response.
  rewrite Hpost.
  - by rewrite lookup_singleton_eq.
  - rewrite payload_lookup by done. cbn [foldl fst snd]. apply lookup_insert_eq.
  - by rewrite payload_system.
Qed.

Lemma X27_code_analysis_witness :
  analyze_code
    (fun _ payload =>
       match payload !! "temperature"%string with
       | Some (JFloat 3 (-1)) => inl (JObj {["response"%string := JStr "Looks fine."]})
       | _ => inr "refused"%string
       end)
    "http://ollama:11434" "llama3" "Be kind."
    [("temperature"%string, JFloat 7 (-1))] "x = 1"
  = JStr "Looks fine.".
Proof.
  apply X27_code_analysis_runs_at_temperature_0_3.
  intros payload Htemperature _. by rewrite Htemperature.
Defined.

(** ** From the generator to the update script *)

Lemma collect_param_updates_ok (py_float : string -> option json)
    (params : list string) (acc : list (string * json)) :
  Forall (fun param => contains "=" param = true) params ->
  exists param_updates,
    collect_param_updates py_float params acc = ([], Ok param_updates).
Proof.
  intros Hall. revert acc.
  induction Hall as [|param rest Hparam _ IH]; intros acc; cbn [collect_param_updates].
  - by eauto.
  - unfold contains in Hparam. destruct (find "=" param) as [i|]; [| done]. apply IH.
Qed.

(** X28.  The update script never fails on a configuration that
    [generate_llm_config] wrote with a dictionary of parameters, as long
    as every [--param] holds an [=] and the prompt file, if one is named,
    is there and can be read: the configuration it hands to [save_config]
    has the new prompt if a non-empty one was given, else the stripped
    text of the prompt file if one was named, else the generated prompt;
    and it has the generated [metadata]. *)
Theorem X28_generated_configuration_accepts_updates
    (py_float : string -> option json) (system_prompt created_at : string)
    (llm_params : gmap string json) (prompt : option string)
    (prompt_file : option (string * prompt_file_state)) (params : list string) :
  Forall (fun param => contains "=" param = true) params ->
  (forall shown state, prompt_file = Some (shown, state) ->
     exists text, state = Found (Ok text)) ->
  let config := generate_llm_config system_prompt (JObj llm_params) created_at in
  exists evs config',
    main_update py_float config prompt prompt_file (Some params) = (evs, Ok config')
    /\ field "system_prompt" config'
       = Some (JStr match prompt, prompt_file with
                    | Some (String _ _ as text), _ => text
                    | _, Some (_, Found (Ok text)) => strip text
                    | _, _ => system_prompt
                    end)
    /\ field "metadata" config' = field "metadata" config.
Proof.
  intros Hall Hfile config.
  assert (exists c, config = JObj c
                    /\ c !! "parameters"%string = Some (JObj llm_params)
                    /\ c !! "system_prompt"%string = Some (JStr system_prompt))
    as (c & Hc & Hp & Hsp).
  { eexists. split; [reflexivity |]. split.
    - rewrite lookup_insert_ne by done. apply lookup_insert_eq.
    - rewrite !lookup_insert_ne by done. apply lookup_insert_eq. }
  rewrite Hc. clear config Hc.
  assert (forall evs (c0 : gmap string json) text,
            c0 !! "parameters"%string = Some (JObj llm_params) ->
            c0 !! "system_prompt"%string = Some (JStr text) ->
            c0 !! "metadata"%string = c !! "metadata"%string ->
            exists evs' config',
              match params with
              | [] => (evs, Ok (JObj c0))
              | _ :: _ =>
                  let '(evs', r') := collect_param_updates py_float params [] in
                  match r' with
                  | Raise e => (evs ++ evs', Raise e)
                  | Ok param_updates =>
                      match update_parameters (JObj c0) param_updates with
                      | Raise e => (evs ++ evs', Raise e)
                      | Ok config' =>
                          (evs ++ evs'
                           ++ [Print ("Parameters updated: "
                                      +:+ join_comma param_updates.*1)],
                           Ok config')
                      end
                  end
              end = (evs', Ok config')
              /\ field "system_prompt" config' = Some (JStr text)
              /\ field "metadata" config' = field "metadata" (JObj c)) as Hparams.
  { intros evs c0 text Hp0 Hsp0 Hm0. destruct params as [|param rest].
    - exists evs, (JObj c0). by split_and!.
    - destruct (collect_param_updates_ok py_float (param :: rest) [] Hall)
        as [param_updates ->].
      rewrite (update_parameters_dict c0 llm_params _ Hp0).
      eexists _, _. split; [reflexivity |]. unfold field.
      by rewrite !lookup_insert_ne. }
  assert (forall text,
            exists evs' config',
              main_update py_float (JObj c) (Some text) prompt_file (Some params)
              = (evs', Ok config')
              /\ field "system_prompt" config'
                 = Some (JStr match text, prompt_file with
                              | String _ _, _ => text
                              | _, Some (_, Found (Ok text')) => strip text'
                              | _, _ => system_prompt
                              end)
              /\ field "metadata" config' = field "metadata" (JObj c)) as Hrun.
  { intros text. unfold main_update.
    destruct text as [|a text].
    - destruct prompt_file as [[shown state]|].
      + destruct (Hfile shown state eq_refl) as [text' ->].
        cbn [update_system_prompt py_setitem mbind result_bind].
        destruct (Hparams [Print "System prompt updated from file"]
                    (<["system_prompt"%string := JStr (strip text')]> c) (strip text'))
          as (evs' & config' & H & ?).
        * by rewrite lookup_insert_ne.
        * apply lookup_insert_eq.
        * by rewrite lookup_insert_ne.
        * exists evs', config'. split; [| done]. by destruct params.
      + destruct (Hparams [] c system_prompt Hp Hsp eq_refl) as (evs' & config' & H & ?).
        exists evs', config'. split; [| done]. by destruct params.
    - cbn [update_system_prompt py_setitem].
      destruct (Hparams [Print "System prompt updated"]
                  (<["system_prompt"%string := JStr (String a text)]> c) (String a text))
        as (evs' & config' & H & ?).
      + by rewrite lookup_insert_ne.
      + apply lookup_insert_eq.
      + by rewrite lookup_insert_ne.
      + exists evs', config'. split; [| done]. by destruct params. }
  destruct prompt as [text|]; [apply Hrun |].
  destruct (Hrun ""%string) as (evs' & config' & H & ?).
  exists evs', config'. split; [| done].
  rewrite <- H. unfold main_update. by destruct prompt_file as [[shown [|read]]|].
Qed.

Lemma X28_generated_configuration_witness :
  exists evs config',
    main_update (fun _ => None)
      (generate_llm_config "Be kind." (JObj DEFAULT_LLM_PARAMS_dict) "2025-01-01T00:00:00")
      None (Some ("prompt.txt", Found (Ok " Be brief.
")))%string (Some ["top_k=50"]%string)
    = (evs, Ok config')
    /\ field "system_prompt" config' = Some (JStr "Be brief.")
    /\ field "metadata" config'
       = field "metadata"
           (generate_llm_config "Be kind." (JObj DEFAULT_LLM_PARAMS_dict)
              "2025-01-01T00:00:00").
Proof.
  apply (X28_generated_configuration_accepts_updates (fun _ => None) "Be kind."
           "2025-01-01T00:00:00" DEFAULT_LLM_PARAMS_dict None
           (Some ("prompt.txt", Found (Ok " Be brief.
")))%string ["top_k=50"]%string).
  - apply Forall_cons. split; [reflexivity | apply Forall_nil_2].
  - intros shown state [= <- <-]. by eexists.
Defined.
